(** * AIForge Docker service manager: a shallow embedding and its properties

    The development follows [src/aiforge/utils/manage_docker_services.py].
    The script is a sequence of external commands, file probes and prints,
    so it is embedded in a small monad over
    - a read-only [World] that answers every interaction with the outside
      (processes, the file system, the YAML library, the sleep), as a
      function of the interactions that happened before;
    - the chronological [history] of those interactions;
    - the lines printed to the console;
    - Python exceptions, with the class hierarchy that [except] clauses
      inspect.

    Text is modelled as [string] (sequences of bytes); the Python string
    methods below act on the ASCII range, which is where image references,
    command lines and the markers the script looks for live. *)

From Stdlib Require Import ZArith Ascii String List Bool Lia.
From stdpp Require Import base strings gmap list pretty.

Open Scope string_scope.
Open Scope Z_scope.

(** ** Python string methods *)

Module PyStr.

Definition LF : ascii := "010"%char.
Definition TAB : ascii := "009"%char.
Definition COLON : ascii := ":"%char.

(** [str.isspace] on one character of the ASCII range: tab, line feed,
    vertical tab, form feed, carriage return, the four separators
    0x1c-0x1f and the space. *)
Definition isspace (c : ascii) : bool :=
  let n := nat_of_ascii c in
  ((9 <=? n)%nat && (n <=? 13)%nat) || ((28 <=? n)%nat && (n <=? 32)%nat).

Fixpoint lstrip (s : string) : string :=
  match s with
  | EmptyString => EmptyString
  | String c s' => if isspace c then lstrip s' else s
  end.

Fixpoint rstrip (s : string) : string :=
  match s with
  | EmptyString => EmptyString
  | String c s' =>
      match rstrip s' with
      | EmptyString => if isspace c then EmptyString else String c EmptyString
      | r => String c r
      end
  end.

(** [s.strip()] *)
Definition strip (s : string) : string := lstrip (rstrip s).

(** Truth value of a string: [if s:] *)
Definition truthy (s : string) : bool :=
  match s with EmptyString => false | _ => true end.

(** [s.split(sep)] for a one-character separator: never the empty list. *)
Fixpoint split (sep : ascii) (s : string) : list string :=
  match s with
  | EmptyString => [EmptyString]
  | String c s' =>
      if Ascii.eqb c sep then EmptyString :: split sep s'
      else match split sep s' with
           | h :: t => String c h :: t
           | [] => [String c EmptyString]
           end
  end.

(** [s.split(sep, 1)]: cut at the first separator only. *)
Fixpoint split1 (sep : ascii) (s : string) : list string :=
  match s with
  | EmptyString => [EmptyString]
  | String c s' =>
      if Ascii.eqb c sep then [EmptyString; s']
      else match split1 sep s' with
           | h :: t => String c h :: t
           | [] => [String c EmptyString]
           end
  end.

Fixpoint startswith (p s : string) : bool :=
  match p, s with
  | EmptyString, _ => true
  | String a p', String b s' => Ascii.eqb a b && startswith p' s'
  | String _ _, EmptyString => false
  end.

(** [sub in s] *)
Fixpoint contains (sub s : string) : bool :=
  startswith sub s ||
  match s with
  | EmptyString => false
  | String _ s' => contains sub s'
  end.

Definition lower_char (c : ascii) : ascii :=
  let n := nat_of_ascii c in
  if (65 <=? n)%nat && (n <=? 90)%nat then ascii_of_nat (n + 32) else c.

(** [s.lower()] *)
Fixpoint lower (s : string) : string :=
  match s with
  | EmptyString => EmptyString
  | String c s' => String (lower_char c) (lower s')
  end.

(** Iterating over a text stream: the lines with their terminators. *)
Fixpoint readlines (s : string) : list string :=
  match s with
  | EmptyString => []
  | String c s' =>
      if Ascii.eqb c LF then String c EmptyString :: readlines s'
      else match readlines s' with
           | h :: t => String c h :: t
           | [] => [String c EmptyString]
           end
  end.

(** ["=" * n] *)
Fixpoint repeat_str (s : string) (n : nat) : string :=
  match n with
  | O => EmptyString
  | S n' => s ++ repeat_str s n'
  end.

(** [any(p(x) for x in l)] *)
Definition any {A} (p : A -> bool) (l : list A) : bool := existsb p l.

End PyStr.

(** ** Python exceptions *)

Inductive pyclass :=
| BaseException | Exception | KeyboardInterrupt
| OSError | FileNotFoundError | PermissionError
| SubprocessError | CalledProcessError
| ImportError | TypeError | AttributeError | ValueError
| LookupError | KeyError | IndexError
| YAMLError.

#[global] Instance pyclass_eq_dec : EqDecision pyclass.
Proof. solve_decision. Defined.

(** The direct base class, as in the Python standard library (PyYAML's
    [YAMLError] derives from [Exception]). *)
Definition base_class (c : pyclass) : option pyclass :=
  match c with
  | BaseException => None
  | Exception | KeyboardInterrupt => Some BaseException
  | OSError | SubprocessError | ImportError | TypeError | AttributeError
  | ValueError | LookupError | YAMLError => Some Exception
  | FileNotFoundError | PermissionError => Some OSError
  | CalledProcessError => Some SubprocessError
  | KeyError | IndexError => Some LookupError
  end.

Fixpoint issubclass_upto (n : nat) (c d : pyclass) : bool :=
  bool_decide (c = d) ||
  match n with
  | O => false
  | S n' =>
      match base_class c with
      | Some b => issubclass_upto n' b d
      | None => false
      end
  end.

(** The hierarchy above has depth three. *)
Definition issubclass (c d : pyclass) : bool := issubclass_upto 3 c d.

Record exn := mk_exn { exn_class : pyclass; exn_str : string }.

(** [isinstance(e, c)], the test an [except c:] clause performs. *)
Definition isinstance (e : exn) (c : pyclass) : bool :=
  issubclass (exn_class e) c.

Inductive res (A : Type) :=
| Ret (a : A)
| Raise (e : exn).
Arguments Ret {A} a.
Arguments Raise {A} e.

(** ** Parsed YAML documents, as the Python values [yaml.safe_load] builds

    A document is modelled by its value. PyYAML gives one object to an
    anchored mapping and to its aliases, so that in Python an update of
    the [search] section also shows in the entries that alias it: what
    is said below of the other entries of a written document is about
    documents in which the [search] section is not shared. *)

#[warnings="-register-all"]
Inductive pyval :=
| PNone
| PBool (b : bool)
| PInt (z : Z)
| PStr (s : string)
| PList (l : list pyval)
| PDict (d : gmap string pyval).

(** ** The outside world *)

Record CompletedProcess :=
  { returncode : Z; stdout : string; stderr : string }.

(** What starting an external command leads to: it ran to completion, or
    the call raised (the executable is missing, an interrupt arrived...). *)
Inductive outcome :=
| Completed (p : CompletedProcess)
| Failed (e : exn).

Inductive event :=
| ERun (argv : list string) (o : outcome)
| EPopen (argv : list string) (o : outcome)
| EExists (path : string) (b : bool)
| EExistsFailed (path : string) (e : exn)
| ELookup (api : string) (r : res string)
| ESleep (seconds : Z) (o : option exn)
| EImport (name : string) (ok : bool)
| ELoad (path : string) (r : res pyval)
| EDump (path : string) (doc : pyval) (o : option exn).

(** Every answer may depend on all that happened before.

    [Path.exists()] answers [path_exists] unless [path_error] says that
    the probe raises: up to Python 3.13 it lets every [OSError] through
    but those of a missing path (a [PermissionError] on a directory that
    cannot be searched, for one).

    [importlib_root] is what [from importlib import resources] followed
    by [resources.path("aiforge", "..")] leads to, [pkg_resources_root]
    what [import pkg_resources] followed by
    [pkg_resources.resource_filename("aiforge", "..")] leads to: the
    directory, as the string of its [Path], or the exception raised on
    the way. *)
Record World := {
  run_result : list event -> list string -> outcome;
  popen_result : list event -> list string -> outcome;
  path_exists : list event -> string -> bool;
  path_error : list event -> string -> option exn;
  sleep_result : list event -> Z -> option exn;
  yaml_installed : bool;
  yaml_load : list event -> string -> res pyval;
  yaml_dump : list event -> string -> pyval -> option exn;
  cwd : string;
  importlib_root : list event -> res string;
  pkg_resources_root : list event -> res string
}.

(** ** The monad of the script *)

Record run (A : Type) := Run {
  value : res A;
  history : list event;
  printed : list string
}.
Arguments Run {A} value history printed.
Arguments value {A} r.
Arguments history {A} r.
Arguments printed {A} r.

Definition M (A : Type) : Type := list event -> run A.

Definition ret {A} (a : A) : M A := fun h => Run (Ret a) h [].

Definition raise {A} (e : exn) : M A := fun h => Run (Raise e) h [].

Definition bind {A B} (m : M A) (k : A -> M B) : M B :=
  fun h =>
    let r := m h in
    match value r with
    | Ret a =>
        let r' := k a (history r) in
        Run (value r') (history r') (app (printed r) (printed r'))
    | Raise e => Run (Raise e) (history r) (printed r)
    end.

Declare Scope py_scope.
Delimit Scope py_scope with py.
Notation "x ← y ; z" := (bind y (fun x => z))
  (at level 20, y at level 100, z at level 200, only parsing) : py_scope.
Notation "' x ← y ; z" := (bind y (fun x => z))
  (at level 20, x pattern, y at level 100, z at level 200, only parsing) : py_scope.
Notation "y ;; z" := (bind y (fun _ => z))
  (at level 100, z at level 200, only parsing, right associativity) : py_scope.
Open Scope py_scope.

(** [try: m  except ...:]. The handler table answers [None] for an
    exception no clause matches, which then propagates. *)
Definition try_except {A} (m : M A) (handler : exn -> option (M A)) : M A :=
  fun h =>
    let r := m h in
    match value r with
    | Ret _ => r
    | Raise e =>
        match handler e with
        | Some k =>
            let r' := k (history r) in
            Run (value r') (history r') (app (printed r) (printed r'))
        | None => r
        end
    end.

(** One clause [except c:] *)
Definition except {A} (c : pyclass) (k : exn -> M A) (e : exn) : option (M A) :=
  if isinstance e c then Some (k e) else None.

(** Two clauses, tried in order *)
Definition orelse {A} (h1 h2 : exn -> option (M A)) (e : exn) : option (M A) :=
  match h1 e with
  | Some k => Some k
  | None => h2 e
  end.

Definition print (line : string) : M unit := fun h => Run (Ret tt) h [line].

(** A block of a function body either falls through to the statement
    after it or executes [return]. *)
Inductive flow (R A : Type) :=
| Return (r : R)
| Next (a : A).
Arguments Return {R A} r.
Arguments Next {R A} a.

Definition bind_flow {R A} (m : M (flow R A)) (k : A -> M R) : M R :=
  bind m (fun f => match f with Return r => ret r | Next a => k a end).

Notation "x <~ y ; z" := (bind_flow y (fun x => z))
  (at level 20, y at level 100, z at level 200, only parsing) : py_scope.

(** [for x in l: body], threading the variables the body assigns. *)
Fixpoint for_in {A S} (l : list A) (body : A -> S -> M S) (s : S) : M S :=
  match l with
  | [] => ret s
  | x :: l' => bind (body x s) (for_in l' body)
  end.

Definition lift {A} (r : res A) : M A := fun h => Run r h [].

(** ** Python operations on parsed documents

    Only the operations [_check_and_update_searxng_formats] performs, with
    the exception each raises on a value of the wrong type. *)

Module PyVal.

Definition type_error {A} (s : string) : res A := Raise (mk_exn TypeError s).

(** [key in v] for a string [key] *)
Definition contains (key : string) (v : pyval) : res bool :=
  match v with
  | PDict d => Ret (bool_decide (is_Some (d !! key)))
  | PList l =>
      Ret (existsb (fun x => match x with PStr s => String.eqb key s | _ => false end) l)
  | PStr s => Ret (PyStr.contains key s)
  | PNone | PBool _ | PInt _ => type_error "argument is not iterable"
  end.

(** [v[key] = x] *)
Definition setitem (v : pyval) (key : string) (x : pyval) : res pyval :=
  match v with
  | PDict d => Ret (PDict (<[key := x]> d))
  | _ => type_error "object does not support item assignment"
  end.

(** [v[key]] *)
Definition getitem (v : pyval) (key : string) : res pyval :=
  match v with
  | PDict d =>
      match d !! key with
      | Some x => Ret x
      | None => Raise (mk_exn KeyError key)
      end
  | _ => type_error "object is not subscriptable by a string"
  end.

(** [v.get(key, default)] *)
Definition get (v : pyval) (key : string) (default : pyval) : res pyval :=
  match v with
  | PDict d =>
      match d !! key with
      | Some x => Ret x
      | None => Ret default
      end
  | _ => Raise (mk_exn AttributeError "object has no attribute 'get'")
  end.

Definition hashable (v : pyval) : bool :=
  match v with
  | PList _ | PDict _ => false
  | _ => true
  end.

(** [a == b] on hashable values: [True == 1], and a string equals only
    the same string. *)
Definition eq (a b : pyval) : bool :=
  match a, b with
  | PNone, PNone => true
  | PBool x, PBool y => Bool.eqb x y
  | PBool x, PInt y | PInt y, PBool x => Z.b2z x =? y
  | PInt x, PInt y => x =? y
  | PStr x, PStr y => String.eqb x y
  | _, _ => false
  end.

(** A Python set, as the list of its elements. *)
Definition pyset := list pyval.

(** [set(v)]: the elements of a list (all of them must be hashable), the
    characters of a string, the keys of a dict. *)
Definition set (v : pyval) : res pyset :=
  match v with
  | PList l =>
      if forallb hashable l then Ret l else type_error "unhashable type"
  | PStr s => Ret (map (fun c => PStr (String c EmptyString)) (list_ascii_of_string s))
  | PDict d => Ret (map (fun kv => PStr (fst kv)) (map_to_list d))
  | PNone | PBool _ | PInt _ => type_error "object is not iterable"
  end.

Definition subset (a b : pyset) : bool :=
  forallb (fun x => existsb (eq x) b) a.

(** [a == b] on sets *)
Definition set_eq (a b : pyset) : bool := subset a b && subset b a.

End PyVal.

(** ** Interactions with the outside *)

Import PyStr.

Definition nl (s : string) : string := String LF s.

(** [str(Path(a) / b)] for a directory [a] given by the string of its
    [Path] and a relative name [b]: a root directory already ends with
    the separator. *)
Fixpoint ends_with_slash (a : string) : bool :=
  match a with
  | EmptyString => false
  | String c EmptyString => Ascii.eqb c "/"
  | String _ a' => ends_with_slash a'
  end.

Definition path_join (a b : string) : string :=
  if ends_with_slash a then a ++ b else a ++ "/" ++ b.

(** The history grows at its end. *)
Definition log (h : list event) (e : event) : list event := app h [e].

Section Script.

Variable w : World.

(** [subprocess.run(argv, ..., check=check)] *)
Definition subprocess_run (argv : list string) (check : bool) : M CompletedProcess :=
  fun h =>
    let o := run_result w h argv in
    let h' := log h (ERun argv o) in
    match o with
    | Completed p =>
        if check && negb (returncode p =? 0)
        then Run (Raise (mk_exn CalledProcessError "Command returned non-zero exit status")) h' []
        else Run (Ret p) h' []
    | Failed e => Run (Raise e) h' []
    end.

(** [subprocess.Popen(argv, stdout=PIPE, stderr=STDOUT, ...)] read to the
    end and waited for: the merged output and the return code. *)
Definition subprocess_Popen (argv : list string) : M CompletedProcess :=
  fun h =>
    let o := popen_result w h argv in
    let h' := log h (EPopen argv o) in
    match o with
    | Completed p => Run (Ret p) h' []
    | Failed e => Run (Raise e) h' []
    end.

(** [Path(path).exists()] *)
Definition Path_exists (path : string) : M bool :=
  fun h =>
    match path_error w h path with
    | Some e => Run (Raise e) (log h (EExistsFailed path e)) []
    | None =>
        let b := path_exists w h path in
        Run (Ret b) (log h (EExists path b)) []
    end.

(** [time.sleep(seconds)] *)
Definition time_sleep (seconds : Z) : M unit :=
  fun h =>
    let o := sleep_result w h seconds in
    Run (match o with None => Ret tt | Some e => Raise e end)
        (log h (ESleep seconds o)) [].

(** [import yaml] *)
Definition import_yaml : M unit :=
  fun h =>
    Run (if yaml_installed w then Ret tt
         else Raise (mk_exn ImportError "No module named 'yaml'"))
        (log h (EImport "yaml" (yaml_installed w))) [].

(** [with open(path, "r", encoding="utf-8") as f: yaml.safe_load(f)] *)
Definition yaml_safe_load (path : string) : M pyval :=
  fun h =>
    let r := yaml_load w h path in
    Run r (log h (ELoad path r)) [].

(** [with open(path, "w", encoding="utf-8") as f: yaml.dump(doc, f, ...)] *)
Definition yaml_dump_to (path : string) (doc : pyval) : M unit :=
  fun h =>
    let o := yaml_dump w h path doc in
    Run (match o with None => Ret tt | Some e => Raise e end)
        (log h (EDump path doc o)) [].

(** ** class DockerServiceManager *)

Record DockerServiceManager :=
  { compose_file : string; dev_compose_file : string }.

Definition _is_source_environment : M bool :=
  let current_dir := cwd w in
  a ← Path_exists (path_join (path_join current_dir "src") "aiforge");
  if a then
    b ← Path_exists (path_join current_dir "docker-compose.yml");
    if b then Path_exists (path_join current_dir "pyproject.toml")
    else ret false
  else ret false.

(** [from importlib import resources] and [resources.path("aiforge", "..")] *)
Definition importlib_resources_path : M string :=
  fun h =>
    let r := importlib_root w h in
    Run r (log h (ELookup "importlib.resources" r)) [].

(** [import pkg_resources] and [pkg_resources.resource_filename("aiforge", "..")] *)
Definition pkg_resources_filename : M string :=
  fun h =>
    let r := pkg_resources_root w h in
    Run r (log h (ELookup "pkg_resources" r)) [].

Definition _get_package_resource (filename : string) : M string :=
  try_except
    (package_root ← importlib_resources_path;
     ret (path_join package_root filename))
    (except ImportError (fun _ =>
       package_root ← pkg_resources_filename;
       ret (path_join package_root filename))).

Definition __init__ : M DockerServiceManager :=
  src ← _is_source_environment;
  if src then
    ret {| compose_file := "docker-compose.yml";
            dev_compose_file := "docker-compose.dev.yml" |}
  else
    c ← _get_package_resource "docker-compose.yml";
    d ← _get_package_resource "docker-compose.dev.yml";
    ret {| compose_file := c; dev_compose_file := d |}.

Section Methods.

Variable self : DockerServiceManager.

(** [checks[key]] *)
Definition checks_getitem (checks : gmap string bool) (key : string) : M bool :=
  match checks !! key with
  | Some b => ret b
  | None => raise (mk_exn KeyError key)
  end.

Definition initial_checks : gmap string bool :=
  list_to_map
    [ ("docker_available", false);
      ("docker_compose_available", false);
      ("docker_running", false);
      ("compose_file_exists", false);
      ("dev_compose_file_exists", false);
      ("aiforge_image_exists", false) ].

Definition list_aiforge_images : list string :=
  [ "docker"; "images"; "--format"; "{{.Repository}}:{{.Tag}}";
    "--filter"; "reference=*aiforge*" ].

Definition check_docker_environment : M (gmap string bool) :=
  print "🔍 检查Docker环境...";;
  let checks := initial_checks in
  (* is Docker installed *)
  checks <~ try_except
    (result ← subprocess_run ["docker"; "--version"] false;
     if returncode result =? 0 then
       print "✅ Docker已安装";;
       ret (Next (<["docker_available" := true]> checks))
     else
       print "❌ Docker未安装";;
       ret (Return checks))
    (except FileNotFoundError (fun _ =>
       print "❌ Docker未安装或不在PATH中";;
       ret (Return checks)));
  (* is the daemon running *)
  checks <~ try_except
    (result ← subprocess_run ["docker"; "info"] false;
     if returncode result =? 0 then
       print "✅ Docker服务正在运行";;
       ret (Next (<["docker_running" := true]> checks))
     else
       print "❌ Docker服务未运行，请启动Docker Desktop";;
       ret (Return checks))
    (except Exception (fun _ =>
       print "❌ 无法连接到Docker服务";;
       ret (Return checks)));
  (* Docker Compose *)
  checks ← try_except
    (result ← subprocess_run ["docker-compose"; "--version"] false;
     if returncode result =? 0 then
       print "✅ Docker Compose可用";;
       ret (<["docker_compose_available" := true]> checks)
     else
       print "❌ Docker Compose不可用";;
       ret checks)
    (except FileNotFoundError (fun _ =>
       print "❌ Docker Compose未安装";;
       ret checks));
  (* the compose files *)
  ex ← Path_exists (compose_file self);
  checks ← (if ex then
              print "✅ docker-compose.yml存在";;
              ret (<["compose_file_exists" := true]> checks)
            else
              print "❌ docker-compose.yml不存在";;
              ret checks);
  ex ← Path_exists (dev_compose_file self);
  checks ← (if ex then
              print "✅ docker-compose.dev.yml存在";;
              ret (<["dev_compose_file_exists" := true]> checks)
            else
              print "ℹ️ docker-compose.dev.yml不存在（开发模式不可用）";;
              ret checks);
  (* the AIForge image *)
  checks ← try_except
    (result ← subprocess_run list_aiforge_images false;
     if truthy (strip (stdout result)) then
       print "✅ AIForge镜像已存在";;
       ret (<["aiforge_image_exists" := true]> checks)
     else
       print "ℹ️ AIForge镜像不存在，需要构建";;
       ret checks)
    (except Exception (fun _ =>
       print "⚠️ 无法检查AIForge镜像状态";;
       ret checks));
  ret checks.

(** How one line of the build output is echoed. *)
Definition echo_build_line (line : string) : M unit :=
  let line := strip line in
  if truthy line then
    if contains "Step" line then print ("🔧 " ++ line)
    else if contains "Successfully built" line || contains "Successfully tagged" line
    then print ("✅ " ++ line)
    else if contains "ERROR" line || contains "FAILED" line
    then print ("❌ " ++ line)
    else if any (fun keyword => contains keyword line)
                ["Downloading"; "Extracting"; "Pull complete"]
    then print ("⬇️ " ++ line)
    else ret tt
  else ret tt.

Definition build_images_if_needed (dev_mode : bool) : M bool :=
  print (nl "🔨 检查并构建必要的镜像...");;
  try_except
    (result ← subprocess_run list_aiforge_images false;
     if truthy (strip (stdout result)) then
       print "✅ AIForge镜像已存在，跳过构建";;
       ret true
     else
       print "📦 开始构建AIForge镜像...";;
       print "ℹ️ 首次构建可能需要5-10分钟，请耐心等待...";;
       let cmd := ["docker-compose"] in
       both ← (if dev_mode then Path_exists (dev_compose_file self) else ret false);
       let cmd :=
         if both
         then app cmd ["-f"; compose_file self; "-f"; dev_compose_file self]
         else app cmd ["-f"; compose_file self] in
       let cmd := app cmd ["build"; "--no-cache"] in
       process ← subprocess_Popen cmd;
       print "📦 构建进度:";;
       for_in (readlines (stdout process)) (fun line _ => echo_build_line line) tt;;
       if returncode process =? 0 then
         print "✅ 镜像构建成功";;
         ret true
       else
         print "❌ 镜像构建失败";;
         ret false)
    (except Exception (fun e =>
       print ("❌ 构建过程异常: " ++ exn_str e);;
       ret false)).

Definition health_services : list (string * string) :=
  [ ("aiforge-engine", "8000");
    ("aiforge-searxng", "8080");
    ("aiforge-nginx", "55510") ].

Definition _check_service_health : M unit :=
  print (nl "🏥 服务健康检查:");;
  for_in health_services
    (fun '(service, port) _ =>
       try_except
         (result ← subprocess_run
             ["docker"; "ps"; "--filter"; "name=" ++ service;
              "--format"; "{{.Status}}"] false;
          let status := strip (stdout result) in
          if contains "Up" status
          then print ("✅ " ++ service ++ ": 运行正常")
          else print ("❌ " ++ service ++ ": " ++ status))
         (except Exception (fun _ =>
            print ("⚠️ " ++ service ++ ": 状态未知"))))
    tt.

Definition _show_service_urls : M unit :=
  print (nl "🌐 服务访问地址:");;
  print "- AIForge Web: http://localhost:8000";;
  print "- SearXNG: http://localhost:55510";;
  print "- 管理面板: http://localhost:8000/admin".

Definition settings_file : string := "searxng/settings.yml".

Definition required_formats : list string := ["html"; "json"; "csv"; "rss"].

Definition _check_and_update_searxng_formats : M bool :=
  _ <~ try_except
    (import_yaml;; ret (Next tt))
    (except ImportError (fun _ =>
       print "⚠️ PyYAML未安装，跳过SearXNG配置更新";;
       ret (Return false)));
  ex ← Path_exists settings_file;
  if negb ex then
    print "ℹ️ SearXNG配置文件不存在，跳过格式更新";;
    ret false
  else
    try_except
      (config ← yaml_safe_load settings_file;
       has ← lift (PyVal.contains "search" config);
       config ← (if negb has
                 then lift (PyVal.setitem config "search" (PDict ∅))
                 else ret config);
       let required := PList (map PStr required_formats) in
       search ← lift (PyVal.getitem config "search");
       current_formats ← lift (PyVal.get search "formats" (PList []));
       current_set ← lift (PyVal.set current_formats);
       required_set ← lift (PyVal.set required);
       if negb (PyVal.set_eq current_set required_set) then
         (* config["search"]["formats"] = required_formats *)
         search ← lift (PyVal.getitem config "search");
         search ← lift (PyVal.setitem search "formats" required);
         config ← lift (PyVal.setitem config "search" search);
         yaml_dump_to settings_file config;;
         print "✅ SearXNG配置已更新，支持多种输出格式";;
         ret true
       else
         print "✅ SearXNG配置已是最新";;
         ret false)
      (except Exception (fun e =>
         print ("⚠️ 更新SearXNG配置失败: " ++ exn_str e);;
         ret false)).

Definition start_services (dev_mode : bool) : M bool :=
  print "🚀 AIForge Docker一体化启动...";;
  print (repeat_str "=" 50);;
  (* 1. the environment *)
  checks ← check_docker_environment;
  ok ← checks_getitem checks "docker_available";
  if negb ok then
    print (nl "❌ Docker未安装，请先安装Docker Desktop");;
    print "💡 下载地址: https://www.docker.com/products/docker-desktop";;
    ret false
  else
  ok ← checks_getitem checks "docker_running";
  if negb ok then
    print (nl "❌ Docker服务未运行");;
    print "💡 请启动Docker Desktop并等待其完全启动";;
    ret false
  else
  ok ← checks_getitem checks "docker_compose_available";
  if negb ok then
    print (nl "❌ Docker Compose不可用");;
    ret false
  else
  ok ← checks_getitem checks "compose_file_exists";
  if negb ok then
    print (nl "❌ docker-compose.yml文件不存在");;
    ret false
  else
  missing ← (if dev_mode
             then (d ← checks_getitem checks "dev_compose_file_exists"; ret (negb d))
             else ret false);
  dev_mode ← (if missing then
                print (nl "⚠️ 开发模式需要docker-compose.dev.yml文件");;
                print "💡 将使用生产模式启动";;
                ret false
              else ret dev_mode);
  print (nl (repeat_str "=" 50));;
  (* 2. the images *)
  built ← build_images_if_needed dev_mode;
  if negb built then ret false
  else
  print (nl (repeat_str "=" 50));;
  (* 3. the stack *)
  print "🚀 启动Docker服务栈...";;
  try_except
    (print "🧹 清理旧容器...";;
     subprocess_run ["docker-compose"; "down"] false;;
     let cmd := ["docker-compose"] in
     cmd ← (if dev_mode then
              print "🔧 开发模式启动（代码热重载）";;
              ret (app cmd ["-f"; compose_file self; "-f"; dev_compose_file self])
            else
              print "🔨 生产模式启动";;
              ret (app cmd ["-f"; compose_file self]));
     let cmd := app cmd ["up"; "-d"] in
     result ← subprocess_run cmd false;
     if returncode result =? 0 then
       print "✅ Docker服务启动成功";;
       _show_service_urls;;
       print (nl "⏳ 等待服务完全启动...");;
       time_sleep 10;;
       _check_service_health;;
       _check_and_update_searxng_formats;;
       print (nl "🎉 AIForge Docker服务一体化启动完成！");;
       print "💡 现在可以开始使用AIForge了";;
       ret true
     else
       print ("❌ Docker服务启动失败: " ++ stderr result);;
       ret false)
    (except Exception (fun e =>
       print ("❌ 启动过程异常: " ++ exn_str e);;
       ret false)).

Definition stop_services : M bool :=
  ex ← Path_exists (compose_file self);
  if negb ex then
    print "❌ docker-compose.yml文件不存在";;
    ret false
  else
    print "🛑 停止AIForge Docker服务...";;
    try_except
      (subprocess_run ["docker-compose"; "-f"; compose_file self; "down"] true;;
       print "✅ Docker服务停止成功";;
       ret true)
      (except CalledProcessError (fun e =>
         print ("❌ Docker服务停止失败: " ++ exn_str e);;
         ret false)).

Definition show_status : M unit :=
  print "📊 AIForge Docker服务状态:";;
  print (repeat_str "=" 40);;
  try_except
    (result ← subprocess_run ["docker-compose"; "ps"] true;
     print (stdout result);;
     _check_service_health)
    (except CalledProcessError (fun _ => print "❌ 无法获取服务状态")).

Definition cleanup : M bool :=
  print "🧹 清理AIForge Docker资源...";;
  try_except
    (subprocess_run ["docker-compose"; "down"; "-v"] false;;
     subprocess_run
       ["docker"; "image"; "prune"; "-f"; "--filter";
        "label=com.docker.compose.project=aiforge"] false;;
     print "✅ Docker资源清理完成";;
     ret true)
    (except Exception (fun e =>
       print ("❌ 清理失败: " ++ exn_str e);;
       ret false)).

(** [a, b = l] *)
Definition unpack2 (l : list string) : res (string * string) :=
  match l with
  | [a; b] => Ret (a, b)
  | _ => Raise (mk_exn ValueError "wrong number of values to unpack")
  end.

(** [l[0]] *)
Definition index0 (l : list string) : res string :=
  match l with
  | x :: _ => Ret x
  | [] => Raise (mk_exn IndexError "list index out of range")
  end.

Definition list_all_images : list string :=
  [ "docker"; "images"; "--format";
    "{{.Repository}}:{{.Tag}}" ++ String TAB "{{.ID}}" ].

Definition preserve_images : gset string :=
  {[ "python"; "searxng/searxng"; "nginx" ]}.

(** The body of the loop over the listed lines: [images_to_remove] is the
    variable it appends to. *)
Definition mark_image (line : string) (images_to_remove : list string)
  : M (list string) :=
  if contains (String TAB EmptyString) line then
    '(repo_tag, image_id) ← lift (unpack2 (split1 TAB line));
    repo ← lift (index0 (split COLON repo_tag));
    if any (fun keyword => contains keyword (lower repo)) ["aiforge"] then
      if negb (any (fun base => contains base (lower repo)) (elements preserve_images))
      then ret (app images_to_remove [image_id])
      else ret images_to_remove
    else ret images_to_remove
  else ret images_to_remove.

Definition _remove_aiforge_built_images_only : M unit :=
  try_except
    (result ← subprocess_run list_all_images false;
     if negb (truthy (strip (stdout result))) then ret tt
     else
       images_to_remove ← for_in (split LF (strip (stdout result))) mark_image [];
       for_in images_to_remove
         (fun image_id _ =>
            subprocess_run ["docker"; "rmi"; "-f"; image_id] false;; ret tt) tt;;
       match images_to_remove with
       | _ :: _ =>
           print ("✅ 移除了 " ++ pretty (length images_to_remove) ++ " 个AIForge构建镜像")
       | [] => print "ℹ️ 没有找到需要清理的AIForge构建镜像"
       end)
    (except Exception (fun e => print ("⚠️ 清理构建镜像时出错: " ++ exn_str e))).

Definition deep_cleanup : M bool :=
  print "🔥 执行AIForge彻底清理...";;
  print "⚠️ 这将删除AIForge相关的Docker资源，但保留Python、SearXNG、Nginx基础镜像";;
  try_except
    (print "🛑 停止所有服务...";;
     subprocess_run ["docker-compose"; "down"; "-v"; "--remove-orphans"] false;;
     print "🗑️ 清理AIForge构建镜像...";;
     _remove_aiforge_built_images_only;;
     print "🧹 清理构建缓存...";;
     subprocess_run ["docker"; "builder"; "prune"; "-f"] false;;
     print "🌐 清理悬空资源...";;
     subprocess_run ["docker"; "image"; "prune"; "-f"] false;;
     subprocess_run ["docker"; "volume"; "prune"; "-f"] false;;
     print "✅ 彻底清理完成，基础镜像已保留";;
     ret true)
    (except Exception (fun e =>
       print ("❌ 彻底清理失败: " ++ exn_str e);;
       ret false)).

End Methods.

(** ** The command line *)

Definition choices : list string :=
  ["start"; "stop"; "status"; "cleanup"; "deep-cleanup"].

(** The [if]/[elif] chain of [main]: the value assigned to [success].
    The methods that never read [self] take no manager. *)
Definition dispatch (manager : DockerServiceManager) (action : string) (dev : bool)
  : M bool :=
  if String.eqb action "start" then start_services manager dev
  else if String.eqb action "stop" then stop_services manager
  else if String.eqb action "status" then (show_status;; ret true)
  else if String.eqb action "cleanup" then cleanup
  else if String.eqb action "deep-cleanup" then deep_cleanup
  else ret false.

(** [main] yields the status it hands to [sys.exit]. [parse_args] leaves
    with status 2 when the action is not one of the choices. *)
Definition main (action : string) (dev : bool) : M Z :=
  if negb (existsb (String.eqb action) choices) then ret 2
  else
    manager ← __init__;
    success ← try_except
      (dispatch manager action dev)
      (orelse
         (except KeyboardInterrupt (fun _ =>
            print (nl "⚠️ 用户中断操作");;
            ret false))
         (except Exception (fun e =>
            print ("❌ 执行异常: " ++ exn_str e);;
            ret false)));
    ret (if success then 0 else 1).

End Script.

(** The status of the process: an exception nothing caught ends the
    interpreter with status 1, but for an interrupt nothing caught, which
    ends it the way the signal would (130 to a shell). *)
Definition exit_status (r : run Z) : Z :=
  match value r with
  | Ret code => code
  | Raise e => if isinstance e KeyboardInterrupt then 130 else 1
  end.

(** * Properties *)

(** ** Facts about the string methods *)

Module PyStrFacts.

Lemma append_nil_l (s : string) : EmptyString ++ s = s.
Proof. reflexivity. Qed.

Lemma append_cons (c : ascii) (s t : string) : String c s ++ t = String c (s ++ t).
Proof. reflexivity. Qed.

Lemma append_nil_r (s : string) : s ++ EmptyString = s.
Proof.
  induction s as [|c s IH]; [reflexivity|].
  rewrite append_cons, IH. reflexivity.
Qed.

Lemma append_assoc (a b c : string) : (a ++ b) ++ c = a ++ b ++ c.
Proof.
  induction a as [|x a IH]; [reflexivity|].
  rewrite !append_cons, IH. reflexivity.
Qed.

(** [c] is one of the characters of [s]. *)
Fixpoint occurs (c : ascii) (s : string) : Prop :=
  match s with
  | EmptyString => False
  | String a s' => a = c \/ occurs c s'
  end.

(** [sub] is a contiguous part of [s]. *)
Definition Contains (sub s : string) : Prop :=
  exists pre suf, s = pre ++ sub ++ suf.

Lemma startswith_spec (p s : string) :
  startswith p s = true <-> exists suf, s = p ++ suf.
Proof.
  revert s. induction p as [|a p IH]; intros s; simpl.
  - split; [intros _; exists s; reflexivity | reflexivity].
  - destruct s as [|b s].
    + split; [discriminate | intros [suf H]; rewrite append_cons in H; discriminate].
    + rewrite andb_true_iff, Ascii.eqb_eq, IH. split.
      * intros [-> [suf ->]]. exists suf. reflexivity.
      * intros [suf H]. rewrite append_cons in H. injection H as -> ->. eauto.
Qed.

Lemma contains_spec (sub s : string) :
  contains sub s = true <-> Contains sub s.
Proof.
  induction s as [|c s IH].
  - cbn [contains]. rewrite orb_false_r, startswith_spec. split.
    + intros [suf H]. exists EmptyString, suf. exact H.
    + intros [pre [suf H]]. destruct pre as [|x pre].
      * exists suf. exact H.
      * rewrite append_cons in H. discriminate.
  - cbn [contains]. rewrite orb_true_iff, startswith_spec, IH. split.
    + intros [[suf H] | [pre [suf H]]].
      * exists EmptyString, suf. exact H.
      * exists (String c pre), suf. rewrite append_cons, H. reflexivity.
    + intros [pre [suf H]]. destruct pre as [|x pre].
      * left. exists suf. exact H.
      * right. rewrite append_cons in H. injection H as _ H. exists pre, suf. exact H.
Qed.

Lemma contains_char (c : ascii) (s : string) :
  contains (String c EmptyString) s = true <-> occurs c s.
Proof.
  induction s as [|a s IH]; cbn [contains startswith occurs].
  - split; [discriminate | tauto].
  - rewrite orb_true_iff, IH, andb_true_r, Ascii.eqb_eq.
    split; (intros [H|H]; [left; congruence | right; exact H]).
Qed.

(** Cutting at the first separator. *)
Lemma split1_first (c : ascii) (a b : string) :
  ~ occurs c a -> split1 c (a ++ String c b) = [a; b].
Proof.
  induction a as [|x a IH]; intros Hno.
  - rewrite append_nil_l. cbn [split1]. rewrite Ascii.eqb_refl. reflexivity.
  - rewrite append_cons. cbn [split1].
    destruct (Ascii.eqb x c) eqn:E.
    + apply Ascii.eqb_eq in E. exfalso. apply Hno. left. exact E.
    + rewrite IH; [reflexivity|]. intros H. apply Hno. right. exact H.
Qed.

Lemma occurs_cut (c : ascii) (s : string) :
  occurs c s -> exists a b, s = a ++ String c b /\ ~ occurs c a.
Proof.
  induction s as [|x s IH]; [intros []|].
  intros H. destruct (ascii_dec x c) as [->|Hne].
  - exists EmptyString, s. split; [reflexivity | intros []].
  - destruct H as [H|H]; [contradiction|].
    destruct (IH H) as (a & b & -> & Hno).
    exists (String x a), b. split; [reflexivity|].
    intros [E|E]; [contradiction | exact (Hno E)].
Qed.

Lemma split_head_first (c : ascii) (a b : string) :
  ~ occurs c a -> exists t, split c (a ++ String c b) = a :: t.
Proof.
  induction a as [|x a IH]; intros Hno.
  - rewrite append_nil_l. cbn [split]. rewrite Ascii.eqb_refl. eauto.
  - rewrite append_cons. cbn [split].
    destruct (Ascii.eqb x c) eqn:E.
    + apply Ascii.eqb_eq in E. exfalso. apply Hno. left. exact E.
    + destruct IH as [t Ht]; [intros H; apply Hno; right; exact H|].
      rewrite Ht. eauto.
Qed.

Lemma split_head_whole (c : ascii) (a : string) :
  ~ occurs c a -> split c a = [a].
Proof.
  induction a as [|x a IH]; intros Hno; [reflexivity|].
  cbn [split]. destruct (Ascii.eqb x c) eqn:E.
  - apply Ascii.eqb_eq in E. exfalso. apply Hno. left. exact E.
  - rewrite IH; [reflexivity|]. intros H. apply Hno. right. exact H.
Qed.

(** [field] up to its first [c], or all of it when it has none. *)
Definition BeforeFirst (c : ascii) (field part : string) : Prop :=
  ~ occurs c part /\ (field = part \/ exists rest, field = part ++ String c rest).

Lemma split_head (c : ascii) (field part : string) :
  BeforeFirst c field part -> exists t, split c field = part :: t.
Proof.
  intros [Hno [->|[rest ->]]].
  - exists []. apply split_head_whole. exact Hno.
  - apply split_head_first. exact Hno.
Qed.

Lemma before_first_total (c : ascii) (field : string) :
  exists part, BeforeFirst c field part.
Proof.
  induction field as [|x s [p [Hno Hp]]].
  - exists EmptyString. split; [intros [] | left; reflexivity].
  - destruct (ascii_dec x c) as [->|Hne].
    + exists EmptyString. split; [intros [] | right; exists s; reflexivity].
    + exists (String x p). split.
      * intros [E|E]; [contradiction | exact (Hno E)].
      * destruct Hp as [->|[rest ->]]; [left; reflexivity | right; exists rest; reflexivity].
Qed.

End PyStrFacts.

(** ** Running the monad *)

Lemma bind_run {A B} (m : M A) (k : A -> M B) (h : list event) :
  bind m k h =
  match value (m h) with
  | Ret a =>
      Run (value (k a (history (m h)))) (history (k a (history (m h))))
          (app (printed (m h)) (printed (k a (history (m h)))))
  | Raise e => Run (Raise e) (history (m h)) (printed (m h))
  end.
Proof. reflexivity. Qed.

Lemma bind_ret_run {A B} (a : A) (k : A -> M B) (h : list event) :
  bind (ret a) k h = k a h.
Proof. unfold bind, ret. cbn. destruct (k a h). reflexivity. Qed.

Lemma bind_lift_ret {A B} (a : A) (k : A -> M B) (h : list event) :
  bind (lift (Ret a)) k h = k a h.
Proof. apply (bind_ret_run a k h). Qed.

Lemma for_in_pure {A S} (f : A -> S -> S) (l : list A) (s : S) (h : list event)
    (body : A -> S -> M S) :
  (forall x s h, body x s h = Run (Ret (f x s)) h []) ->
  for_in l body s h = Run (Ret (fold_left (fun s x => f x s) l s)) h [].
Proof.
  intros Hbody. revert s. induction l as [|x l IH]; intros s; [reflexivity|].
  cbn [for_in fold_left]. rewrite bind_run, Hbody. cbn [value history printed].
  rewrite IH. reflexivity.
Qed.

(** ** Reasoning about runs

    [wp m h Q]: running [m] after the history [h] ends with a result and
    a history that satisfy [Q]. The rules below follow the constructs of
    the monad, so that a proof walks through the code of a method. *)

Definition wp {A} (m : M A) (h : list event) (Q : res A -> list event -> Prop) : Prop :=
  Q (value (m h)) (history (m h)).

Section WpRules.

Context {A B : Type}.

Lemma wp_ret (a : A) h Q : Q (Ret a) h -> wp (ret a) h Q.
Proof. exact (fun H => H). Qed.

Lemma wp_raise (e : exn) h (Q : res A -> list event -> Prop) :
  Q (Raise e) h -> wp (raise e) h Q.
Proof. exact (fun H => H). Qed.

Lemma wp_lift (r : res A) h Q : Q r h -> wp (lift r) h Q.
Proof. exact (fun H => H). Qed.

Lemma wp_print (line : string) h Q : Q (Ret tt) h -> wp (print line) h Q.
Proof. exact (fun H => H). Qed.

Lemma wp_bind (m : M A) (k : A -> M B) h Q :
  wp m h (fun r h' =>
            match r with
            | Ret a => wp (k a) h' Q
            | Raise e => Q (Raise e) h'
            end) ->
  wp (bind m k) h Q.
Proof.
  unfold wp. rewrite bind_run. destruct (value (m h)); exact (fun H => H).
Qed.

Lemma wp_try (m : M A) (handler : exn -> option (M A)) h Q :
  wp m h (fun r h' =>
            match r with
            | Ret a => Q (Ret a) h'
            | Raise e =>
                match handler e with
                | Some k => wp k h' Q
                | None => Q (Raise e) h'
                end
            end) ->
  wp (try_except m handler) h Q.
Proof.
  unfold wp, try_except. destruct (value (m h)) as [a|e] eqn:E.
  - rewrite E. exact (fun H => H).
  - destruct (handler e); [exact (fun H => H) | rewrite E; exact (fun H => H)].
Qed.

Lemma wp_mono (m : M A) h (Q Q' : res A -> list event -> Prop) :
  wp m h Q -> (forall r h', Q r h' -> Q' r h') -> wp m h Q'.
Proof. unfold wp. intros H HQ. apply HQ, H. Qed.

(** Sequencing through an intermediate assertion on the value handed to
    the continuation. *)
Lemma wp_bind_mid (P : A -> list event -> Prop) (m : M A) (k : A -> M B) h Q :
  wp m h (fun r h' =>
            match r with
            | Ret a => P a h'
            | Raise e => Q (Raise e) h'
            end) ->
  (forall a h', P a h' -> wp (k a) h' Q) ->
  wp (bind m k) h Q.
Proof.
  intros Hm Hk. apply wp_bind. apply (wp_mono _ _ _ _ Hm).
  intros [a|e] h'; [apply Hk | exact (fun H => H)].
Qed.

Lemma wp_value (m : M A) h Q :
  wp m h Q -> Q (value (m h)) (history (m h)).
Proof. exact (fun H => H). Qed.

End WpRules.

Lemma wp_bind_flow {R A} (m : M (flow R A)) (k : A -> M R) h Q :
  wp m h (fun r h' =>
            match r with
            | Ret (Return x) => Q (Ret x) h'
            | Ret (Next a) => wp (k a) h' Q
            | Raise e => Q (Raise e) h'
            end) ->
  wp (bind_flow m k) h Q.
Proof.
  intros H. unfold bind_flow. apply wp_bind. apply (wp_mono _ _ _ _ H).
  intros [[x|a]|e] h'; exact (fun H => H).
Qed.

Lemma wp_bind_flow_mid {R A} (P : A -> list event -> Prop)
    (m : M (flow R A)) (k : A -> M R) h Q :
  wp m h (fun r h' =>
            match r with
            | Ret (Return x) => Q (Ret x) h'
            | Ret (Next a) => P a h'
            | Raise e => Q (Raise e) h'
            end) ->
  (forall a h', P a h' -> wp (k a) h' Q) ->
  wp (bind_flow m k) h Q.
Proof.
  intros Hm Hk. apply wp_bind_flow. apply (wp_mono _ _ _ _ Hm).
  intros [[x|a]|e] h'; [exact (fun H => H) | apply Hk | exact (fun H => H)].
Qed.

Lemma wp_for_in {A S} (I : S -> list event -> Prop) (l : list A)
    (body : A -> S -> M S) (s : S) h (Q : res S -> list event -> Prop) :
  I s h ->
  (forall x s h, I s h ->
     wp (body x s) h (fun r h' =>
                        match r with
                        | Ret s' => I s' h'
                        | Raise e => Q (Raise e) h'
                        end)) ->
  (forall s h, I s h -> Q (Ret s) h) ->
  wp (for_in l body s) h Q.
Proof.
  intros HI Hbody Hend. revert s h HI.
  induction l as [|x l IH]; intros s h HI.
  - apply wp_ret, Hend, HI.
  - cbn [for_in]. apply wp_bind_mid with (P := I); [apply Hbody, HI | apply IH].
Qed.

Section WpWorld.

Variable w : World.

Lemma wp_subprocess_run (argv : list string) (check : bool) h Q :
  match run_result w h argv with
  | Completed p =>
      if check && negb (returncode p =? 0)
      then Q (Raise (mk_exn CalledProcessError "Command returned non-zero exit status"))
             (log h (ERun argv (Completed p)))
      else Q (Ret p) (log h (ERun argv (Completed p)))
  | Failed e => Q (Raise e) (log h (ERun argv (Failed e)))
  end ->
  wp (subprocess_run w argv check) h Q.
Proof.
  unfold wp, subprocess_run. destruct (run_result w h argv) as [p|e].
  - destruct (check && negb (returncode p =? 0)); exact (fun H => H).
  - exact (fun H => H).
Qed.

Lemma wp_subprocess_run_unchecked (argv : list string) h Q :
  match run_result w h argv with
  | Completed p => Q (Ret p) (log h (ERun argv (Completed p)))
  | Failed e => Q (Raise e) (log h (ERun argv (Failed e)))
  end ->
  wp (subprocess_run w argv false) h Q.
Proof. intros H. apply wp_subprocess_run. exact H. Qed.

Lemma wp_subprocess_Popen (argv : list string) h Q :
  match popen_result w h argv with
  | Completed p => Q (Ret p) (log h (EPopen argv (Completed p)))
  | Failed e => Q (Raise e) (log h (EPopen argv (Failed e)))
  end ->
  wp (subprocess_Popen w argv) h Q.
Proof.
  unfold wp, subprocess_Popen. destruct (popen_result w h argv); exact (fun H => H).
Qed.

Lemma wp_Path_exists (path : string) h Q :
  match path_error w h path with
  | Some e => Q (Raise e) (log h (EExistsFailed path e))
  | None =>
      Q (Ret (path_exists w h path)) (log h (EExists path (path_exists w h path)))
  end ->
  wp (Path_exists w path) h Q.
Proof.
  unfold wp, Path_exists. destruct (path_error w h path); exact (fun H => H).
Qed.

(** A probe that answers. *)
Lemma wp_Path_exists_answers (path : string) h Q :
  path_error w h path = None ->
  Q (Ret (path_exists w h path)) (log h (EExists path (path_exists w h path))) ->
  wp (Path_exists w path) h Q.
Proof. intros E H. apply wp_Path_exists. rewrite E. exact H. Qed.

Lemma wp_importlib_resources_path h Q :
  Q (importlib_root w h) (log h (ELookup "importlib.resources" (importlib_root w h))) ->
  wp (importlib_resources_path w) h Q.
Proof. exact (fun H => H). Qed.

Lemma wp_pkg_resources_filename h Q :
  Q (pkg_resources_root w h) (log h (ELookup "pkg_resources" (pkg_resources_root w h))) ->
  wp (pkg_resources_filename w) h Q.
Proof. exact (fun H => H). Qed.

Lemma wp_time_sleep (seconds : Z) h Q :
  Q (match sleep_result w h seconds with None => Ret tt | Some e => Raise e end)
    (log h (ESleep seconds (sleep_result w h seconds))) ->
  wp (time_sleep w seconds) h Q.
Proof. exact (fun H => H). Qed.

Lemma wp_import_yaml h Q :
  Q (if yaml_installed w then Ret tt
     else Raise (mk_exn ImportError "No module named 'yaml'"))
    (log h (EImport "yaml" (yaml_installed w))) ->
  wp (import_yaml w) h Q.
Proof. exact (fun H => H). Qed.

Lemma wp_yaml_safe_load (path : string) h Q :
  Q (yaml_load w h path) (log h (ELoad path (yaml_load w h path))) ->
  wp (yaml_safe_load w path) h Q.
Proof. exact (fun H => H). Qed.

Lemma wp_yaml_dump_to (path : string) (doc : pyval) h Q :
  Q (match yaml_dump w h path doc with None => Ret tt | Some e => Raise e end)
    (log h (EDump path doc (yaml_dump w h path doc))) ->
  wp (yaml_dump_to w path doc) h Q.
Proof. exact (fun H => H). Qed.

End WpWorld.

(** One step of the walk through a method. *)
Ltac wp_step :=
  lazymatch goal with
  | |- wp (bind _ _) _ _ => apply wp_bind
  | |- wp (bind_flow _ _) _ _ => apply wp_bind_flow
  | |- wp (try_except _ _) _ _ => apply wp_try
  | |- wp (ret _) _ _ => apply wp_ret
  | |- wp (raise _) _ _ => apply wp_raise
  | |- wp (lift _) _ _ => apply wp_lift
  | |- wp (print _) _ _ => apply wp_print
  | |- wp (subprocess_run _ _ false) _ _ => apply wp_subprocess_run_unchecked
  | |- wp (subprocess_run _ _ _) _ _ => apply wp_subprocess_run
  | |- wp (subprocess_Popen _ _) _ _ => apply wp_subprocess_Popen
  | |- wp (Path_exists _ _) _ _ => apply wp_Path_exists
  | |- wp (importlib_resources_path _) _ _ => apply wp_importlib_resources_path
  | |- wp (pkg_resources_filename _) _ _ => apply wp_pkg_resources_filename
  | |- wp (time_sleep _ _) _ _ => apply wp_time_sleep
  | |- wp (import_yaml _) _ _ => apply wp_import_yaml
  | |- wp (yaml_safe_load _ _) _ _ => apply wp_yaml_safe_load
  | |- wp (yaml_dump_to _ _ _) _ _ => apply wp_yaml_dump_to
  | |- wp (if ?b then _ else _) _ _ => fail "branch on" b
  | |- wp (match ?x with _ => _ end) _ _ => fail "match on" x
  end.

Ltac wp_steps := repeat (wp_step; cbv beta iota).

(** A case split on what the next test depends on; an outcome the
    context already fixes is used instead. *)
Ltac wp_case :=
  match goal with
  | H : run_result ?w ?h ?a = _ |- match run_result ?w ?h ?a with _ => _ end =>
      rewrite H
  | H : popen_result ?w ?h ?a = _ |- match popen_result ?w ?h ?a with _ => _ end =>
      rewrite H
  | H : path_error ?w ?h ?p = _ |- match path_error ?w ?h ?p with _ => _ end =>
      rewrite H
  | H : (forall h path, path_error ?w h path = None)
    |- match path_error ?w ?h ?p with _ => _ end => rewrite (H h p)
  | |- match path_error ?w ?h ?p with _ => _ end =>
      destruct (path_error w h p) as [?e|] eqn:?
  | H : ?b = _ |- wp (if ?b then _ else _) _ _ => rewrite H
  | |- wp (if ?b then _ else _) _ _ => destruct b eqn:?
  | |- match run_result ?w ?h ?a with _ => _ end =>
      destruct (run_result w h a) as [?p|?e] eqn:?
  | |- match popen_result ?w ?h ?a with _ => _ end =>
      destruct (popen_result w h a) as [?p|?e] eqn:?
  | |- match except ?c ?k (mk_exn ?cls ?s) with _ => _ end =>
      let b := eval vm_compute in (isinstance (mk_exn cls s) c) in
      lazymatch b with
      | true => change (except c k (mk_exn cls s)) with (Some (k (mk_exn cls s)))
      | false => change (except c k (mk_exn cls s)) with (@None (M _))
      end
  | |- match except ?c ?k ?e with _ => _ end =>
      unfold except;
      first [ match goal with H : isinstance e c = _ |- _ => rewrite H end
            | destruct (isinstance e c) eqn:? ]
  | H : ?b = _ |- if ?b then _ else _ => rewrite H
  | |- if ?b then _ else _ => destruct b eqn:?
  end.

Ltac wp_go := repeat (first [wp_step | wp_case]; cbv beta iota).

(** The command lines among some events, in the order they were run. *)
Definition commands_of (events : list event) : list (list string) :=
  flat_map (fun ev => match ev with
                      | ERun argv _ | EPopen argv _ => [argv]
                      | _ => []
                      end) events.

(** The documents written among some events, with the path of each. *)
Definition writes_of (events : list event) : list (string * pyval) :=
  flat_map (fun ev => match ev with
                      | EDump path doc _ => [(path, doc)]
                      | _ => []
                      end) events.

Lemma commands_of_app (a b : list event) :
  commands_of (app a b) = app (commands_of a) (commands_of b).
Proof. apply flat_map_app. Qed.

Lemma writes_of_app (a b : list event) :
  writes_of (app a b) = app (writes_of a) (writes_of b).
Proof. apply flat_map_app. Qed.

Lemma wp_for_in_prefix {A S} (I : list A -> S -> list event -> Prop) (l : list A)
    (body : A -> S -> M S) (s : S) h (Q : res S -> list event -> Prop) :
  I [] s h ->
  (forall done x rest s h,
     l = app done (x :: rest) -> I done s h ->
     wp (body x s) h (fun r h' =>
                        match r with
                        | Ret s' => I (app done [x]) s' h'
                        | Raise e => Q (Raise e) h'
                        end)) ->
  (forall s h, I l s h -> Q (Ret s) h) ->
  wp (for_in l body s) h Q.
Proof.
  intros H0 Hbody Hend.
  assert (G : forall rest done s h,
             l = app done rest -> I done s h -> wp (for_in rest body s) h Q).
  { induction rest as [|x rest IH]; intros done s0 h0 Hl HI.
    - rewrite app_nil_r in Hl. subst done. apply wp_ret, Hend, HI.
    - cbn [for_in]. apply wp_bind_mid with (P := I (app done [x])).
      + apply (Hbody done x rest); assumption.
      + intros s1 h1 H1. apply (IH (app done [x])); [|exact H1].
        rewrite <- app_assoc. exact Hl. }
  apply (G l [] s h); [reflexivity | exact H0].
Qed.

(** A case split that records, for a call that raised, that what it
    raised is an [Exception] when the context says no interrupt arrives. *)
Ltac wp_case_calm :=
  match goal with
  | Hrun : (forall h argv e, run_result ?w h argv = Failed e -> _)
    |- match run_result ?w ?h ?a with _ => _ end =>
      let E := fresh "E" in
      destruct (run_result w h a) as [?p|?e] eqn:E;
      [| pose proof (Hrun _ _ _ E)]
  | Hrun : (forall h argv e, popen_result ?w h argv = Failed e -> _)
    |- match popen_result ?w ?h ?a with _ => _ end =>
      let E := fresh "E" in
      destruct (popen_result w h a) as [?p|?e] eqn:E;
      [| pose proof (Hrun _ _ _ E)]
  | H : isinstance ?e ?c = _
    |- match (if isinstance ?e ?c then _ else _) with _ => _ end => rewrite H
  | |- match (if isinstance ?e ?c then _ else _) with _ => _ end =>
      destruct (isinstance e c) eqn:?
  end.

Ltac wp_go_calm := repeat (first [wp_step | wp_case_calm | wp_case]; cbv beta iota).

(** ** The marking loop of the image removal *)

Module ImageRemoval.

Import PyStrFacts.

(** The decision the loop body takes on a repository name. *)
Definition selects (repo : string) : bool :=
  any (fun keyword => contains keyword (lower repo)) ["aiforge"] &&
  negb (any (fun base => contains base (lower repo)) (elements preserve_images)).

(** The claim's condition on a repository name. *)
Definition Removable (repo : string) : Prop :=
  Contains "aiforge" (lower repo) /\
  ~ Contains "python" (lower repo) /\
  ~ Contains "searxng/searxng" (lower repo) /\
  ~ Contains "nginx" (lower repo).

(** A listed image line, [repository:tag<TAB>id], whose repository name
    meets the condition. *)
Definition Marked (line image_id : string) : Prop :=
  exists repo_tag repo,
    line = repo_tag ++ String TAB image_id /\
    ~ occurs TAB repo_tag /\
    BeforeFirst COLON repo_tag repo /\
    Removable repo.

Lemma any_preserved (f : string -> bool) :
  any f (elements preserve_images) =
  f "python" || f "searxng/searxng" || f "nginx".
Proof.
  assert (E : exists a b c, elements preserve_images = [a; b; c] /\
                f a || (f b || (f c || false)) =
                f "python" || f "searxng/searxng" || f "nginx").
  { eexists _, _, _. split; [vm_compute; reflexivity|].
    destruct (f "python"), (f "searxng/searxng"), (f "nginx"); reflexivity. }
  destruct E as (a & b & c & -> & E). exact E.
Qed.

Lemma selects_spec (repo : string) : selects repo = true <-> Removable repo.
Proof.
  unfold selects, Removable. rewrite any_preserved.
  unfold any. cbn [existsb]. rewrite orb_false_r.
  rewrite andb_true_iff, negb_true_iff, !orb_false_iff, <- !contains_spec.
  rewrite <- !not_true_iff_false. tauto.
Qed.

Lemma before_first_unique (c : ascii) (field p q : string) :
  BeforeFirst c field p -> BeforeFirst c field q -> p = q.
Proof.
  intros Hp Hq.
  destruct (split_head _ _ _ Hp) as [t Ht].
  destruct (split_head _ _ _ Hq) as [u Hu].
  congruence.
Qed.

Lemma occurs_app_r (c : ascii) (a b : string) : occurs c (a ++ String c b).
Proof.
  induction a as [|x a IH]; [left; reflexivity | right; exact IH].
Qed.

(** What the loop body does with a line that has a tab. *)
Lemma mark_image_listed (repo_tag repo image_id : string) (acc : list string)
    (h : list event) :
  ~ occurs TAB repo_tag ->
  BeforeFirst COLON repo_tag repo ->
  mark_image (repo_tag ++ String TAB image_id) acc h =
  Run (Ret (if selects repo then app acc [image_id] else acc)) h [].
Proof.
  intros Htab Hrepo. unfold mark_image.
  assert (Hc : contains (String TAB EmptyString) (repo_tag ++ String TAB image_id) = true)
    by (apply contains_char, occurs_app_r).
  rewrite Hc, split1_first by exact Htab.
  cbn [unpack2]. rewrite bind_lift_ret.
  destruct (split_head _ _ _ Hrepo) as [t ->].
  cbn [index0]. rewrite bind_lift_ret.
  unfold selects.
  destruct (any _ ["aiforge"]); [|reflexivity].
  cbn [andb]. destruct (any _ (elements preserve_images)); reflexivity.
Qed.

(** A line without a tab is skipped. *)
Lemma mark_image_skipped (line : string) (acc : list string) (h : list event) :
  ~ occurs TAB line -> mark_image line acc h = Run (Ret acc) h [].
Proof.
  intros Hno. unfold mark_image.
  destruct (contains (String TAB EmptyString) line) eqn:E; [|reflexivity].
  apply contains_char in E. contradiction.
Qed.

(** The identifiers one line contributes. *)
Definition picked (line : string) : list string :=
  match value (mark_image line [] []) with
  | Ret ids => ids
  | Raise _ => []
  end.

Lemma occurs_dec (c : ascii) (s : string) : {occurs c s} + {~ occurs c s}.
Proof.
  induction s as [|x s [IH|IH]].
  - right. intros [].
  - left. right. exact IH.
  - destruct (ascii_dec x c) as [->|Hne].
    + left. left. reflexivity.
    + right. intros [E|E]; contradiction.
Qed.

Lemma mark_image_picked (line : string) (acc : list string) (h : list event) :
  mark_image line acc h = Run (Ret (app acc (picked line))) h [].
Proof.
  unfold picked. destruct (occurs_dec TAB line) as [Ht|Ht].
  - destruct (occurs_cut _ _ Ht) as (repo_tag & image_id & -> & Hno).
    destruct (before_first_total COLON repo_tag) as [repo Hrepo].
    rewrite !(mark_image_listed repo_tag repo) by assumption.
    cbn [value]. destruct (selects repo); [reflexivity|].
    rewrite app_nil_r. reflexivity.
  - rewrite !mark_image_skipped by exact Ht. cbn [value].
    rewrite app_nil_r. reflexivity.
Qed.

Lemma picked_spec (line image_id : string) :
  In image_id (picked line) <-> Marked line image_id.
Proof.
  unfold picked. destruct (occurs_dec TAB line) as [Ht|Ht].
  - destruct (occurs_cut _ _ Ht) as (repo_tag & id & -> & Hno).
    destruct (before_first_total COLON repo_tag) as [repo Hrepo].
    rewrite (mark_image_listed repo_tag repo) by assumption.
    cbn [value]. split.
    + destruct (selects repo) eqn:E; [|intros []].
      intros [<-|[]]. exists repo_tag, repo.
      apply selects_spec in E. auto.
    + intros (rt & r & Heq & Hno' & Hr & Hrem).
      assert (Hs : split1 TAB (repo_tag ++ String TAB id) = [rt; image_id])
        by (rewrite Heq; apply split1_first; exact Hno').
      rewrite split1_first in Hs by exact Hno. injection Hs as <- <-.
      rewrite (before_first_unique _ _ _ _ Hrepo Hr).
      apply selects_spec in Hrem. rewrite Hrem. left. reflexivity.
  - rewrite mark_image_skipped by exact Ht. cbn [value]. split; [intros []|].
    intros (rt & r & -> & _). exfalso. apply Ht, occurs_app_r.
Qed.

Lemma marking_loop (lines acc : list string) (h : list event) :
  for_in lines mark_image acc h =
  Run (Ret (app acc (flat_map picked lines))) h [].
Proof.
  revert acc. induction lines as [|line lines IH]; intros acc.
  - cbn [for_in flat_map]. rewrite app_nil_r. reflexivity.
  - cbn [for_in flat_map]. rewrite bind_run, mark_image_picked.
    cbn [value history printed]. rewrite IH, app_assoc. reflexivity.
Qed.

(** What one line decides: a line without a tab marks nothing; a line
    [repository:tag<TAB>identifier] marks its identifier when the part of
    [repository:tag] before the first colon is removable, and nothing
    otherwise. *)
Definition Decides (line : string) (marks : list string) : Prop :=
  (~ occurs TAB line /\ marks = []) \/
  (exists repo_tag image_id repo,
     line = repo_tag ++ String TAB image_id /\
     ~ occurs TAB repo_tag /\
     BeforeFirst COLON repo_tag repo /\
     ((Removable repo /\ marks = [image_id]) \/
      (~ Removable repo /\ marks = []))).

Lemma picked_decides (line : string) : Decides line (picked line).
Proof.
  unfold picked. destruct (occurs_dec TAB line) as [Ht|Ht].
  - destruct (occurs_cut _ _ Ht) as (repo_tag & image_id & -> & Hno).
    destruct (before_first_total COLON repo_tag) as [repo Hrepo].
    rewrite (mark_image_listed repo_tag repo) by assumption.
    cbn [value app]. right. exists repo_tag, image_id, repo.
    split; [reflexivity|]. split; [exact Hno|]. split; [exact Hrepo|].
    destruct (selects repo) eqn:E.
    + left. split; [apply selects_spec; exact E | reflexivity].
    + right. split; [|reflexivity].
      intros HR. apply selects_spec in HR. congruence.
  - rewrite mark_image_skipped by exact Ht. left. split; [exact Ht | reflexivity].
Qed.

Lemma picked_all_decide (lines : list string) :
  Forall2 Decides lines (map picked lines).
Proof.
  induction lines as [|line lines IH]; constructor; [apply picked_decides | exact IH].
Qed.

End ImageRemoval.

(** Turn a goal about [value (m h)] and [history (m h)] into a [wp]. *)
Ltac wp_start m h :=
  let v := fresh "v" in
  let hh := fresh "hh" in
  set (v := value (m h)); set (hh := history (m h));
  pattern v, hh;
  lazymatch goal with
  | |- ?Q v hh => subst v hh; change (wp m h Q)
  end.

(** ** What an outcome means to the script *)

(** The command ran and left with status zero. *)
Definition exit_zero (o : outcome) : bool :=
  match o with
  | Completed p => returncode p =? 0
  | Failed _ => false
  end.

(** The command ran and wrote something that is not blank. *)
Definition lists_something (o : outcome) : bool :=
  match o with
  | Completed p => truthy (strip (stdout p))
  | Failed _ => false
  end.

(** The call raised an exception that a clause [except c:] lets through. *)
Definition escapes (c : pyclass) (o : outcome) : bool :=
  match o with
  | Completed _ => false
  | Failed e => negb (isinstance e c)
  end.

(** ** The environment detection (C2, C9) *)

Module Environment.

Definition six_keys : gset string :=
  {[ "docker_available"; "docker_compose_available"; "docker_running";
     "compose_file_exists"; "dev_compose_file_exists"; "aiforge_image_exists" ]}.

Lemma dom_initial_checks : dom initial_checks = six_keys.
Proof.
  unfold initial_checks, six_keys. cbn [list_to_map foldr uncurry].
  rewrite !dom_insert_L, dom_empty_L.
  apply set_eq. intros x.
  rewrite !elem_of_union, !elem_of_singleton, elem_of_empty. tauto.
Qed.

Lemma dom_assign (key : string) (b : bool) (checks : gmap string bool) :
  key ∈ six_keys -> dom checks = six_keys -> dom (<[key := b]> checks) = six_keys.
Proof.
  intros Hk Hd. rewrite dom_insert_L, Hd.
  apply set_eq. intros x. rewrite elem_of_union, elem_of_singleton.
  split; [intros [->|H]; assumption | intros H; right; exact H].
Qed.

Lemma six_keys_bound (checks : gmap string bool) (key : string) :
  dom checks = six_keys -> key ∈ six_keys -> exists b : bool, checks !! key = Some b.
Proof.
  intros Hd Hk. rewrite <- Hd in Hk. apply elem_of_dom in Hk as [b Hb]. eauto.
Qed.

(** The commands of the first three probes. *)
Definition docker_version : list string := ["docker"; "--version"].
Definition docker_info : list string := ["docker"; "info"].
Definition compose_version : list string := ["docker-compose"; "--version"].

(** The six entries of a result, read one by one. *)
Definition reports (checks : gmap string bool)
    (docker compose running file dev image : bool) : Prop :=
  checks !! "docker_available" = Some docker /\
  checks !! "docker_compose_available" = Some compose /\
  checks !! "docker_running" = Some running /\
  checks !! "compose_file_exists" = Some file /\
  checks !! "dev_compose_file_exists" = Some dev /\
  checks !! "aiforge_image_exists" = Some image.

Definition result_reports (r : res (gmap string bool))
    (docker compose running file dev image : bool) : Prop :=
  exists checks,
    r = Ret checks /\ reports checks docker compose running file dev image.

(** What the pass may end with: a mapping over the six keys, or the
    exception that no clause caught, of a command or of one of the two
    file probes. *)
Definition well_keyed (r : res (gmap string bool)) (h : list event) : Prop :=
  match r with
  | Ret checks =>
      dom checks = six_keys /\
      forall key, key ∈ six_keys -> exists b : bool, checks !! key = Some b
  | Raise e =>
      (isinstance e FileNotFoundError = false /\
       exists h0 argv, h = log h0 (ERun argv (Failed e))) \/
      (exists h0 path, h = log h0 (EExistsFailed path e))
  end.

Lemma not_exception_not_missing (e : exn) :
  isinstance e Exception = false -> isinstance e FileNotFoundError = false.
Proof.
  unfold isinstance. destruct (exn_class e); vm_compute; congruence.
Qed.

Ltac six_keys_mem :=
  unfold six_keys; rewrite !elem_of_union, !elem_of_singleton; auto 10.

Ltac keys_done :=
  first
    [ assumption
    | apply dom_initial_checks
    | apply dom_assign; [six_keys_mem | assumption || apply dom_initial_checks]
    | left; split;
      [ first [ reflexivity | assumption
              | apply not_exception_not_missing; assumption ]
      | eauto ]
    | right; eauto ].

Lemma reports_initial : reports initial_checks false false false false false false.
Proof.
  unfold reports, initial_checks. cbn [list_to_map foldr uncurry].
  repeat split; by simplify_map_eq.
Qed.

Lemma reports_docker c a b r f d i :
  reports c a b r f d i -> reports (<["docker_available" := true]> c) true b r f d i.
Proof. unfold reports. intros (?&?&?&?&?&?). repeat split; by simplify_map_eq. Qed.

Lemma reports_running c a b r f d i :
  reports c a b r f d i -> reports (<["docker_running" := true]> c) a b true f d i.
Proof. unfold reports. intros (?&?&?&?&?&?). repeat split; by simplify_map_eq. Qed.

Lemma reports_compose c a b r f d i :
  reports c a b r f d i ->
  reports (<["docker_compose_available" := true]> c) a true r f d i.
Proof. unfold reports. intros (?&?&?&?&?&?). repeat split; by simplify_map_eq. Qed.

Lemma reports_file c a b r f d i :
  reports c a b r f d i -> reports (<["compose_file_exists" := true]> c) a b r true d i.
Proof. unfold reports. intros (?&?&?&?&?&?). repeat split; by simplify_map_eq. Qed.

Lemma reports_dev c a b r f d i :
  reports c a b r f d i ->
  reports (<["dev_compose_file_exists" := true]> c) a b r f true i.
Proof. unfold reports. intros (?&?&?&?&?&?). repeat split; by simplify_map_eq. Qed.

Lemma reports_image c a b r f d i :
  reports c a b r f d i -> reports (<["aiforge_image_exists" := true]> c) a b r f d true.
Proof. unfold reports. intros (?&?&?&?&?&?). repeat split; by simplify_map_eq. Qed.

Ltac reports_done :=
  lazymatch goal with
  | |- reports initial_checks _ _ _ _ _ _ => apply reports_initial
  | |- reports (<["aiforge_image_exists" := true]> _) _ _ _ _ _ _ =>
      eapply reports_image; reports_done
  | |- reports (<["dev_compose_file_exists" := true]> _) _ _ _ _ _ _ =>
      eapply reports_dev; reports_done
  | |- reports (<["compose_file_exists" := true]> _) _ _ _ _ _ _ =>
      eapply reports_file; reports_done
  | |- reports (<["docker_compose_available" := true]> _) _ _ _ _ _ _ =>
      eapply reports_compose; reports_done
  | |- reports (<["docker_running" := true]> _) _ _ _ _ _ _ =>
      eapply reports_running; reports_done
  | |- reports (<["docker_available" := true]> _) _ _ _ _ _ _ =>
      eapply reports_docker; reports_done
  | |- _ => eassumption
  end.

Ltac detection_leaf :=
  cbn [exit_zero escapes lists_something negb] in *;
  repeat match goal with
         | H : isinstance _ _ = _ |- _ => rewrite H in *
         end;
  cbn [negb] in *;
  try congruence;
  repeat match goal with
         | |- _ /\ _ => split
         | |- result_reports (Ret _) _ _ _ _ _ _ => eexists; split; [reflexivity|]
         | |- reports _ _ _ _ _ _ _ => reports_done
         | |- _ = _ => reflexivity
         end.

Section Detection.

Variables (w : World) (self : DockerServiceManager).

Lemma detection_keys h :
  wp (check_docker_environment w self) h
     (fun r h' => match r with
                  | Ret checks => dom checks = six_keys
                  | Raise e =>
                      (isinstance e FileNotFoundError = false /\
                       exists h0 argv, h' = log h0 (ERun argv (Failed e))) \/
                      (exists h0 path, h' = log h0 (EExistsFailed path e))
                  end).
Proof.
  unfold check_docker_environment.
  apply wp_bind, wp_print; cbv beta iota.
  apply wp_bind_flow_mid with (P := fun c _ => dom c = six_keys).
  { wp_go; keys_done. }
  intros checks1 h1 H1.
  apply wp_bind_flow_mid with (P := fun c _ => dom c = six_keys).
  { wp_go; keys_done. }
  intros checks2 h2 H2.
  apply wp_bind_mid with (P := fun c _ => dom c = six_keys).
  { wp_go; keys_done. }
  intros checks3 h3 H3.
  apply wp_bind, wp_Path_exists.
  destruct (path_error w h3 (compose_file self)) as [e4|]; [right; eauto|].
  apply wp_bind_mid with (P := fun c _ => dom c = six_keys).
  { wp_go; keys_done. }
  intros checks4 h4 H4.
  apply wp_bind, wp_Path_exists.
  destruct (path_error w h4 (dev_compose_file self)) as [e5|]; [right; eauto|].
  apply wp_bind_mid with (P := fun c _ => dom c = six_keys).
  { wp_go; keys_done. }
  intros checks5 h5 H5.
  apply wp_bind_mid with (P := fun c _ => dom c = six_keys).
  { wp_go; keys_done. }
  intros checks6 h6 H6. wp_go. keys_done.
Qed.

(** C9. Whatever the machine answers, a run of [check_docker_environment]
    that returns, by the end or by one of its early [return]s, returns a
    mapping whose keys are exactly the six fixed names, each bound to a
    boolean. The only other way out is an exception that no [except]
    clause matches: that of a command, which is never a
    [FileNotFoundError], or that of one of the two file probes. *)
Theorem detection_returns_the_six_keys (h : list event) :
  well_keyed (value (check_docker_environment w self h))
             (history (check_docker_environment w self h)).
Proof.
  pose proof (detection_keys h) as H. unfold wp in H. unfold well_keyed.
  destruct (value (check_docker_environment w self h)) as [checks|e].
  - split; [exact H|]. intros key Hkey. apply six_keys_bound; assumption.
  - exact H.
Qed.


Lemma detection_without_runtime h o1 :
  run_result w h docker_version = o1 ->
  exit_zero o1 = false -> escapes FileNotFoundError o1 = false ->
  wp (check_docker_environment w self) h
     (fun r h' =>
        result_reports r false false false false false false /\
        h' = log h (ERun docker_version o1)).
Proof.
  unfold docker_version. intros E1 Z1 X1.
  unfold check_docker_environment.
  apply wp_bind, wp_print; cbv beta iota.
  apply wp_bind_flow. wp_steps. rewrite E1.
  destruct o1 as [p1|e1]; cbn [exit_zero escapes] in *; wp_go; detection_leaf.
Qed.

Lemma detection_without_daemon h p1 o2 :
  let h1 := log h (ERun docker_version (Completed p1)) in
  run_result w h docker_version = Completed p1 ->
  (returncode p1 =? 0) = true ->
  run_result w h1 docker_info = o2 ->
  exit_zero o2 = false -> escapes Exception o2 = false ->
  wp (check_docker_environment w self) h
     (fun r h' =>
        result_reports r true false false false false false /\
        h' = log h1 (ERun docker_info o2)).
Proof.
  intros h1 E1 Z1 E2 Z2 X2. subst h1. unfold docker_version, docker_info in *.
  unfold check_docker_environment.
  apply wp_bind, wp_print; cbv beta iota.
  apply wp_bind_flow. wp_go.
  destruct o2 as [p2|e2]; cbn [exit_zero escapes] in *; wp_go; detection_leaf.
Qed.

Lemma detection_continues h p1 p2 o3 b4 b5 o6 :
  let h1 := log h (ERun docker_version (Completed p1)) in
  let h2 := log h1 (ERun docker_info (Completed p2)) in
  let h3 := log h2 (ERun compose_version o3) in
  let h4 := log h3 (EExists (compose_file self) b4) in
  let h5 := log h4 (EExists (dev_compose_file self) b5) in
  run_result w h docker_version = Completed p1 ->
  (returncode p1 =? 0) = true ->
  run_result w h1 docker_info = Completed p2 ->
  (returncode p2 =? 0) = true ->
  run_result w h2 compose_version = o3 ->
  escapes FileNotFoundError o3 = false ->
  path_error w h3 (compose_file self) = None ->
  path_exists w h3 (compose_file self) = b4 ->
  path_error w h4 (dev_compose_file self) = None ->
  path_exists w h4 (dev_compose_file self) = b5 ->
  run_result w h5 list_aiforge_images = o6 ->
  escapes Exception o6 = false ->
  wp (check_docker_environment w self) h
     (fun r h' =>
        result_reports r true (exit_zero o3) true b4 b5 (lists_something o6) /\
        h' = log h5 (ERun list_aiforge_images o6)).
Proof.
  intros h1 h2 h3 h4 h5 E1 Z1 E2 Z2 E3 X3 N4 E4 N5 E5 E6 X6.
  unfold docker_version, docker_info, compose_version in *.
  unfold check_docker_environment.
  apply wp_bind, wp_print; cbv beta iota.
  apply wp_bind_flow_mid
    with (P := fun c h' => reports c true false false false false false /\ h' = h1).
  { wp_go. detection_leaf. }
  intros c1 ? [R1 ->].
  apply wp_bind_flow_mid
    with (P := fun c h' => reports c true false true false false false /\ h' = h2).
  { wp_go. detection_leaf. }
  intros c2 ? [R2 ->].
  apply wp_bind_mid
    with (P := fun c h' => reports c true (exit_zero o3) true false false false /\ h' = h3).
  { wp_steps. fold h2 in E3 |- *. rewrite E3. subst h3.
    destruct o3 as [p3|e3]; cbn [exit_zero escapes] in *; wp_go; detection_leaf. }
  intros c3 ? [R3 ->].
  apply wp_bind, (wp_Path_exists_answers _ _ _ _ N4). rewrite E4. fold h4.
  apply wp_bind_mid
    with (P := fun c h' => reports c true (exit_zero o3) true b4 false false /\ h' = h4).
  { destruct b4; wp_go; detection_leaf. }
  intros c4 ? [R4 ->].
  apply wp_bind, (wp_Path_exists_answers _ _ _ _ N5). rewrite E5. fold h5.
  apply wp_bind_mid
    with (P := fun c h' => reports c true (exit_zero o3) true b4 b5 false /\ h' = h5).
  { destruct b5; wp_go; detection_leaf. }
  intros c5 ? [R5 ->].
  apply wp_bind_mid
    with (P := fun c h' =>
                 reports c true (exit_zero o3) true b4 b5 (lists_something o6) /\
                 h' = log h5 (ERun list_aiforge_images o6)).
  { wp_steps. rewrite E6.
    destruct o6 as [p6|e6]; cbn [lists_something escapes] in *; wp_go; detection_leaf. }
  intros c6 ? [R6 ->]. wp_go. detection_leaf.
Qed.


(** C2, amended. The pass stops at the first of its two opening probes
    that fails, and only there. When [docker --version] fails (a non-zero
    status or [FileNotFoundError]) nothing else is attempted and all six
    entries are false. When [docker info] fails (a non-zero status or any
    [Exception]) nothing further is attempted either, and the four later
    entries stay false. Once both have succeeded, every later check is
    attempted whatever the earlier ones gave, and each entry records its
    own check: the orchestrator probe (false on a non-zero status or
    [FileNotFoundError]), the two file probes, the image listing (false
    on blank output or any [Exception]). This is for the runs in which
    no exception leaves the pass: what the orchestrator probe raises is
    a [FileNotFoundError], the two file probes answer, and what the
    image listing raises is an [Exception]. *)
Theorem detection_stops_only_at_runtime_or_daemon (h : list event) :
  let r := check_docker_environment w self h in
  let o1 := run_result w h docker_version in
  let h1 := log h (ERun docker_version o1) in
  let o2 := run_result w h1 docker_info in
  let h2 := log h1 (ERun docker_info o2) in
  let o3 := run_result w h2 compose_version in
  let h3 := log h2 (ERun compose_version o3) in
  let b4 := path_exists w h3 (compose_file self) in
  let h4 := log h3 (EExists (compose_file self) b4) in
  let b5 := path_exists w h4 (dev_compose_file self) in
  let h5 := log h4 (EExists (dev_compose_file self) b5) in
  let o6 := run_result w h5 list_aiforge_images in
  let h6 := log h5 (ERun list_aiforge_images o6) in
  escapes FileNotFoundError o1 = false ->
  (exit_zero o1 = false ->
     result_reports (value r) false false false false false false /\
     history r = h1) /\
  (exit_zero o1 = true -> escapes Exception o2 = false ->
     (exit_zero o2 = false ->
        result_reports (value r) true false false false false false /\
        history r = h2) /\
     (exit_zero o2 = true ->
        escapes FileNotFoundError o3 = false ->
        path_error w h3 (compose_file self) = None ->
        path_error w h4 (dev_compose_file self) = None ->
        escapes Exception o6 = false ->
        result_reports (value r) true (exit_zero o3) true b4 b5 (lists_something o6) /\
        history r = h6)).
Proof.
  cbv zeta. intros X1. split.
  - intros Z1. exact (detection_without_runtime h _ eq_refl Z1 X1).
  - intros Z1.
    destruct (run_result w h docker_version) as [p1|e1] eqn:E1;
      cbn [exit_zero] in Z1; [|discriminate].
    intros X2. split.
    + intros Z2. exact (detection_without_daemon h p1 _ E1 Z1 eq_refl Z2 X2).
    + intros Z2.
      destruct (run_result w _ docker_info) as [p2|e2] eqn:E2;
        cbn [exit_zero] in Z2; [|discriminate].
      intros X3 N4 N5 X6.
      exact (detection_continues h p1 p2 _ _ _ _ E1 Z1 E2 Z2 eq_refl X3
               N4 eq_refl N5 eq_refl eq_refl X6).
Qed.

End Detection.


(** *** Two concrete machines *)

Definition completed (status : Z) (output : string) : outcome :=
  Completed {| returncode := status; stdout := output; stderr := "" |}.

Definition source_tree : DockerServiceManager :=
  {| compose_file := "docker-compose.yml";
     dev_compose_file := "docker-compose.dev.yml" |}.

(** Docker and Compose are installed, both compose files are there, an
    image is built, but the daemon is stopped. *)
Definition daemon_down : World :=
  {| run_result := fun _ argv =>
       if bool_decide (argv = docker_info)
       then completed 1 "Cannot connect to the Docker daemon"
       else completed 0 "aiforge-engine:latest";
     popen_result := fun _ _ => completed 0 "";
     path_exists := fun _ _ => true;
     path_error := fun _ _ => None;
     sleep_result := fun _ _ => None;
     yaml_installed := true;
     yaml_load := fun _ _ => Ret (PDict ∅);
     yaml_dump := fun _ _ _ => None;
     cwd := "/srv/AIForge";
     importlib_root := fun _ => Ret "/usr/lib/python3/site-packages/aiforge/..";
     pkg_resources_root := fun _ => Ret "/usr/lib/python3/site-packages/aiforge/.." |}.

(** The same machine with the daemon running. *)
Definition all_up : World :=
  {| run_result := fun _ _ => completed 0 "aiforge-engine:latest";
     popen_result := fun _ _ => completed 0 "";
     path_exists := fun _ _ => true;
     path_error := fun _ _ => None;
     sleep_result := fun _ _ => None;
     yaml_installed := true;
     yaml_load := fun _ _ => Ret (PDict ∅);
     yaml_dump := fun _ _ _ => None;
     cwd := "/srv/AIForge";
     importlib_root := fun _ => Ret "/usr/lib/python3/site-packages/aiforge/..";
     pkg_resources_root := fun _ => Ret "/usr/lib/python3/site-packages/aiforge/.." |}.

(** C2 as the specification words it: once the runtime probe has
    succeeded, no failure ends the pass, so all five later checks are
    attempted. *)
Definition later_failures_never_end_the_pass
    (w : World) (self : DockerServiceManager) (h : list event) : Prop :=
  let r := check_docker_environment w self h in
  let o1 := run_result w h docker_version in
  exit_zero o1 = true ->
  exists o2 o3 b4 b5 o6,
    history r =
    app h [ ERun docker_version o1; ERun docker_info o2;
            ERun compose_version o3;
            EExists (compose_file self) b4;
            EExists (dev_compose_file self) b5;
            ERun list_aiforge_images o6 ].

(** C2 fails as stated: with the daemon stopped the pass ends after
    [docker info]; the orchestrator, the files and the images are never
    looked at, although each of them is there. *)
Lemma daemon_failure_ends_the_pass :
  ~ later_failures_never_end_the_pass daemon_down source_tree [].
Proof.
  intros H. destruct (H eq_refl) as (o2 & o3 & b4 & b5 & o6 & E).
  vm_compute in E. discriminate E.
Qed.

Lemma detection_stops_only_at_runtime_or_daemon_witness :
  let r := check_docker_environment all_up source_tree [] in
  result_reports (value r) true true true true true true /\
  length (history r) = 6%nat.
Proof.
  destruct (detection_stops_only_at_runtime_or_daemon all_up source_tree [] eq_refl)
    as [_ H].
  destruct (H eq_refl eq_refl) as [_ H2].
  destruct (H2 eq_refl eq_refl eq_refl eq_refl eq_refl) as [Hr Hh].
  split; [exact Hr | rewrite Hh; reflexivity].
Defined.

End Environment.

(** ** Removing the built images (C1) *)

Module Removal.

Import PyStrFacts ImageRemoval.

Definition rmi (image_id : string) : list string :=
  ["docker"; "rmi"; "-f"; image_id].

Lemma wp_of_run {A} (m : M A) h (Q : res A -> list event -> Prop)
    (v : res A) (h' : list event) (out : list string) :
  m h = Run v h' out -> Q v h' -> wp m h Q.
Proof. intros E HQ. unfold wp. rewrite E. exact HQ. Qed.

Section RemoveImages.

Variable w : World.

(** What the removal step may do after the history [h]: list the
    images, and force the removal of an image that a line of that
    listing marks. *)
Definition removal_event (h : list event) (ev : event) : Prop :=
  exists argv o,
    ev = ERun argv o /\
    (argv = list_all_images \/
     exists p line image_id,
       argv = rmi image_id /\
       run_result w h list_all_images = Completed p /\
       In line (split LF (strip (stdout p))) /\
       Marked line image_id).

Definition removal_post (h : list event) (h' : list event) : Prop :=
  exists later, h' = app h later /\ Forall (removal_event h) later.

Lemma removal_post_log h h' ev :
  removal_post h h' -> removal_event h ev -> removal_post h (log h' ev).
Proof.
  intros (later & -> & Hall) Hev. exists (app later [ev]). split.
  - unfold log. rewrite <- app_assoc. reflexivity.
  - apply Forall_app. split; [exact Hall | constructor; [exact Hev | constructor]].
Qed.

Lemma removal_walk (h : list event) :
  wp (_remove_aiforge_built_images_only w) h
     (fun v h' =>
        removal_post h h' /\
        ((forall h argv e, run_result w h argv = Failed e ->
                           isinstance e Exception = true) ->
         v = Ret tt)).
Proof.
  unfold _remove_aiforge_built_images_only.
  apply wp_try, wp_bind, wp_subprocess_run_unchecked.
  assert (Hlist : forall o, removal_post h (log h (ERun list_all_images o))).
  { intros o. exists [ERun list_all_images o]. split; [reflexivity|].
    constructor; [|constructor]. exists list_all_images, o. auto. }
  destruct (run_result w h list_all_images) as [p|e] eqn:E.
  2:{ unfold except. destruct (isinstance e Exception) eqn:He.
      - wp_go. split; [apply Hlist | reflexivity].
      - split; [apply Hlist|]. intros Hrun. rewrite (Hrun _ _ _ E) in He. discriminate He. }
  destruct (truthy (strip (stdout p))); cbn [negb].
  2:{ wp_go. split; [apply Hlist | reflexivity]. }
  apply wp_bind.
  apply (wp_of_run _ _ _ _ _ _ (marking_loop (split LF (strip (stdout p))) [] _)).
  cbn [app].
  set (ids := flat_map picked (split LF (strip (stdout p)))).
  assert (Hrmi : forall image_id o, In image_id ids ->
                   removal_event h (ERun (rmi image_id) o)).
  { intros image_id o Hin. exists (rmi image_id), o. split; [reflexivity|]. right.
    unfold ids in Hin. apply in_flat_map in Hin as (line & Hline & Hp).
    apply picked_spec in Hp. exists p, line, image_id. auto. }
  apply wp_bind.
  apply wp_for_in_prefix with (I := fun _ _ h' => removal_post h h').
  - apply Hlist.
  - intros done image_id rest [] h' Hsplit Hpost.
    assert (Hin : In image_id ids)
      by (rewrite Hsplit; apply in_or_app; right; left; reflexivity).
    apply wp_bind, wp_subprocess_run_unchecked. fold (rmi image_id).
    destruct (run_result w h' (rmi image_id)) as [q|e] eqn:Eq.
    + wp_go. apply removal_post_log; auto.
    + unfold except. destruct (isinstance e Exception) eqn:He.
      * wp_go. split; [apply removal_post_log; auto | reflexivity].
      * split; [apply removal_post_log; auto|].
        intros Hrun. rewrite (Hrun _ _ _ Eq) in He. discriminate He.
  - intros [] h' Hpost. destruct ids; wp_go; (split; [exact Hpost | reflexivity]).
Qed.

(** X2. The removal step of the deep cleanup never forces the removal
    of an image it did not mark: whatever the commands answer, each
    [docker rmi -f id] it runs is for the identifier of a listed line
    [repository:tag<TAB>id] whose name before the first colon,
    lower-cased, contains "aiforge" and none of "python",
    "searxng/searxng", "nginx". Besides these removals it only runs the
    listing. *)
Theorem only_marked_images_are_removed (h : list event) :
  exists later,
    history (_remove_aiforge_built_images_only w h) = app h later /\
    forall ev, In ev later ->
      exists argv o,
        ev = ERun argv o /\
        (argv = list_all_images \/
         exists p line image_id,
           argv = rmi image_id /\
           run_result w h list_all_images = Completed p /\
           In line (split LF (strip (stdout p))) /\
           Marked line image_id).
Proof.
  destruct (removal_walk h) as [(later & Hh & Hall) _].
  exists later. split; [exact Hh|].
  intros ev Hin. rewrite Forall_forall in Hall. apply Hall, list_elem_of_In, Hin.
Qed.

Lemma removal_in_order (h : list event) (p : CompletedProcess) :
  run_result w h list_all_images = Completed p ->
  (forall h' image_id e, run_result w h' (rmi image_id) <> Failed e) ->
  wp (_remove_aiforge_built_images_only w) h
     (fun v h' =>
        v = Ret tt /\
        exists later,
          h' = app h later /\
          commands_of later =
          list_all_images :: map rmi (flat_map picked (split LF (strip (stdout p))))).
Proof.
  intros E Hok. unfold _remove_aiforge_built_images_only.
  apply wp_try, wp_bind, wp_subprocess_run_unchecked. rewrite E.
  destruct (truthy (strip (stdout p))) eqn:T; cbn [negb].
  2:{ wp_go. split; [reflexivity|]. eexists. split; [reflexivity|].
      destruct (strip (stdout p)); [reflexivity | discriminate T]. }
  apply wp_bind.
  apply (wp_of_run _ _ _ _ _ _ (marking_loop (split LF (strip (stdout p))) [] _)).
  cbn [app].
  set (ids := flat_map picked (split LF (strip (stdout p)))).
  apply wp_bind.
  apply wp_for_in_prefix
    with (I := fun done _ h' =>
                 exists later,
                   h' = app h later /\
                   commands_of later = list_all_images :: map rmi done).
  - eexists. split; reflexivity.
  - intros done image_id rest [] h' _ (later & -> & Hc).
    apply wp_bind, wp_subprocess_run_unchecked. fold (rmi image_id).
    destruct (run_result w _ (rmi image_id)) as [q|e] eqn:Eq;
      [|destruct (Hok _ _ _ Eq)].
    wp_go. eexists. split; [unfold log; rewrite <- app_assoc; reflexivity|].
    rewrite commands_of_app, Hc, map_app. reflexivity.
  - intros [] h' Hpost. destruct ids; wp_go; (split; [reflexivity | exact Hpost]).
Qed.

Lemma rmi_listed (image_id : string) (ids : list string) :
  In (rmi image_id) (list_all_images :: map rmi ids) <-> In image_id ids.
Proof.
  cbn [In]. rewrite in_map_iff. split.
  - intros [E | (x & E & Hx)]; [discriminate E | injection E as ->; exact Hx].
  - intros Hin. right. exists image_id. auto.
Qed.


(** C1 as the specification words it: for every listed line, the
    identifier of the line is marked, and so removed, if and only if the
    name of that line qualifies. *)
Definition marked_iff_line_qualifies (h : list event) : Prop :=
  forall p,
    run_result w h list_all_images = Completed p ->
    forall line repo_tag image_id repo,
      In line (split LF (strip (stdout p))) ->
      line = repo_tag ++ String TAB image_id ->
      ~ occurs TAB repo_tag ->
      BeforeFirst COLON repo_tag repo ->
      (In (rmi image_id)
          (commands_of (history (_remove_aiforge_built_images_only w h))) <->
       Removable repo).

End RemoveImages.

(** A machine with one image of the application, the three base images
    and one image that carries both the marker and a preserved name. *)
Definition five_images : World :=
  {| run_result := fun _ _ =>
       Environment.completed 0
         ("aiforge-engine:latest" ++ String TAB "1a2b3c" ++ String LF
          ("python:3.10-slim" ++ String TAB "4d5e6f" ++ String LF
           ("searxng/searxng:latest" ++ String TAB "778899" ++ String LF
            ("nginx:alpine" ++ String TAB "aabbcc" ++ String LF
             ("aiforge-nginx:latest" ++ String TAB "ddeeff" ++ String LF "")))));
     popen_result := fun _ _ => Environment.completed 0 "";
     path_exists := fun _ _ => true;
     path_error := fun _ _ => None;
     sleep_result := fun _ _ => None;
     yaml_installed := true;
     yaml_load := fun _ _ => Ret (PDict ∅);
     yaml_dump := fun _ _ _ => None;
     cwd := "/srv/AIForge";
     importlib_root := fun _ => Ret "/usr/lib/python3/site-packages/aiforge/..";
     pkg_resources_root := fun _ => Ret "/usr/lib/python3/site-packages/aiforge/.." |}.

(** *** An image with two names

    [docker tag nginx:alpine aiforge-proxy:latest] gives one image two
    names; the listing prints one line for each, with the same
    identifier. *)
Definition shared_image : World :=
  {| run_result := fun _ _ =>
       Environment.completed 0
         ("nginx:alpine" ++ String TAB ("4d5e6f" ++ String LF
          ("aiforge-proxy:latest" ++ String TAB "4d5e6f")));
     popen_result := fun _ _ => Environment.completed 0 "";
     path_exists := fun _ _ => true;
     path_error := fun _ _ => None;
     sleep_result := fun _ _ => None;
     yaml_installed := true;
     yaml_load := fun _ _ => Ret (PDict ∅);
     yaml_dump := fun _ _ _ => None;
     cwd := "/srv/AIForge";
     importlib_root := fun _ => Ret "/usr/lib/python3/site-packages/aiforge/..";
     pkg_resources_root := fun _ => Ret "/usr/lib/python3/site-packages/aiforge/.." |}.



End Removal.

(** ** Blank output *)

Module Blank.

Import PyStrFacts.

(** Some character of [s] is not white space. *)
Definition nonblank (s : string) : Prop :=
  exists c, occurs c s /\ isspace c = false.

Fixpoint all_space (s : string) : bool :=
  match s with
  | EmptyString => true
  | String c s' => isspace c && all_space s'
  end.

Lemma all_space_nonblank (s : string) : all_space s = false <-> nonblank s.
Proof.
  unfold nonblank. induction s as [|c s IH]; cbn [all_space occurs].
  - split; [discriminate | intros (c & [] & _)].
  - rewrite andb_false_iff, IH. split.
    + intros [Hc | (x & Hx & Hs)]; [exists c; auto | exists x; auto].
    + intros (x & [->|Hx] & Hs); [left; exact Hs | right; exists x; auto].
Qed.

Lemma lstrip_empty (s : string) : lstrip s = EmptyString <-> all_space s = true.
Proof.
  induction s as [|c s IH]; cbn [lstrip all_space]; [tauto|].
  destruct (isspace c); cbn [andb]; [exact IH | split; discriminate].
Qed.

Lemma rstrip_empty (s : string) : rstrip s = EmptyString <-> all_space s = true.
Proof.
  induction s as [|c s IH]; cbn [rstrip all_space]; [tauto|].
  destruct (rstrip s) as [|x r] eqn:E.
  - assert (Hs : all_space s = true) by (apply IH; reflexivity).
    rewrite Hs, andb_true_r. destruct (isspace c); split; congruence.
  - assert (Hs : all_space s = false).
    { destruct (all_space s); [|reflexivity].
      assert (H : String x r = EmptyString) by (apply IH; reflexivity).
      discriminate H. }
    rewrite Hs, andb_false_r. split; discriminate.
Qed.

Lemma all_space_rstrip (s : string) : all_space (rstrip s) = all_space s.
Proof.
  induction s as [|c s IH]; [reflexivity|]. cbn [rstrip all_space].
  destruct (rstrip s) as [|x r] eqn:E.
  - assert (Hs : all_space s = true) by (apply rstrip_empty; exact E).
    rewrite Hs, andb_true_r.
    destruct (isspace c) eqn:Hc; cbn [all_space]; rewrite ?Hc; reflexivity.
  - cbn [all_space] in *. rewrite IH. reflexivity.
Qed.

(** [s.strip()] is a true value exactly when [s] is not blank. *)
Lemma strip_truthy (s : string) : truthy (strip s) = true <-> nonblank s.
Proof.
  rewrite <- all_space_nonblank, <- (all_space_rstrip s). unfold strip.
  destruct (lstrip (rstrip s)) eqn:E; cbn [truthy].
  - apply lstrip_empty in E. rewrite E. split; discriminate.
  - destruct (all_space (rstrip s)) eqn:Ha; [|tauto].
    apply lstrip_empty in Ha. congruence.
Qed.

Lemma strip_falsy (s : string) : truthy (strip s) = false <-> ~ nonblank s.
Proof.
  rewrite <- strip_truthy. destruct (truthy (strip s)); split; congruence.
Qed.

End Blank.

(** ** Building the images (C5) *)

Module Build.

Import Blank.

Lemma wp_echo_build_line (line : string) h (Q : res unit -> list event -> Prop) :
  Q (Ret tt) h -> wp (echo_build_line line) h Q.
Proof.
  unfold wp, echo_build_line. intros H.
  destruct (truthy (strip line)); [|exact H].
  destruct (contains "Step" (strip line)); [exact H|].
  destruct (contains "Successfully built" (strip line)
            || contains "Successfully tagged" (strip line)); [exact H|].
  destruct (contains "ERROR" (strip line) || contains "FAILED" (strip line));
    [exact H|].
  destruct (any _ _); exact H.
Qed.

Lemma wp_echo_build_lines (lines : list string) h (Q : res unit -> list event -> Prop) :
  Q (Ret tt) h ->
  wp (for_in lines (fun line _ => echo_build_line line) tt) h Q.
Proof.
  intros H. apply wp_for_in with (I := fun _ h' => h' = h).
  - reflexivity.
  - intros x [] h' ->. apply wp_echo_build_line. reflexivity.
  - intros [] h' ->. exact H.
Qed.

Lemma log_app (h : list event) (e : event) (later : list event) :
  app (log h e) later = app h (e :: later).
Proof. unfold log. rewrite <- app_assoc. reflexivity. Qed.

Lemma log_as_app (h : list event) (e : event) : log h e = app h [e].
Proof. reflexivity. Qed.

Ltac build_leaf :=
  eexists;
  split; [unfold log; rewrite <- ?app_assoc; reflexivity|];
  split;
    [ intros p0 Hp N;
      first [ discriminate Hp
            | injection Hp as <-; first [contradiction | split; reflexivity] ]
    |];
  split;
    [ intros argv answer Hin;
      first [ eexists; split; [reflexivity | eassumption]
            | destruct Hin ]
    | intros argv answer Hin; cbn [In] in Hin;
      repeat (destruct Hin as [Hin|Hin]; [discriminate Hin|]);
      exact Hin ].

Section BuildStep.

Variables (w : World) (self : DockerServiceManager).

(** C5. [build_images_if_needed] starts by listing the images that match
    the application's name. When that listing names an image (its output
    is not blank), the step does nothing more and returns [True]: the
    listing is the only command of the step. A build process is started
    only after a listing that ran and printed nothing but white space. *)
Theorem build_skipped_when_image_listed (dev_mode : bool) (h : list event) :
  let r := build_images_if_needed w self dev_mode h in
  let o := run_result w h list_aiforge_images in
  exists later,
    history r = app h (ERun list_aiforge_images o :: later) /\
    (forall p, o = Completed p -> nonblank (stdout p) ->
       later = [] /\ value r = Ret true) /\
    (forall argv answer, In (EPopen argv answer) later ->
       exists p, o = Completed p /\ ~ nonblank (stdout p)) /\
    (forall argv answer, ~ In (ERun argv answer) later).
Proof.
  cbv zeta. wp_start (build_images_if_needed w self dev_mode) h.
  unfold build_images_if_needed.
  apply wp_bind, wp_print; cbv beta iota.
  apply wp_try, wp_bind, wp_subprocess_run_unchecked.
  destruct (run_result w h list_aiforge_images) as [p|e] eqn:E.
  - destruct (truthy (strip (stdout p))) eqn:T.
    + wp_go. build_leaf.
    + apply strip_falsy in T.
      apply wp_bind, wp_print; cbv beta iota.
      apply wp_bind, wp_print; cbv beta iota.
      apply wp_bind.
      destruct dev_mode;
        [ apply wp_Path_exists;
          destruct (path_error w _ _) as [e|]; [wp_go; build_leaf|]
        | apply wp_ret ].
      all: apply wp_bind, wp_subprocess_Popen.
      all: destruct (popen_result w _ _) as [q|e];
        [ apply wp_bind, wp_print; cbv beta iota;
          apply wp_bind, wp_echo_build_lines; cbv beta iota; wp_go
        | wp_go ].
      all: build_leaf.
  - wp_go; build_leaf.
Qed.

End BuildStep.

(** *** A machine without any image of the application

    The listing prints an empty line. *)

Definition blank_listing : World :=
  {| run_result := fun _ _ => Environment.completed 0 (String LF EmptyString);
     popen_result := fun _ _ => Environment.completed 0 "";
     path_exists := fun _ _ => true;
     path_error := fun _ _ => None;
     sleep_result := fun _ _ => None;
     yaml_installed := true;
     yaml_load := fun _ _ => Ret (PDict ∅);
     yaml_dump := fun _ _ _ => None;
     cwd := "/srv/AIForge";
     importlib_root := fun _ => Ret "/usr/lib/python3/site-packages/aiforge/..";
     pkg_resources_root := fun _ => Ret "/usr/lib/python3/site-packages/aiforge/.." |}.

Lemma build_skipped_when_image_listed_witness :
  value (build_images_if_needed Environment.all_up Environment.source_tree false [])
  = Ret true.
Proof.
  destruct (build_skipped_when_image_listed
              Environment.all_up Environment.source_tree false [])
    as (later & _ & Hskip & _).
  refine (proj2 (Hskip _ eq_refl _)).
  exists "a"%char. split; [left; reflexivity | reflexivity].
Defined.

End Build.

(** ** Stopping the stack (C7) *)

Module Stop.

Ltac stop_leaf :=
  split;
    [ intros Hf; first [discriminate Hf | split; reflexivity]
    | intros Ht; first
        [ discriminate Ht
        | split; [reflexivity|];
          split;
            [ split; intros Hx; first [reflexivity | discriminate Hx]
            | intros q Hq; first
                [ discriminate Hq
                | injection Hq as <-;
                  match goal with Z : (_ =? _) = _ |- _ => rewrite Z end;
                  reflexivity ] ] ] ].

Section StopServices.

Variables (w : World) (self : DockerServiceManager).

Definition teardown : list string :=
  ["docker-compose"; "-f"; compose_file self; "down"].

(** C7. [stop_services] first looks for the production compose file.
    Without it, it returns [False] and the file probe is all it did: no
    teardown command is run. With it, the teardown command is the one
    thing that follows, and [stop_services] returns [True] exactly when
    that command ran and left with status zero; a non-zero status gives
    [False]. A probe that raises instead of answering ends the call with
    its exception, and no teardown command is run either. *)
Theorem stop_needs_file_and_reports_teardown (h : list event) :
  let r := stop_services w self h in
  let found := path_exists w h (compose_file self) in
  let h1 := log h (EExists (compose_file self) found) in
  let o := run_result w h1 teardown in
  (path_error w h (compose_file self) = None ->
     (found = false -> value r = Ret false /\ history r = h1) /\
     (found = true ->
        history r = log h1 (ERun teardown o) /\
        (value r = Ret true <-> exit_zero o = true) /\
        (forall p, o = Completed p -> value r = Ret (returncode p =? 0)))) /\
  (forall e, path_error w h (compose_file self) = Some e ->
     value r = Raise e /\
     history r = log h (EExistsFailed (compose_file self) e)).
Proof.
  cbv zeta. unfold teardown. split.
  - intros N. wp_start (stop_services w self) h.
    unfold stop_services. apply wp_bind, (wp_Path_exists_answers _ _ _ _ N).
    destruct (path_exists w h (compose_file self)); cbn [negb].
    + apply wp_bind, wp_print; cbv beta iota.
      apply wp_try, wp_bind, wp_subprocess_run.
      destruct (run_result w _ _) as [p|e]; cbn [andb exit_zero].
      * destruct (returncode p =? 0) eqn:Z; cbn [negb]; wp_go; stop_leaf.
      * wp_go; stop_leaf.
    + wp_go; stop_leaf.
  - intros e N. wp_start (stop_services w self) h.
    unfold stop_services. apply wp_bind, wp_Path_exists. rewrite N.
    split; reflexivity.
Qed.

End StopServices.

Lemma stop_needs_file_and_reports_teardown_witness :
  value (stop_services Environment.all_up Environment.source_tree []) = Ret true.
Proof.
  destruct (stop_needs_file_and_reports_teardown
              Environment.all_up Environment.source_tree []) as [H _].
  destruct (H eq_refl) as [_ H1].
  destruct (H1 eq_refl) as (_ & Hv & _).
  apply Hv. reflexivity.
Defined.

End Stop.

(** ** Runs that no interrupt cuts short *)

(** Nothing the outside raises is an interrupt: what a command, a file
    operation or the YAML library raises is an [Exception], and the sleep
    runs to its end. *)
Definition uninterrupted (w : World) : Prop :=
  (forall h argv e, run_result w h argv = Failed e -> isinstance e Exception = true) /\
  (forall h argv e, popen_result w h argv = Failed e -> isinstance e Exception = true) /\
  (forall h seconds, sleep_result w h seconds = None) /\
  (forall h path e, yaml_load w h path = Raise e -> isinstance e Exception = true) /\
  (forall h path doc e,
     yaml_dump w h path doc = Some e -> isinstance e Exception = true).

Module Quiet.

Lemma contains_raises key v e :
  PyVal.contains key v = Raise e -> isinstance e Exception = true.
Proof. destruct v; cbn; intros [= <-]; reflexivity. Qed.

Lemma setitem_raises v key x e :
  PyVal.setitem v key x = Raise e -> isinstance e Exception = true.
Proof. destruct v; cbn; intros [= <-]; reflexivity. Qed.

Lemma getitem_raises v key e :
  PyVal.getitem v key = Raise e -> isinstance e Exception = true.
Proof.
  destruct v as [| | | | |d]; cbn; try (intros [= <-]; reflexivity).
  destruct (d !! key); intros [= <-]. reflexivity.
Qed.

Lemma get_raises v key default e :
  PyVal.get v key default = Raise e -> isinstance e Exception = true.
Proof.
  destruct v as [| | | | |d]; cbn; try (intros [= <-]; reflexivity).
  destruct (d !! key); discriminate.
Qed.

Lemma set_raises v e :
  PyVal.set v = Raise e -> isinstance e Exception = true.
Proof.
  destruct v as [| | | |l|d]; cbn; try (intros [= <-]; reflexivity); try discriminate.
  destruct (forallb PyVal.hashable l); [discriminate | intros [= <-]; reflexivity].
Qed.

Section QuietSteps.

Variable w : World.
Hypothesis calm : uninterrupted w.

(** The health check swallows every error of its three queries. *)
Lemma health_check_returns h (Q : res unit -> list event -> Prop) :
  (forall h', Q (Ret tt) h') -> wp (_check_service_health w) h Q.
Proof.
  intros HQ. destruct calm as (Hrun & _).
  unfold _check_service_health. apply wp_bind, wp_print; cbv beta iota.
  apply wp_for_in with (I := fun _ _ => True); [exact I | | intros [] h' _; apply HQ].
  intros [service port] [] h' _.
  apply wp_try, wp_bind, wp_subprocess_run_unchecked.
  destruct (run_result w h' _) as [p|e] eqn:E.
  - wp_go; exact I.
  - pose proof (Hrun _ _ _ E) as He. wp_go. exact I.
Qed.

(** So does the SearXNG step once the probe of its settings file has
    answered: it then returns a boolean. *)
Lemma searxng_step_returns h (Q : res bool -> list event -> Prop) :
  path_error w (log h (EImport "yaml" true)) settings_file = None ->
  (forall b h', Q (Ret b) h') -> wp (_check_and_update_searxng_formats w) h Q.
Proof.
  intros Hprobe HQ. destruct calm as (_ & _ & _ & Hload & Hdump).
  unfold _check_and_update_searxng_formats.
  apply wp_bind_flow, wp_try, wp_bind, wp_import_yaml.
  destruct (yaml_installed w); [|wp_go; apply HQ].
  wp_steps. rewrite Hprobe.
  destruct (path_exists w _ settings_file); cbn [negb]; [|wp_go; apply HQ].
  apply wp_try, wp_bind, wp_yaml_safe_load.
  destruct (yaml_load w _ settings_file) as [config|e] eqn:E;
    [|pose proof (Hload _ _ _ E); wp_go; apply HQ].
  apply wp_bind, wp_lift.
  destruct (PyVal.contains "search" config) as [has|e] eqn:E1;
    [|pose proof (contains_raises _ _ _ E1); wp_go; apply HQ].
  apply wp_bind.
  assert (Hrest : forall config' h',
    wp (search ← lift (PyVal.getitem config' "search");
        current_formats ← lift (PyVal.get search "formats" (PList []));
        current_set ← lift (PyVal.set current_formats);
        required_set ← lift (PyVal.set (PList (map PStr required_formats)));
        if negb (PyVal.set_eq current_set required_set) then
          search ← lift (PyVal.getitem config' "search");
          search ← lift (PyVal.setitem search "formats"
                           (PList (map PStr required_formats)));
          config ← lift (PyVal.setitem config' "search" search);
          yaml_dump_to w settings_file config;;
          print "✅ SearXNG配置已更新，支持多种输出格式";;
          ret true
        else
          print "✅ SearXNG配置已是最新";;
          ret false) h'
       (fun r h'' =>
          match r with
          | Ret a => Q (Ret a) h''
          | Raise e =>
              match except Exception
                      (fun e => print ("⚠️ 更新SearXNG配置失败: " ++ exn_str e);;
                                ret false) e with
              | Some k => wp k h'' Q
              | None => Q (Raise e) h''
              end
          end)).
  { intros config' h'.
    apply wp_bind, wp_lift.
    destruct (PyVal.getitem config' "search") as [search|e] eqn:E2;
      [|pose proof (getitem_raises _ _ _ E2); wp_go; apply HQ].
    apply wp_bind, wp_lift.
    destruct (PyVal.get search "formats" (PList [])) as [cur|e] eqn:E3;
      [|pose proof (get_raises _ _ _ _ E3); wp_go; apply HQ].
    apply wp_bind, wp_lift.
    destruct (PyVal.set cur) as [cs|e] eqn:E4;
      [|pose proof (set_raises _ _ E4); wp_go; apply HQ].
    apply wp_bind, wp_lift.
    destruct (PyVal.set (PList (map PStr required_formats))) as [rs|e] eqn:E5;
      [|pose proof (set_raises _ _ E5); wp_go; apply HQ].
    destruct (negb (PyVal.set_eq cs rs)); [|wp_go; apply HQ].
    apply wp_bind, wp_lift.
    apply wp_bind, wp_lift.
    destruct (PyVal.setitem search "formats" _) as [s2|e] eqn:E6;
      [|pose proof (setitem_raises _ _ _ _ E6); wp_go; apply HQ].
    apply wp_bind, wp_lift.
    destruct (PyVal.setitem config' "search" s2) as [c2|e] eqn:E7;
      [|pose proof (setitem_raises _ _ _ _ E7); wp_go; apply HQ].
    apply wp_bind, wp_yaml_dump_to.
    destruct (yaml_dump w _ settings_file c2) as [e|] eqn:E8;
      [pose proof (Hdump _ _ _ _ E8)|]; wp_go; apply HQ. }
  destruct (negb has).
  - apply wp_lift.
    destruct (PyVal.setitem config "search" (PDict ∅)) as [c1|e] eqn:E2;
      [|pose proof (setitem_raises _ _ _ _ E2); wp_go; apply HQ].
    apply Hrest.
  - apply wp_ret. apply Hrest.
Qed.

End QuietSteps.

End Quiet.

(** ** The health check *)

Module Health.

Definition status_query (service : string) : list string :=
  ["docker"; "ps"; "--filter"; "name=" ++ service; "--format"; "{{.Status}}"].

Section HealthCheck.

Variable w : World.

Lemma health_queries (h : list event) :
  (forall h argv e, run_result w h argv = Failed e -> isinstance e Exception = true) ->
  wp (_check_service_health w) h
     (fun r h' =>
        r = Ret tt /\
        exists o1 o2 o3,
          h' = app h [ ERun (status_query "aiforge-engine") o1;
                       ERun (status_query "aiforge-searxng") o2;
                       ERun (status_query "aiforge-nginx") o3 ]).
Proof.
  intros Hrun. unfold _check_service_health, health_services.
  apply wp_bind, wp_print; cbv beta iota. cbn [for_in].
  wp_go_calm.
  all: split; [reflexivity|]; eexists _, _, _;
    unfold log; rewrite <- ?app_assoc; reflexivity.
Qed.

(** X1. Absent an interrupt, the health check always runs to its end and
    returns nothing: it asks for the status of [aiforge-engine],
    [aiforge-searxng] and [aiforge-nginx], in this order and once each,
    whatever each query answers (a container that is down, a non-zero
    status, a command that cannot be started), and does nothing else. *)
Theorem health_check_asks_three_times (h : list event) :
  (forall h argv e, run_result w h argv = Failed e -> isinstance e Exception = true) ->
  let r := _check_service_health w h in
  value r = Ret tt /\
  exists later,
    history r = app h later /\
    commands_of later = [ status_query "aiforge-engine";
                          status_query "aiforge-searxng";
                          status_query "aiforge-nginx" ] /\
    length later = 3%nat.
Proof.
  intros Hrun. cbv zeta.
  destruct (health_queries h Hrun) as (Hv & o1 & o2 & o3 & Hh).
  split; [exact Hv|]. eexists. split; [exact Hh|]. split; reflexivity.
Qed.

End HealthCheck.

Lemma health_check_asks_three_times_witness :
  value (_check_service_health Environment.all_up []) = Ret tt.
Proof.
  refine (proj1 (health_check_asks_three_times Environment.all_up [] _)).
  intros h argv e H. discriminate H.
Defined.

End Health.

(** ** What the SearXNG step may do *)

Module Confined.

(** The interactions of a pass whose probe of the settings file did not
    raise: the import alone, the import and the probe, these and the
    load, or these and one write, of a document whose [search.formats]
    is the required list. *)
Definition settings_trace (later : list event) : Prop :=
  later = [EImport "yaml" false] \/
  later = [EImport "yaml" true; EExists settings_file false] \/
  (exists r,
     later = [EImport "yaml" true; EExists settings_file true;
              ELoad settings_file r]) \/
  (exists config doc o search,
     later = [EImport "yaml" true; EExists settings_file true;
              ELoad settings_file (Ret config); EDump settings_file doc o] /\
     PyVal.getitem doc "search" = Ret search /\
     PyVal.getitem search "formats" = Ret (PList (map PStr required_formats))).

Lemma getitem_setitem (v v' x : pyval) (key : string) :
  PyVal.setitem v key x = Ret v' -> PyVal.getitem v' key = Ret x.
Proof.
  destruct v; cbn; try discriminate. intros [= <-].
  cbn. rewrite lookup_insert_eq. reflexivity.
Qed.

Section Trace.

Variable w : World.

Ltac returns_or_absurd :=
  intros (_ & _ & _ & Hload & Hdump);
  first
    [ eexists; reflexivity
    | exfalso;
      match goal with
      | E : yaml_load _ _ _ = Raise ?e, N : isinstance ?e Exception = false |- _ =>
          rewrite (Hload _ _ _ E) in N; discriminate N
      | E : yaml_dump _ _ _ _ = Some ?e, N : isinstance ?e Exception = false |- _ =>
          rewrite (Hdump _ _ _ _ E) in N; discriminate N
      end ].

Ltac traced shape :=
  right; eexists;
  split; [unfold log; rewrite <- ?app_assoc; reflexivity|];
  split; [shape | returns_or_absurd].

Ltac after_load := traced ltac:(right; right; left; eexists; reflexivity).

Lemma searxng_walk (h : list event) :
  wp (_check_and_update_searxng_formats w) h
     (fun v h' =>
        (exists e,
           yaml_installed w = true /\
           path_error w (log h (EImport "yaml" true)) settings_file = Some e /\
           v = Raise e /\
           h' = app h [EImport "yaml" true; EExistsFailed settings_file e]) \/
        (exists later,
           h' = app h later /\
           settings_trace later /\
           (uninterrupted w -> exists b : bool, v = Ret b))).
Proof.
  unfold _check_and_update_searxng_formats.
  apply wp_bind_flow, wp_try, wp_bind, wp_import_yaml.
  destruct (yaml_installed w) eqn:Hy; [|wp_go; traced ltac:(left; reflexivity)].
  wp_steps.
  destruct (path_error w _ settings_file) as [e|] eqn:Hprobe.
  { left. exists e. repeat split. unfold log. rewrite <- app_assoc. reflexivity. }
  destruct (path_exists w _ settings_file); cbn [negb];
    [|wp_go; traced ltac:(right; left; reflexivity)].
  apply wp_try, wp_bind, wp_yaml_safe_load.
  destruct (yaml_load w _ settings_file) as [config|e] eqn:E; [|wp_go; after_load].
  apply wp_bind, wp_lift.
  destruct (PyVal.contains "search" config) as [has|e] eqn:E1;
    [|pose proof (Quiet.contains_raises _ _ _ E1); wp_go; after_load].
  apply wp_bind_mid
    with (P := fun config' h' =>
                 h' = log (log (log h (EImport "yaml" true))
                               (EExists settings_file true))
                          (ELoad settings_file (Ret config))).
  { destruct (negb has).
    - apply wp_lift.
      destruct (PyVal.setitem config "search" (PDict ∅)) as [c1|e] eqn:E2;
        [reflexivity | pose proof (Quiet.setitem_raises _ _ _ _ E2); wp_go; after_load].
    - apply wp_ret. reflexivity. }
  intros config' ? ->.
  apply wp_bind, wp_lift.
  destruct (PyVal.getitem config' "search") as [search_v|e] eqn:E3;
    [|pose proof (Quiet.getitem_raises _ _ _ E3); wp_go; after_load].
  apply wp_bind, wp_lift.
  destruct (PyVal.get search_v "formats" (PList [])) as [cur|e] eqn:E4;
    [|pose proof (Quiet.get_raises _ _ _ _ E4); wp_go; after_load].
  apply wp_bind, wp_lift.
  destruct (PyVal.set cur) as [cs|e] eqn:E5;
    [|pose proof (Quiet.set_raises _ _ E5); wp_go; after_load].
  apply wp_bind, wp_lift.
  destruct (PyVal.set (PList (map PStr required_formats))) as [rs|e] eqn:E6;
    [|pose proof (Quiet.set_raises _ _ E6); wp_go; after_load].
  destruct (negb (PyVal.set_eq cs rs)); [|wp_go; after_load].
  apply wp_bind, wp_lift.
  apply wp_bind, wp_lift.
  destruct (PyVal.setitem search_v "formats" (PList (map PStr required_formats)))
    as [s2|e] eqn:E7;
    [|pose proof (Quiet.setitem_raises _ _ _ _ E7); wp_go; after_load].
  apply wp_bind, wp_lift.
  destruct (PyVal.setitem config' "search" s2) as [c2|e] eqn:E8;
    [|pose proof (Quiet.setitem_raises _ _ _ _ E8); wp_go; after_load].
  apply getitem_setitem in E7, E8.
  apply wp_bind, wp_yaml_dump_to.
  destruct (yaml_dump w _ settings_file c2) as [e|] eqn:E9; wp_go.
  all: traced ltac:(right; right; right; eexists config, c2, _, s2;
                    split; [reflexivity | split; assumption]).
Qed.

End Trace.

End Confined.

(** ** Starting the stack (C3, C6) *)

Module Start.

Section StartServices.

Variables (w : World) (self : DockerServiceManager).

(** The command that brings the stack up in either mode. *)
Definition up_command (dev_mode : bool) : list string :=
  if dev_mode
  then ["docker-compose"; "-f"; compose_file self; "-f"; dev_compose_file self; "up"; "-d"]
  else ["docker-compose"; "-f"; compose_file self; "up"; "-d"].

Definition teardown_first : list string := ["docker-compose"; "down"].

(** The build command over the production compose file alone. *)
Definition production_build : list string :=
  ["docker-compose"; "-f"; compose_file self; "build"; "--no-cache"].

Lemma wp_checks_getitem (checks : gmap string bool) (key : string) (b : bool) h
    (Q : res bool -> list event -> Prop) :
  checks !! key = Some b -> Q (Ret b) h -> wp (checks_getitem checks key) h Q.
Proof. intros Hk HQ. unfold wp, checks_getitem. rewrite Hk. exact HQ. Qed.

Lemma wp_known {A} (m : M A) h (Q : res A -> list event -> Prop) (a : A) :
  value (m h) = Ret a -> Q (Ret a) (history (m h)) -> wp m h Q.
Proof. intros Hv HQ. unfold wp. rewrite Hv. exact HQ. Qed.

(** The whole of a start that got past the detection and the build. *)
Lemma start_walk (dev_mode : bool) (h : list event)
    (checks : gmap string bool) (dev_found : bool) :
  uninterrupted w ->
  let d := check_docker_environment w self h in
  value d = Ret checks ->
  checks !! "docker_available" = Some true ->
  checks !! "docker_running" = Some true ->
  checks !! "docker_compose_available" = Some true ->
  checks !! "compose_file_exists" = Some true ->
  checks !! "dev_compose_file_exists" = Some dev_found ->
  let mode := dev_mode && dev_found in
  let b := build_images_if_needed w self mode (history d) in
  value b = Ret true ->
  let torn := run_result w (history b) teardown_first in
  let h3 := log (history b) (ERun teardown_first torn) in
  let up := run_result w h3 (up_command mode) in
  let h4 := log h3 (ERun (up_command mode) up) in
  let r := start_services w self dev_mode h in
  match torn with
  | Failed _ => value r = Ret false /\ history r = h3
  | Completed _ =>
      if exit_zero up then
        exists o1 o2 o3 later,
          let h7 := app h4 [ ESleep 10 None;
                             ERun (Health.status_query "aiforge-engine") o1;
                             ERun (Health.status_query "aiforge-searxng") o2;
                             ERun (Health.status_query "aiforge-nginx") o3 ] in
          history r = app h7 later /\
          ((value r = Ret true /\ Confined.settings_trace later) \/
           (exists e,
              path_error w (log h7 (EImport "yaml" true)) settings_file = Some e /\
              later = [EImport "yaml" true; EExistsFailed settings_file e] /\
              (isinstance e Exception = true -> value r = Ret false)))
      else value r = Ret false /\ history r = h4
  end.
Proof.
  intros calm d Hd K1 K2 K3 K4 K5 mode b Hb torn h3 up h4 r. subst r.
  pose proof calm as (Hrun & _ & Hsleep & _).
  wp_start (start_services w self dev_mode) h.
  unfold start_services.
  apply wp_bind, wp_print; cbv beta iota.
  apply wp_bind, wp_print; cbv beta iota.
  apply wp_bind, (wp_known _ _ _ checks Hd). fold d.
  apply wp_bind, (wp_checks_getitem _ _ _ _ _ K1); cbn [negb].
  apply wp_bind, (wp_checks_getitem _ _ _ _ _ K2); cbn [negb].
  apply wp_bind, (wp_checks_getitem _ _ _ _ _ K3); cbn [negb].
  apply wp_bind, (wp_checks_getitem _ _ _ _ _ K4); cbn [negb].
  apply wp_bind_mid with (P := fun missing h' =>
                                 missing = (dev_mode && negb dev_found)%bool /\
                                 h' = history d).
  { destruct dev_mode; cbn [andb].
    - apply wp_bind, (wp_checks_getitem _ _ _ _ _ K5). apply wp_ret. auto.
    - apply wp_ret. auto. }
  intros missing h' [-> ->].
  apply wp_bind_mid with (P := fun m h' => m = mode /\ h' = history d).
  { subst mode. destruct dev_mode, dev_found; cbn [andb negb]; wp_go; auto. }
  intros m h' [-> ->].
  apply wp_bind, wp_print; cbv beta iota.
  apply wp_bind, (wp_known _ _ _ true Hb). fold b. cbn [negb].
  apply wp_bind, wp_print; cbv beta iota.
  apply wp_bind, wp_print; cbv beta iota.
  apply wp_try.
  apply wp_bind, wp_print; cbv beta iota.
  apply wp_bind, wp_subprocess_run_unchecked. fold teardown_first torn.
  destruct torn as [pt|et] eqn:Et.
  2:{ pose proof (Hrun _ _ _ Et). wp_go. split; reflexivity. }
  fold h3.
  apply wp_bind_mid with (P := fun cmd h' =>
                                 app cmd ["up"; "-d"] = up_command mode /\ h' = h3).
  { unfold up_command. destruct mode; wp_go; auto. }
  intros cmd h' [Hcmd ->]. rewrite Hcmd.
  apply wp_bind, wp_subprocess_run_unchecked. fold up.
  destruct up as [pu|eu] eqn:Eu; cbn [exit_zero].
  2:{ pose proof (Hrun _ _ _ Eu). wp_go. split; reflexivity. }
  fold h4.
  destruct (returncode pu =? 0); [|wp_go; split; reflexivity].
  apply wp_bind, wp_print; cbv beta iota.
  apply wp_bind. unfold _show_service_urls. wp_steps.
  rewrite Hsleep. cbv beta iota.
  apply wp_bind_mid
    with (P := fun _ h' =>
                 exists o1 o2 o3,
                   h' = app h4 [ ESleep 10 None;
                                 ERun (Health.status_query "aiforge-engine") o1;
                                 ERun (Health.status_query "aiforge-searxng") o2;
                                 ERun (Health.status_query "aiforge-nginx") o3 ]).
  { apply (wp_mono _ _ _ _ (Health.health_queries w _ Hrun)).
    intros v h' (-> & o1 & o2 & o3 & ->). exists o1, o2, o3.
    unfold log. rewrite <- app_assoc. reflexivity. }
  intros [] h' (o1 & o2 & o3 & ->).
  set (h7 := app h4 _).
  apply wp_bind.
  apply (wp_mono _ _ _ _ (Confined.searxng_walk w h7)).
  intros v h' [(e & _ & Hprobe & -> & ->) | (later & -> & Htrace & Hret)].
  - unfold except. destruct (isinstance e Exception) eqn:He.
    + wp_go. exists o1, o2, o3, [EImport "yaml" true; EExistsFailed settings_file e].
      split; [reflexivity|]. right. exists e. auto.
    + exists o1, o2, o3, [EImport "yaml" true; EExistsFailed settings_file e].
      split; [reflexivity|]. right. exists e.
      split; [exact Hprobe|]. split; [reflexivity | congruence].
  - destruct (Hret calm) as [ok ->]. wp_go.
    exists o1, o2, o3, later. split; [reflexivity|]. left. auto.
Qed.

(** C3, amended. Take a run of [start_services] in which the detection
    reports the four preconditions as met and the build step returns
    [True], in which no interrupt arrives and the probe of the SearXNG
    settings file answers. It returns a boolean, and that boolean is the
    success of the "up" command alone: [True] when the command was run
    and left with status zero, [False] otherwise. Whatever the sleep,
    the three health queries and the rest of the SearXNG step then do or
    fail to do (all of them are arbitrary here) has no part in it. *)
Theorem start_returns_up_status (dev_mode : bool) (h : list event)
    (checks : gmap string bool) (dev_found : bool) :
  uninterrupted w ->
  (forall h', path_error w h' settings_file = None) ->
  let d := check_docker_environment w self h in
  value d = Ret checks ->
  checks !! "docker_available" = Some true ->
  checks !! "docker_running" = Some true ->
  checks !! "docker_compose_available" = Some true ->
  checks !! "compose_file_exists" = Some true ->
  checks !! "dev_compose_file_exists" = Some dev_found ->
  let mode := dev_mode && dev_found in
  let b := build_images_if_needed w self mode (history d) in
  value b = Ret true ->
  let torn := run_result w (history b) teardown_first in
  let h3 := log (history b) (ERun teardown_first torn) in
  let up := run_result w h3 (up_command mode) in
  value (start_services w self dev_mode h) =
  Ret (match torn with
       | Completed _ => exit_zero up
       | Failed _ => false
       end).
Proof.
  intros calm Hprobe d Hd K1 K2 K3 K4 K5 mode b Hb torn h3 up.
  pose proof (start_walk dev_mode h checks dev_found calm Hd K1 K2 K3 K4 K5 Hb) as H.
  cbv zeta in H. fold d mode b torn h3 up in H.
  destruct torn as [pt|et]; [|exact (proj1 H)].
  destruct (exit_zero up); [|exact (proj1 H)].
  destruct H as (o1 & o2 & o3 & later & _ & [[Hv _] | (e & He & _)]); [exact Hv|].
  rewrite Hprobe in He. discriminate He.
Qed.

(** C3 as the specification words it: the result is the success of the
    "up" command, whatever the steps after it do. *)
Definition returns_up_status_alone (dev_mode : bool) (h : list event) : Prop :=
  uninterrupted w ->
  forall (checks : gmap string bool) (dev_found : bool),
    let d := check_docker_environment w self h in
    value d = Ret checks ->
    checks !! "docker_available" = Some true ->
    checks !! "docker_running" = Some true ->
    checks !! "docker_compose_available" = Some true ->
    checks !! "compose_file_exists" = Some true ->
    checks !! "dev_compose_file_exists" = Some dev_found ->
    let mode := dev_mode && dev_found in
    let b := build_images_if_needed w self mode (history d) in
    value b = Ret true ->
    let torn := run_result w (history b) teardown_first in
    let h3 := log (history b) (ERun teardown_first torn) in
    let up := run_result w h3 (up_command mode) in
    value (start_services w self dev_mode h) =
    Ret (match torn with
         | Completed _ => exit_zero up
         | Failed _ => false
         end).

(** Two runs are the same to the outside when they end with the same
    result after the same interactions; what they print may differ. *)
Definition same_run {A} (r1 r2 : run A) : Prop :=
  value r1 = value r2 /\ history r1 = history r2.

Lemma same_run_refl {A} (r : run A) : same_run r r.
Proof. split; reflexivity. Qed.

Lemma same_run_trans {A} (r1 r2 r3 : run A) :
  same_run r1 r2 -> same_run r2 r3 -> same_run r1 r3.
Proof. intros [? ?] [? ?]. split; congruence. Qed.

Lemma same_run_sym {A} (r1 r2 : run A) : same_run r1 r2 -> same_run r2 r1.
Proof. intros [? ?]. split; congruence. Qed.

Lemma same_bind_head {A B} (m1 m2 : M A) (k : A -> M B) h :
  same_run (m1 h) (m2 h) -> same_run (bind m1 k h) (bind m2 k h).
Proof.
  intros [Hv Hh]. unfold same_run. rewrite !bind_run, <- Hv, <- Hh.
  destruct (value (m1 h)); split; reflexivity.
Qed.

Lemma same_bind_tail {A B} (m : M A) (k1 k2 : A -> M B) h :
  (forall a, value (m h) = Ret a ->
     same_run (k1 a (history (m h))) (k2 a (history (m h)))) ->
  same_run (bind m k1 h) (bind m k2 h).
Proof.
  intros Hk. unfold same_run. rewrite !bind_run.
  destruct (value (m h)) as [a|e]; [|split; reflexivity].
  destruct (Hk a eq_refl) as [Hv Hh]. split; assumption.
Qed.

Lemma same_bind_pure {A B} (m : M A) (k : A -> M B) h (a : A) :
  value (m h) = Ret a -> history (m h) = h -> same_run (bind m k h) (k a h).
Proof.
  intros Hv Hh. unfold same_run. rewrite bind_run, Hv, Hh. split; reflexivity.
Qed.

(** A start in development mode without the development compose file
    is, to the outside, a start in production mode. *)
Lemma falls_back (h : list event) (checks : gmap string bool) :
  value (check_docker_environment w self h) = Ret checks ->
  checks !! "dev_compose_file_exists" = Some false ->
  same_run (start_services w self true h) (start_services w self false h).
Proof.
  intros Hd K5. unfold start_services.
  apply same_bind_tail; intros _ _.
  apply same_bind_tail; intros _ _.
  apply same_bind_tail. intros c Hc.
  assert (c = checks) as -> by (cbn [print history] in Hc; congruence).
  repeat (apply same_bind_tail;
          let ok := fresh "ok" in
          intros ok _; destruct (negb ok); [apply same_run_refl|];
          cbv beta iota).
  set (h' := history _).
  eapply same_run_trans.
  { apply same_bind_pure with (a := true).
    - unfold checks_getitem. rewrite K5. reflexivity.
    - unfold checks_getitem. rewrite K5. reflexivity. }
  eapply same_run_trans.
  2:{ apply same_run_sym. apply same_bind_pure with (a := false); reflexivity. }
  apply same_bind_head. split; reflexivity.
Qed.

Ltac built_events :=
  split; unfold not; intros;
  match goal with
  | Hin : In _ _ |- _ =>
      cbn [In app] in Hin;
      repeat (destruct Hin as [Hin|Hin];
              [first [discriminate Hin | injection Hin as <- <-; reflexivity]|]);
      contradiction
  end.

(** In production mode the build step never looks for a file, and the
    build it may start is over the production compose file alone. *)
Lemma production_build_only (h : list event) :
  wp (build_images_if_needed w self false) h
     (fun _ h' =>
        exists built,
          h' = app h built /\
          (forall argv o, In (EPopen argv o) built -> argv = production_build) /\
          (forall path found, ~ In (EExists path found) built)).
Proof.
  unfold build_images_if_needed, production_build.
  apply wp_bind, wp_print; cbv beta iota.
  apply wp_try, wp_bind, wp_subprocess_run_unchecked.
  destruct (run_result w h list_aiforge_images) as [p|e].
  - destruct (truthy (strip (stdout p))).
    + wp_go. eexists. split; [reflexivity|]. built_events.
    + apply wp_bind, wp_print; cbv beta iota.
      apply wp_bind, wp_print; cbv beta iota.
      apply wp_bind, wp_ret; cbn [app].
      apply wp_bind, wp_subprocess_Popen.
      destruct (popen_result w _ _) as [q|e];
        [ apply wp_bind, wp_print; cbv beta iota;
          apply wp_bind, Build.wp_echo_build_lines; cbv beta iota; wp_go
        | wp_go ].
      all: eexists; (split; [unfold log; rewrite <- ?app_assoc; reflexivity|]).
      all: built_events.
  - wp_go; (eexists; split; [reflexivity|]); built_events.
Qed.


End StartServices.

(** A machine on which everything is in place but the development
    compose file. *)
Definition no_dev_file : World :=
  {| run_result := fun _ _ => Environment.completed 0 "aiforge-engine:latest";
     popen_result := fun _ _ => Environment.completed 0 "";
     path_exists := fun _ path => negb (String.eqb path "docker-compose.dev.yml");
     path_error := fun _ _ => None;
     sleep_result := fun _ _ => None;
     yaml_installed := true;
     yaml_load := fun _ _ => Ret (PDict ∅);
     yaml_dump := fun _ _ _ => None;
     cwd := "/srv/AIForge";
     importlib_root := fun _ => Ret "/usr/lib/python3/site-packages/aiforge/..";
     pkg_resources_root := fun _ => Ret "/usr/lib/python3/site-packages/aiforge/.." |}.

(** What the detection reports there. *)
Definition found_without_dev_file : gmap string bool :=
  <["aiforge_image_exists" := true]>
    (<["compose_file_exists" := true]>
       (<["docker_compose_available" := true]>
          (<["docker_running" := true]>
             (<["docker_available" := true]> initial_checks)))).

Lemma no_dev_file_uninterrupted : uninterrupted no_dev_file.
Proof.
  repeat split; intros; first [discriminate | reflexivity].
Qed.


Lemma start_returns_up_status_witness :
  value (start_services no_dev_file Environment.source_tree true []) = Ret true.
Proof.
  exact (start_returns_up_status
           no_dev_file Environment.source_tree true [] found_without_dev_file false
           no_dev_file_uninterrupted (fun _ => eq_refl)
           eq_refl eq_refl eq_refl eq_refl eq_refl eq_refl eq_refl).
Defined.

(** *** A settings directory that cannot be searched

    Everything is in place and every command succeeds, but the
    directory [searxng] cannot be searched (it belongs to another user):
    the probe of [searxng/settings.yml] raises [PermissionError]. *)
Definition settings_unreadable : World :=
  {| run_result := fun _ _ => Environment.completed 0 "aiforge-engine:latest";
     popen_result := fun _ _ => Environment.completed 0 "";
     path_exists := fun _ _ => true;
     path_error := fun _ path =>
       if String.eqb path settings_file
       then Some (mk_exn PermissionError
                    "[Errno 13] Permission denied: 'searxng/settings.yml'")
       else None;
     sleep_result := fun _ _ => None;
     yaml_installed := true;
     yaml_load := fun _ _ => Ret (PDict ∅);
     yaml_dump := fun _ _ _ => None;
     cwd := "/srv/AIForge";
     importlib_root := fun _ => Ret "/usr/lib/python3/site-packages/aiforge/..";
     pkg_resources_root := fun _ => Ret "/usr/lib/python3/site-packages/aiforge/.." |}.

Lemma settings_unreadable_uninterrupted : uninterrupted settings_unreadable.
Proof.
  repeat split; intros; first [discriminate | reflexivity].
Qed.

(** C3 fails as stated: the "up" command leaves with status zero, the
    probe of the settings file raises, the handler of [start_services]
    catches it and the start returns [False]. *)
Lemma unreadable_settings_fail_the_start :
  ~ returns_up_status_alone settings_unreadable Environment.source_tree false [].
Proof.
  intros H.
  specialize (H settings_unreadable_uninterrupted
                (<["dev_compose_file_exists" := true]> found_without_dev_file) true
                eq_refl eq_refl eq_refl eq_refl eq_refl eq_refl eq_refl).
  vm_compute in H. discriminate H.
Qed.

End Start.

(** ** The command line (C8, C10) *)

Module CommandLine.

(** The action a command line names did what it was asked to. *)
Definition succeeded (w : World) (manager : DockerServiceManager)
    (action : string) (dev : bool) (h : list event) : Prop :=
  (action = "start" /\ value (start_services w manager dev h) = Ret true) \/
  (action = "stop" /\ value (stop_services w manager h) = Ret true) \/
  (action = "status" /\ value (show_status w h) = Ret tt) \/
  (action = "cleanup" /\ value (cleanup w h) = Ret true) \/
  (action = "deep-cleanup" /\ value (deep_cleanup w h) = Ret true).

Definition process_list : list string := ["docker-compose"; "ps"].

Section Main.

Variable w : World.

Lemma valid_action (action : string) :
  In action choices -> existsb (String.eqb action) choices = true.
Proof.
  intros Hin. apply existsb_exists. exists action.
  split; [exact Hin | apply String.eqb_refl].
Qed.

(** What [main] hands to [sys.exit], from the result of the dispatch. *)
Lemma main_exit_status (action : string) (dev : bool) (h : list event)
    (manager : DockerServiceManager) :
  In action choices ->
  value (__init__ w h) = Ret manager ->
  exit_status (main w action dev h) =
  match value (dispatch w manager action dev (history (__init__ w h))) with
  | Ret true => 0
  | _ => 1
  end.
Proof.
  intros Hin Hinit. unfold exit_status, main.
  rewrite (valid_action _ Hin). cbn [negb].
  rewrite bind_run, Hinit. cbn [value].
  rewrite bind_run. unfold try_except.
  destruct (value (dispatch w manager action dev _)) as [[|]|e] eqn:Ea.
  - rewrite Ea. reflexivity.
  - rewrite Ea. reflexivity.
  - unfold orelse, except.
    destruct (isinstance e KeyboardInterrupt) eqn:Ek; [reflexivity|].
    destruct (isinstance e Exception); [reflexivity|].
    rewrite Ea. cbn [value]. rewrite Ek. reflexivity.
Qed.

Lemma dispatch_succeeded (manager : DockerServiceManager) (action : string)
    (dev : bool) (h : list event) :
  In action choices ->
  value (dispatch w manager action dev h) = Ret true <->
  succeeded w manager action dev h.
Proof.
  unfold succeeded, choices. cbn [In].
  intros [<-|[<-|[<-|[<-|[<-|[]]]]]]; cbn [dispatch String.eqb Ascii.eqb Bool.eqb];
    unfold dispatch; cbn [String.eqb Ascii.eqb Bool.eqb].
  - split; [intros H; left; auto | intros [[_ H]|[[E _]|[[E _]|[[E _]|[E _]]]]]; [exact H|discriminate E..]].
  - split; [intros H; right; left; auto | intros [[E _]|[[_ H]|[[E _]|[[E _]|[E _]]]]]; [discriminate E|exact H|discriminate E..]].
  - rewrite bind_run.
    split.
    + intros H. right; right; left. split; [reflexivity|].
      destruct (value (show_status w h)) as [[]|e]; [reflexivity | discriminate H].
    + intros [[E _]|[[E _]|[[_ H]|[[E _]|[E _]]]]]; try discriminate E.
      rewrite H. reflexivity.
  - split; [intros H; right; right; right; left; auto | intros [[E _]|[[E _]|[[E _]|[[_ H]|[E _]]]]]; [discriminate E..|exact H|discriminate E]].
  - split; [intros H; right; right; right; right; auto | intros [[E _]|[[E _]|[[E _]|[[E _]|[_ H]]]]]; [discriminate E..|exact H]].
Qed.

(** A manager that could not be set up ends the process before any
    dispatch: the exception leaves [main], outside its [try]. *)
Lemma main_without_manager (action : string) (dev : bool) (h : list event) (e : exn) :
  In action choices ->
  value (__init__ w h) = Raise e ->
  exit_status (main w action dev h) =
  if isinstance e KeyboardInterrupt then 130 else 1.
Proof.
  intros Hin Hinit. unfold exit_status, main.
  rewrite (valid_action _ Hin). cbn [negb].
  rewrite bind_run, Hinit. reflexivity.
Qed.

(** C8. For each of the five actions the command line accepts, the
    process ends with status 0 exactly when the method the action names
    reported success ([True], or for [status] a normal return), and with
    status 1 in every other case: the method returned [False], or it
    raised, be it the interrupt, an [Exception] or anything else.  When
    the manager could not even be set up no action is dispatched and the
    status is not 0: it is 1, but for an interrupt during the set-up. *)
Theorem exit_status_reports_success (action : string) (dev : bool) (h : list event) :
  In action choices ->
  let code := exit_status (main w action dev h) in
  (forall manager,
     value (__init__ w h) = Ret manager ->
     let h0 := history (__init__ w h) in
     (code = 0 <-> succeeded w manager action dev h0) /\
     (forall e, value (dispatch w manager action dev h0) = Raise e -> code = 1) /\
     (code = 0 \/ code = 1)) /\
  (forall e,
     value (__init__ w h) = Raise e ->
     code <> 0 /\ (isinstance e KeyboardInterrupt = false -> code = 1)).
Proof.
  intros Hin. cbv zeta.
  destruct (value (__init__ w h)) as [manager|e0] eqn:Hinit.
  - rewrite (main_exit_status action dev h manager Hin Hinit).
    split; [|discriminate].
    intros m [= <-].
    rewrite <- (dispatch_succeeded manager action dev _ Hin).
    destruct (value (dispatch w manager action dev _)) as [[|]|e].
    + split; [tauto|]. split; [|auto]. intros e He. discriminate He.
    + split; [split; discriminate|]. split; [|auto]. intros e He. discriminate He.
    + split; [split; discriminate|]. split; [reflexivity | auto].
  - rewrite (main_without_manager action dev h e0 Hin Hinit).
    split; [discriminate|].
    intros e [= <-]. split.
    + destruct (isinstance e0 KeyboardInterrupt); discriminate.
    + intros ->. reflexivity.
Qed.


Lemma checked_run_fails (argv : list string) (h : list event) (p : CompletedProcess) :
  run_result w h argv = Completed p ->
  (returncode p =? 0) = false ->
  subprocess_run w argv true h =
  Run (Raise (mk_exn CalledProcessError "Command returned non-zero exit status"))
      (log h (ERun argv (Completed p))) [].
Proof. intros E Z. unfold subprocess_run. rewrite E. cbn [andb]. rewrite Z. reflexivity. Qed.

(** [show_status] swallows a listing that fails with a status, and
    reports it on the console. *)
Lemma status_failure_is_printed (h : list event) (p : CompletedProcess) :
  run_result w h process_list = Completed p ->
  (returncode p =? 0) = false ->
  show_status w h =
  Run (Ret tt) (log h (ERun process_list (Completed p)))
      [ "📊 AIForge Docker服务状态:"; repeat_str "=" 40; "❌ 无法获取服务状态" ].
Proof.
  intros E Z. unfold show_status. fold process_list.
  rewrite bind_run. cbn [print value history printed].
  rewrite bind_run. cbn [print value history printed].
  unfold try_except. rewrite bind_run.
  rewrite (checked_run_fails process_list h p E Z).
  cbn [value history printed]. reflexivity.
Qed.

Lemma show_status_returns (h : list event) (p : CompletedProcess) :
  uninterrupted w ->
  run_result w h process_list = Completed p ->
  value (show_status w h) = Ret tt.
Proof.
  intros calm E. destruct (returncode p =? 0) eqn:Z.
  - wp_start (show_status w) h. unfold show_status.
    apply wp_bind, wp_print; cbv beta iota.
    apply wp_bind, wp_print; cbv beta iota.
    apply wp_try, wp_bind, wp_subprocess_run. fold process_list. rewrite E.
    cbn [andb]. rewrite Z. cbn [negb].
    apply wp_bind, wp_print; cbv beta iota.
    apply (Quiet.health_check_returns w calm). reflexivity.
  - rewrite (status_failure_is_printed h p E Z). reflexivity.
Qed.

(** C10, amended. The [status] action ends with status 0 whenever the
    process listing can be run and no interrupt arrives: a listing that
    leaves with a non-zero status is caught inside [show_status] and
    reported on the console, [show_status] returns nothing, and the
    dispatcher then counts the action a success. A listing that cannot
    be run at all (the call raises something other than
    [CalledProcessError], a missing [docker-compose] for one) is not
    caught there: the action ends with status 1. *)
Theorem status_exits_zero_when_listing_runs (dev : bool) (h : list event)
    (manager : DockerServiceManager) :
  value (__init__ w h) = Ret manager ->
  let h0 := history (__init__ w h) in
  let listing := run_result w h0 process_list in
  let code := exit_status (main w "status" dev h) in
  (forall p, listing = Completed p -> uninterrupted w -> code = 0) /\
  (forall p, listing = Completed p -> (returncode p =? 0) = false ->
     code = 0 /\
     value (show_status w h0) = Ret tt /\
     In "❌ 无法获取服务状态" (printed (show_status w h0))) /\
  (forall e, listing = Failed e -> isinstance e CalledProcessError = false ->
     code = 1).
Proof.
  intros Hinit. cbv zeta.
  assert (Hin : In "status" choices) by (cbn; auto).
  rewrite (main_exit_status "status" dev h manager Hin Hinit).
  set (h0 := history (__init__ w h)).
  assert (Hd : forall u, value (show_status w h0) = u ->
                match value (dispatch w manager "status" dev h0) with
                | Ret true => 0 | _ => 1
                end = match u with Ret _ => 0 | Raise _ => 1 end).
  { intros u <-. unfold dispatch. cbn [String.eqb Ascii.eqb Bool.eqb].
    rewrite bind_run. destruct (value (show_status w h0)); reflexivity. }
  repeat split.
  - intros p E calm. rewrite (Hd _ (show_status_returns h0 p calm E)). reflexivity.
  - rewrite (Hd (Ret tt)); [reflexivity|].
    rewrite (status_failure_is_printed h0 p); auto.
  - rewrite (status_failure_is_printed h0 p); auto.
  - rewrite (status_failure_is_printed h0 p); auto. cbn [printed In]. auto.
  - intros e E He. rewrite (Hd (Raise e)); [reflexivity|].
    wp_start (show_status w) h0. unfold show_status.
    apply wp_bind, wp_print; cbv beta iota.
    apply wp_bind, wp_print; cbv beta iota.
    apply wp_try, wp_bind, wp_subprocess_run. fold process_list. rewrite E.
    wp_go. reflexivity.
Qed.

End Main.


(** *** A machine without Docker Compose *)

Definition compose_missing : World :=
  {| run_result := fun _ argv =>
       match argv with
       | command :: _ =>
           if String.eqb command "docker-compose"
           then Failed (mk_exn FileNotFoundError
                          "No such file or directory: 'docker-compose'")
           else Environment.completed 0 "Docker version 24.0.7"
       | [] => Environment.completed 0 ""
       end;
     popen_result := fun _ _ => Environment.completed 0 "";
     path_exists := fun _ _ => true;
     path_error := fun _ _ => None;
     sleep_result := fun _ _ => None;
     yaml_installed := true;
     yaml_load := fun _ _ => Ret (PDict ∅);
     yaml_dump := fun _ _ _ => None;
     cwd := "/srv/AIForge";
     importlib_root := fun _ => Ret "/usr/lib/python3/site-packages/aiforge/..";
     pkg_resources_root := fun _ => Ret "/usr/lib/python3/site-packages/aiforge/.." |}.

Lemma compose_missing_uninterrupted : uninterrupted compose_missing.
Proof.
  repeat split; intros; try discriminate; try reflexivity.
  cbn [compose_missing run_result] in H.
  destruct argv as [|command argv]; [discriminate|].
  destruct (String.eqb command "docker-compose"); [|discriminate].
  injection H as <-. reflexivity.
Qed.

(** C10 as the specification words it: without an interrupt, [status]
    always ends with status 0. *)
Definition status_always_exits_zero (w : World) : Prop :=
  uninterrupted w ->
  forall dev h, exit_status (main w "status" dev h) = 0.

(** C10 fails as stated: without Docker Compose the listing raises
    [FileNotFoundError], which [show_status] does not catch; the handler
    of [main] turns it into status 1. *)
Lemma status_fails_without_compose : ~ status_always_exits_zero compose_missing.
Proof.
  intros H. specialize (H compose_missing_uninterrupted false []).
  vm_compute in H. discriminate H.
Qed.

Lemma all_up_uninterrupted : uninterrupted Environment.all_up.
Proof. repeat split; intros; first [discriminate | reflexivity]. Qed.

Lemma status_exits_zero_when_listing_runs_witness :
  exit_status (main Environment.all_up "status" false []) = 0.
Proof.
  destruct (status_exits_zero_when_listing_runs
              Environment.all_up false [] Environment.source_tree eq_refl)
    as (Hok & _).
  exact (Hok _ eq_refl all_up_uninterrupted).
Defined.

Lemma exit_status_reports_success_witness :
  exit_status (main Environment.all_up "stop" false []) = 0.
Proof.
  destruct (exit_status_reports_success Environment.all_up "stop" false []
              (or_intror (or_introl eq_refl)))
    as (Hret & _).
  destruct (Hret Environment.source_tree eq_refl) as (Hiff & _).
  apply Hiff. right; left. split; reflexivity.
Defined.

End CommandLine.

(** ** The SearXNG output formats (C4) *)

Module Searxng.

(** The values of a sequence are, as a set, the required formats. *)
Definition SameFormats (values : list pyval) : Prop :=
  (forall v, In v values -> exists s, v = PStr s /\ In s required_formats) /\
  (forall s, In s required_formats -> In (PStr s) values).

(** The required list, as the value written to the document. *)
Definition required_value : pyval := PList (map PStr required_formats).

Lemma eq_string_r (x : pyval) (s : string) :
  PyVal.eq x (PStr s) = true <-> x = PStr s.
Proof.
  destruct x; cbn; try (split; [discriminate | intros H; discriminate H]).
  rewrite String.eqb_eq. split; [intros ->; reflexivity | intros [= ->]; reflexivity].
Qed.

Lemma eq_string_l (s : string) (y : pyval) :
  PyVal.eq (PStr s) y = true <-> y = PStr s.
Proof.
  destruct y; cbn; try (split; [discriminate | intros H; discriminate H]).
  rewrite String.eqb_eq. split; [intros ->; reflexivity | intros [= ->]; reflexivity].
Qed.

Lemma set_eq_same_formats (values : list pyval) :
  PyVal.set_eq values (map PStr required_formats) = true <-> SameFormats values.
Proof.
  unfold PyVal.set_eq, PyVal.subset, SameFormats.
  rewrite andb_true_iff, !forallb_forall. split.
  - intros [Ha Hb]. split.
    + intros v Hv. specialize (Ha v Hv).
      apply existsb_exists in Ha as (y & Hy & Heq).
      apply in_map_iff in Hy as (s & <- & Hs).
      apply eq_string_r in Heq. eauto.
    + intros s Hs. specialize (Hb (PStr s) (in_map PStr _ _ Hs)).
      apply existsb_exists in Hb as (y & Hy & Heq).
      apply eq_string_l in Heq. subst y. exact Hy.
  - intros [Ha Hb]. split.
    + intros v Hv. destruct (Ha v Hv) as (s & -> & Hs).
      apply existsb_exists. exists (PStr s).
      split; [apply in_map; exact Hs | apply eq_string_r; reflexivity].
    + intros y Hy. apply in_map_iff in Hy as (s & <- & Hs).
      apply existsb_exists. exists (PStr s).
      split; [apply Hb; exact Hs | apply eq_string_l; reflexivity].
Qed.

(** A settings document of the expected shape: a mapping whose [search]
    entry, if any, is a mapping [search], whose [formats] entry, if any,
    is the sequence [values] of scalars. *)
Definition settings_shape (d search : gmap string pyval) (values : list pyval) : Prop :=
  (d !! "search" = None /\ search = ∅ \/ d !! "search" = Some (PDict search)) /\
  (search !! "formats" = None /\ values = [] \/
   search !! "formats" = Some (PList values)) /\
  forallb PyVal.hashable values = true.

(** The document with [search.formats] set to the required list. *)
Definition with_required_formats (d search : gmap string pyval) : pyval :=
  PDict (<["search" := PDict (<["formats" := required_value]> search)]> d).

Section Formats.

Variable w : World.

(** C4, amended. Let PyYAML be installed and the settings file exist
    and parse to a document of the expected shape. The step then writes
    the file if and only if the set of the values under [search.formats]
    (none when the key is missing) differs from html, json, csv, rss,
    whatever their order and repetitions. When the sets are equal,
    nothing is written and the step returns [False]. When they differ,
    the one write stores the document with [search.formats] set to the
    required list, and the step returns [True] once the write went
    through ([False] if the write raised). *)
Theorem formats_rewritten_iff_set_differs (h : list event)
    (d search : gmap string pyval) (values : list pyval) :
  let r := _check_and_update_searxng_formats w h in
  let h1 := log h (EImport "yaml" true) in
  let h2 := log h1 (EExists settings_file true) in
  let h3 := log h2 (ELoad settings_file (Ret (PDict d))) in
  let updated := with_required_formats d search in
  let written := yaml_dump w h3 settings_file updated in
  yaml_installed w = true ->
  path_error w h1 settings_file = None ->
  path_exists w h1 settings_file = true ->
  yaml_load w h2 settings_file = Ret (PDict d) ->
  settings_shape d search values ->
  (SameFormats values -> value r = Ret false /\ history r = h3) /\
  (~ SameFormats values ->
     history r = log h3 (EDump settings_file updated written) /\
     (written = None -> value r = Ret true) /\
     (forall e, written = Some e -> isinstance e Exception = true ->
        value r = Ret false)).
Proof.
  intros r h1 h2 h3 updated written Hyaml Hprobe Hfile Hload
    (Hsearch & Hformats & Hhash).
  subst r. wp_start (_check_and_update_searxng_formats w) h.
  unfold _check_and_update_searxng_formats.
  apply wp_bind_flow, wp_try, wp_bind, wp_import_yaml. rewrite Hyaml.
  fold h1. wp_steps. rewrite Hprobe, Hfile. fold h2. cbn [negb].
  apply wp_try, wp_bind, wp_yaml_safe_load. rewrite Hload. fold h3.
  assert (Hset : PyVal.set (PList values) = Ret values)
    by (cbn [PyVal.set]; rewrite Hhash; reflexivity).
  assert (Hget : PyVal.get (PDict search) "formats" (PList []) = Ret (PList values)).
  { cbn [PyVal.get]. destruct Hformats as [[-> ->]| ->]; reflexivity. }
  assert (Hdecide : forall b, PyVal.set_eq values (map PStr required_formats) = b ->
            if b then SameFormats values else ~ SameFormats values).
  { intros [] Hb; [apply set_eq_same_formats; exact Hb|].
    intros H. apply set_eq_same_formats in H. congruence. }
  assert (Hupdated :
    forall config,
      PyVal.getitem config "search" = Ret (PDict search) ->
      PyVal.setitem config "search" (PDict (<["formats" := required_value]> search))
        = Ret updated ->
      wp (search ← lift (PyVal.getitem config "search");
          current_formats ← lift (PyVal.get search "formats" (PList []));
          current_set ← lift (PyVal.set current_formats);
          required_set ← lift (PyVal.set (PList (map PStr required_formats)));
          if negb (PyVal.set_eq current_set required_set) then
            search ← lift (PyVal.getitem config "search");
            search ← lift (PyVal.setitem search "formats"
                             (PList (map PStr required_formats)));
            config ← lift (PyVal.setitem config "search" search);
            yaml_dump_to w settings_file config;;
            print "✅ SearXNG配置已更新，支持多种输出格式";;
            ret true
          else
            print "✅ SearXNG配置已是最新";;
            ret false) h3
         (fun r h' =>
            match r with
            | Ret a =>
                (SameFormats values -> Ret a = Ret false /\ h' = h3) /\
                (~ SameFormats values ->
                   h' = log h3 (EDump settings_file updated written) /\
                   (written = None -> Ret a = Ret true) /\
                   (forall e, written = Some e -> isinstance e Exception = true ->
                      Ret a = Ret false))
            | Raise e =>
                match except Exception
                        (fun e => print ("⚠️ 更新SearXNG配置失败: " ++ exn_str e);;
                                  ret false) e with
                | Some k =>
                    wp k h'
                      (fun r h'' =>
                         (SameFormats values -> r = Ret false /\ h'' = h3) /\
                         (~ SameFormats values ->
                            h'' = log h3 (EDump settings_file updated written) /\
                            (written = None -> r = Ret true) /\
                            (forall e, written = Some e ->
                               isinstance e Exception = true -> r = Ret false)))
                | None =>
                    (SameFormats values -> Raise e = Ret false /\ h' = h3) /\
                    (~ SameFormats values ->
                       h' = log h3 (EDump settings_file updated written) /\
                       (written = None -> Raise e = Ret true) /\
                       (forall e0, written = Some e0 ->
                          isinstance e0 Exception = true -> Raise e = Ret false))
                end
            end)).
  { intros config Hgi Hsi.
    apply wp_bind, wp_lift. rewrite Hgi.
    apply wp_bind, wp_lift. rewrite Hget.
    apply wp_bind, wp_lift. rewrite Hset.
    apply wp_bind, wp_lift. cbn [PyVal.set forallb map required_formats PyVal.hashable andb].
    fold (map PStr required_formats).
    change [PStr "html"; PStr "json"; PStr "csv"; PStr "rss"]
      with (map PStr required_formats).
    pose proof (Hdecide _ eq_refl) as Hd.
    destruct (PyVal.set_eq values (map PStr required_formats)); cbn [negb].
    - wp_go. split; [auto | intros N; contradiction].
    - apply wp_bind, wp_lift. cbn [PyVal.setitem].
      apply wp_bind, wp_lift. fold required_value. rewrite Hsi.
      apply wp_bind, wp_lift.
      apply wp_bind, wp_yaml_dump_to. fold written.
      destruct written as [e|] eqn:Ew.
      + destruct (isinstance e Exception) eqn:He.
        * wp_go. split; [intros S; contradiction|]. intros _.
          split; [reflexivity|]. split; [discriminate | reflexivity].
        * wp_go. split; [intros S; contradiction|]. intros _.
          split; [reflexivity|]. split; [discriminate|].
          intros e0 [= <-] He0. congruence.
      + wp_go. split; [intros S; contradiction|]. intros _.
        split; [reflexivity|]. split; [reflexivity | discriminate]. }
  apply wp_bind, wp_lift. cbn [PyVal.contains].
  destruct Hsearch as [[Hnone ->] | Hsome].
  - rewrite Hnone. replace (bool_decide (is_Some (@None pyval))) with false
      by (symmetry; apply bool_decide_eq_false; intros [x Hx]; discriminate Hx).
    cbn [negb]. apply wp_bind, wp_lift. cbn [PyVal.setitem].
    apply Hupdated.
    + cbn [PyVal.getitem]. rewrite lookup_insert_eq. reflexivity.
    + cbn [PyVal.setitem]. unfold updated, with_required_formats.
      rewrite insert_insert_eq. reflexivity.
  - rewrite Hsome. replace (bool_decide (is_Some (Some (PDict search)))) with true
      by (symmetry; apply bool_decide_eq_true; eauto).
    cbn [negb]. apply wp_bind, wp_ret.
    apply Hupdated.
    + cbn [PyVal.getitem]. rewrite Hsome. reflexivity.
    + reflexivity.
Qed.

End Formats.


(** *** A settings file whose list of formats was left empty

    The file reads
<<
    search:
      formats:
>>
    which parses to a mapping whose [formats] entry is [None]. *)
Definition formats_left_empty : World :=
  {| run_result := fun _ _ => Environment.completed 0 "";
     popen_result := fun _ _ => Environment.completed 0 "";
     path_exists := fun _ _ => true;
     path_error := fun _ _ => None;
     sleep_result := fun _ _ => None;
     yaml_installed := true;
     yaml_load := fun _ _ =>
       Ret (PDict {[ "search" := PDict {[ "formats" := PNone ]} ]});
     yaml_dump := fun _ _ _ => None;
     cwd := "/srv/AIForge";
     importlib_root := fun _ => Ret "/usr/lib/python3/site-packages/aiforge/..";
     pkg_resources_root := fun _ => Ret "/usr/lib/python3/site-packages/aiforge/.." |}.

(** The values under [search.formats], as C4 speaks of them: the items
    of the sequence stored there, none when no sequence is stored there. *)
Definition formats_under (config : pyval) : list pyval :=
  match config with
  | PDict d =>
      match d !! "search" with
      | Some (PDict search) =>
          match search !! "formats" with
          | Some (PList values) => values
          | _ => []
          end
      | _ => []
      end
  | _ => []
  end.

(** The step wrote the settings file. *)
Definition rewrites (r : run bool) (h : list event) : Prop :=
  exists later doc answer,
    history r = app h later /\ In (EDump settings_file doc answer) later.

(** C4 as the specification words it: whenever the file exists and
    parses, it is rewritten if and only if the set of its formats
    differs from the required one. *)
Definition rewrite_iff_formats_differ (w : World) (h : list event) : Prop :=
  let h1 := log h (EImport "yaml" true) in
  let h2 := log h1 (EExists settings_file true) in
  yaml_installed w = true ->
  path_error w h1 settings_file = None ->
  path_exists w h1 settings_file = true ->
  forall config, yaml_load w h2 settings_file = Ret config ->
  (rewrites (_check_and_update_searxng_formats w h) h <->
   ~ SameFormats (formats_under config)).

Lemma no_formats_differ : ~ SameFormats [].
Proof. intros [_ H]. exact (H "html" (or_introl eq_refl)). Qed.

(** C4 fails as stated: the file exists and parses, its formats (none)
    differ from the required set, and yet nothing is written: [set(None)]
    raises [TypeError], which the step reports and swallows. *)
Lemma empty_formats_entry_is_not_rewritten :
  ~ rewrite_iff_formats_differ formats_left_empty [].
Proof.
  intros H. specialize (H eq_refl eq_refl eq_refl _ eq_refl) as [_ H].
  destruct (H no_formats_differ) as (later & doc & answer & Hh & Hin).
  vm_compute in Hh. subst later.
  cbn [In] in Hin. destruct Hin as [E|[E|[E|[]]]]; discriminate E.
Qed.

Lemma empty_document_shape : settings_shape ∅ ∅ [].
Proof. repeat split; left; split; reflexivity. Qed.

Lemma formats_rewritten_iff_set_differs_witness :
  value (_check_and_update_searxng_formats Environment.all_up []) = Ret true.
Proof.
  destruct (formats_rewritten_iff_set_differs Environment.all_up [] ∅ ∅ []
              eq_refl eq_refl eq_refl eq_refl empty_document_shape) as [_ H].
  destruct (H no_formats_differ) as (_ & Hv & _).
  exact (Hv eq_refl).
Defined.

End Searxng.

(** * Further properties of the script *)


(** ** The two cleanups *)

Module Cleanup.

Import Removal.

Definition down_volumes : list string := ["docker-compose"; "down"; "-v"].

Definition prune_project_images : list string :=
  ["docker"; "image"; "prune"; "-f"; "--filter";
   "label=com.docker.compose.project=aiforge"].

Definition down_orphans : list string :=
  ["docker-compose"; "down"; "-v"; "--remove-orphans"].

Definition prune_builder : list string := ["docker"; "builder"; "prune"; "-f"].
Definition prune_images : list string := ["docker"; "image"; "prune"; "-f"].
Definition prune_volumes : list string := ["docker"; "volume"; "prune"; "-f"].

(** A command of the image removal step. *)
Definition removal_command (argv : list string) : Prop :=
  argv = list_all_images \/ exists image_id, argv = rmi image_id.

Section Cleanups.

Variable w : World.

(** X4. [cleanup] is best effort: it tears the stack down with its
    volumes, then prunes the images of the project, and returns [True]
    as soon as both commands could be run, whatever status they left
    with. Only a command that cannot be started makes it return [False],
    and a teardown that cannot be started leaves the pruning undone. *)
Theorem cleanup_is_best_effort (h : list event) :
  let o1 := run_result w h down_volumes in
  let h1 := log h (ERun down_volumes o1) in
  let o2 := run_result w h1 prune_project_images in
  let h2 := log h1 (ERun prune_project_images o2) in
  let r := cleanup w h in
  (forall p1 p2, o1 = Completed p1 -> o2 = Completed p2 ->
     value r = Ret true /\ history r = h2) /\
  (forall e, o1 = Failed e ->
     history r = h1 /\ (isinstance e Exception = true -> value r = Ret false)) /\
  (forall p1 e, o1 = Completed p1 -> o2 = Failed e ->
     history r = h2 /\ (isinstance e Exception = true -> value r = Ret false)).
Proof.
  cbv zeta. unfold down_volumes, prune_project_images.
  wp_start (cleanup w) h. unfold cleanup.
  wp_go.
  all: repeat split; intros; try discriminate; try congruence.
Qed.

Lemma removal_commands (h : list event) (later : list event) :
  Forall (removal_event w h) later -> Forall removal_command (commands_of later).
Proof.
  induction 1 as [|ev later Hev _ IH]; [constructor|].
  destruct Hev as (argv & o & -> & Hargv). cbn [commands_of flat_map app].
  constructor; [|exact IH].
  destruct Hargv as [->|(p & line & image_id & -> & _)];
    [left; reflexivity | right; eauto].
Qed.

Lemma deep_cleanup_walk (h : list event) :
  (forall h argv e, run_result w h argv = Failed e -> isinstance e Exception = true) ->
  wp (deep_cleanup w) h
     (fun v h' =>
        exists later,
          h' = app h later /\
          ((v = Ret true /\
            exists removal,
              Forall removal_command removal /\
              commands_of later =
              down_orphans :: app removal [prune_builder; prune_images; prune_volumes]) \/
           (v = Ret false /\
            exists argv e earlier,
              In argv [down_orphans; prune_builder; prune_images; prune_volumes] /\
              later = app earlier [ERun argv (Failed e)]))).
Proof.
  intros Hrun. unfold deep_cleanup.
  apply wp_bind, wp_print; cbv beta iota.
  apply wp_bind, wp_print; cbv beta iota.
  apply wp_try.
  apply wp_bind, wp_print; cbv beta iota.
  apply wp_bind, wp_subprocess_run_unchecked. fold down_orphans.
  destruct (run_result w h down_orphans) as [p0|e0] eqn:E0.
  2:{ pose proof (Hrun _ _ _ E0). wp_go_calm.
      eexists. split; [reflexivity|]. right. split; [reflexivity|].
      exists down_orphans, e0, []. split; [left; reflexivity | reflexivity]. }
  apply wp_bind, wp_print; cbv beta iota.
  apply wp_bind_mid
    with (P := fun _ h' =>
                 exists removal,
                   h' = app (log h (ERun down_orphans (Completed p0))) removal /\
                   Forall removal_command (commands_of removal)).
  { apply (wp_mono _ _ _ _ (removal_walk w _)).
    intros v h' [(removal & -> & Hall) Hv]. rewrite (Hv Hrun).
    exists removal. split; [reflexivity|].
    apply (removal_commands _ _ Hall). }
  intros [] h' (removal & -> & Hall).
  fold prune_builder prune_images prune_volumes.
  wp_go_calm.
  all: unfold log; rewrite <- ?app_assoc; cbn [app].
  all: eexists; (split; [reflexivity|]).
  - left. split; [reflexivity|]. exists (commands_of removal).
    split; [exact Hall|].
    cbn [commands_of flat_map app]. fold (commands_of removal).
    change (flat_map _ (app removal ?l)) with (commands_of (app removal l)).
    rewrite commands_of_app. reflexivity.
  - right. split; [reflexivity|].
    eexists prune_volumes, _, (_ :: app removal [_; _]).
    split; [cbn; auto|]. cbn [app]. rewrite <- app_assoc. reflexivity.
  - right. split; [reflexivity|].
    eexists prune_images, _, (_ :: app removal [_]).
    split; [cbn; auto|]. cbn [app]. rewrite <- app_assoc. reflexivity.
  - right. split; [reflexivity|].
    eexists prune_builder, _, (_ :: removal).
    split; [cbn; auto|]. reflexivity.
Qed.


End Cleanups.


End Cleanup.

(** ** The build itself *)

Module Building.

Import Blank.

Section BuildCommand.

Variables (w : World) (self : DockerServiceManager).

(** The build command, over both compose files or the production one. *)
Definition build_command (both : bool) : list string :=
  if both
  then ["docker-compose"; "-f"; compose_file self; "-f"; dev_compose_file self;
        "build"; "--no-cache"]
  else ["docker-compose"; "-f"; compose_file self; "build"; "--no-cache"].

(** X6. When the listing shows no image, the build step starts exactly
    one build and its result is the status of that build: [True] when
    the build left with status zero, [False] when it left with another
    status or could not be started. The development compose file takes
    part in the build only in development mode and only if it exists
    when the step looks for it; in production mode the step does not
    even look. What the build prints has no part in the result. *)
Theorem build_reports_the_build_status (dev_mode : bool) (h : list event)
    (p : CompletedProcess) :
  run_result w h list_aiforge_images = Completed p ->
  ~ nonblank (stdout p) ->
  let h1 := log h (ERun list_aiforge_images (Completed p)) in
  let found := path_exists w h1 (dev_compose_file self) in
  let h2 := if dev_mode then log h1 (EExists (dev_compose_file self) found) else h1 in
  let cmd := build_command (dev_mode && found) in
  let o := popen_result w h2 cmd in
  let r := build_images_if_needed w self dev_mode h in
  (dev_mode = true -> path_error w h1 (dev_compose_file self) = None) ->
  history r = log h2 (EPopen cmd o) /\
  (forall q, o = Completed q -> value r = Ret (returncode q =? 0)) /\
  (forall e, o = Failed e -> isinstance e Exception = true -> value r = Ret false).
Proof.
  intros E T. apply strip_falsy in T. cbv zeta. unfold build_command. intros N.
  wp_start (build_images_if_needed w self dev_mode) h.
  unfold build_images_if_needed.
  apply wp_bind, wp_print; cbv beta iota.
  apply wp_try, wp_bind, wp_subprocess_run_unchecked. rewrite E, T.
  apply wp_bind, wp_print; cbv beta iota.
  apply wp_bind, wp_print; cbv beta iota.
  apply wp_bind.
  destruct dev_mode; cbn [andb];
    [ apply (wp_Path_exists_answers _ _ _ _ (N eq_refl));
      destruct (path_exists w _ (dev_compose_file self)); cbn [app]
    | apply wp_ret; cbn [app] ].
  all: apply wp_bind, wp_subprocess_Popen.
  all: destruct (popen_result w _ _) as [q|e];
    [ apply wp_bind, wp_print; cbv beta iota;
      apply wp_bind, Build.wp_echo_build_lines; cbv beta iota;
      destruct (returncode q =? 0) eqn:Z; wp_go
    | wp_go ].
  all: split; [reflexivity|].
  all: split; intros; try discriminate; try congruence.
Qed.

End BuildCommand.

Lemma build_reports_the_build_status_witness :
  value (build_images_if_needed Build.blank_listing Environment.source_tree true [])
  = Ret true.
Proof.
  refine (proj1 (proj2 (build_reports_the_build_status
                          Build.blank_listing Environment.source_tree true [] _
                          eq_refl _ (fun _ => eq_refl))) _ eq_refl).
  intros (c & Hc & Hs). destruct Hc as [<-|[]]. discriminate Hs.
Defined.

End Building.

(** ** What [start_services] refuses to do *)

Module Starting.

Import Environment.

Section Refusals.

Variables (w : World) (self : DockerServiceManager).

Lemma detected_key (h : list event) (checks : gmap string bool) (key : string) :
  value (check_docker_environment w self h) = Ret checks ->
  key ∈ six_keys ->
  exists b : bool, checks !! key = Some b.
Proof.
  intros Hd Hk. pose proof (detection_keys w self h) as H.
  unfold wp in H. rewrite Hd in H. apply six_keys_bound; assumption.
Qed.

Lemma refused (dev_mode : bool) (h : list event) (checks : gmap string bool) :
  let d := check_docker_environment w self h in
  value d = Ret checks ->
  checks !! "docker_available" = Some false \/
  checks !! "docker_running" = Some false \/
  checks !! "docker_compose_available" = Some false \/
  checks !! "compose_file_exists" = Some false ->
  let r := start_services w self dev_mode h in
  value r = Ret false /\ history r = history d.
Proof.
  intros d Hd Hunmet r. subst r.
  destruct (detected_key h checks "docker_available" Hd) as [b1 K1]; [six_keys_mem|].
  destruct (detected_key h checks "docker_running" Hd) as [b2 K2]; [six_keys_mem|].
  destruct (detected_key h checks "docker_compose_available" Hd) as [b3 K3];
    [six_keys_mem|].
  destruct (detected_key h checks "compose_file_exists" Hd) as [b4 K4]; [six_keys_mem|].
  wp_start (start_services w self dev_mode) h.
  unfold start_services.
  apply wp_bind, wp_print; cbv beta iota.
  apply wp_bind, wp_print; cbv beta iota.
  apply wp_bind, (Start.wp_known _ _ _ checks Hd). fold d.
  apply wp_bind, (Start.wp_checks_getitem _ _ _ _ _ K1).
  destruct b1; cbn [negb]; [|wp_go; split; reflexivity].
  apply wp_bind, (Start.wp_checks_getitem _ _ _ _ _ K2).
  destruct b2; cbn [negb]; [|wp_go; split; reflexivity].
  apply wp_bind, (Start.wp_checks_getitem _ _ _ _ _ K3).
  destruct b3; cbn [negb]; [|wp_go; split; reflexivity].
  apply wp_bind, (Start.wp_checks_getitem _ _ _ _ _ K4).
  destruct b4; cbn [negb]; [|wp_go; split; reflexivity].
  exfalso. destruct Hunmet as [H|[H|[H|H]]]; congruence.
Qed.

(** X7. [start_services] goes no further than the detection when one of
    the four preconditions is reported unmet: Docker, its daemon, Docker
    Compose, the production compose file. It returns [False], and
    nothing is listed, built, torn down or brought up. *)
Theorem start_refused_without_preconditions (dev_mode : bool) (h : list event)
    (checks : gmap string bool) :
  let d := check_docker_environment w self h in
  value d = Ret checks ->
  checks !! "docker_available" = Some false \/
  checks !! "docker_running" = Some false \/
  checks !! "docker_compose_available" = Some false \/
  checks !! "compose_file_exists" = Some false ->
  let r := start_services w self dev_mode h in
  value r = Ret false /\ history r = history d.
Proof. exact (refused dev_mode h checks). Qed.

(** X8. When the four preconditions are met but the build step returns
    [False], [start_services] returns [False] at once: the old containers
    are not torn down and the stack is not brought up. *)
Theorem start_stops_after_a_failed_build (dev_mode : bool) (h : list event)
    (checks : gmap string bool) (dev_found : bool) :
  let d := check_docker_environment w self h in
  value d = Ret checks ->
  checks !! "docker_available" = Some true ->
  checks !! "docker_running" = Some true ->
  checks !! "docker_compose_available" = Some true ->
  checks !! "compose_file_exists" = Some true ->
  checks !! "dev_compose_file_exists" = Some dev_found ->
  let b := build_images_if_needed w self (dev_mode && dev_found) (history d) in
  value b = Ret false ->
  let r := start_services w self dev_mode h in
  value r = Ret false /\ history r = history b.
Proof.
  intros d Hd K1 K2 K3 K4 K5 b Hb r. subst r.
  wp_start (start_services w self dev_mode) h.
  unfold start_services.
  apply wp_bind, wp_print; cbv beta iota.
  apply wp_bind, wp_print; cbv beta iota.
  apply wp_bind, (Start.wp_known _ _ _ checks Hd). fold d.
  apply wp_bind, (Start.wp_checks_getitem _ _ _ _ _ K1); cbn [negb].
  apply wp_bind, (Start.wp_checks_getitem _ _ _ _ _ K2); cbn [negb].
  apply wp_bind, (Start.wp_checks_getitem _ _ _ _ _ K3); cbn [negb].
  apply wp_bind, (Start.wp_checks_getitem _ _ _ _ _ K4); cbn [negb].
  apply wp_bind_mid with (P := fun missing h' =>
                                 missing = (dev_mode && negb dev_found)%bool /\
                                 h' = history d).
  { destruct dev_mode; cbn [andb].
    - apply wp_bind, (Start.wp_checks_getitem _ _ _ _ _ K5). apply wp_ret. auto.
    - apply wp_ret. auto. }
  intros missing h' [-> ->].
  apply wp_bind_mid
    with (P := fun m h' => m = (dev_mode && dev_found)%bool /\ h' = history d).
  { destruct dev_mode, dev_found; cbn [andb negb]; wp_go; auto. }
  intros m h' [-> ->].
  apply wp_bind, wp_print; cbv beta iota.
  apply wp_bind, (Start.wp_known _ _ _ false Hb). fold b. cbn [negb].
  apply wp_ret. split; reflexivity.
Qed.

End Refusals.

Lemma start_refused_without_preconditions_witness :
  value (start_services daemon_down source_tree true []) = Ret false.
Proof.
  refine (proj1 (start_refused_without_preconditions
                   daemon_down source_tree true []
                   (<["docker_available" := true]> initial_checks) eq_refl _)).
  right; left. reflexivity.
Defined.

(** A machine on which everything is in place, no image is built yet,
    and the build fails. *)
Definition build_fails : World :=
  {| run_result := fun _ argv =>
       if bool_decide (argv = list_aiforge_images)
       then completed 0 ""
       else completed 0 "Docker version 24.0.7";
     popen_result := fun _ _ =>
       Completed {| returncode := 1; stdout := "ERROR: failed to solve"; stderr := "" |};
     path_exists := fun _ _ => true;
     path_error := fun _ _ => None;
     sleep_result := fun _ _ => None;
     yaml_installed := true;
     yaml_load := fun _ _ => Ret (PDict ∅);
     yaml_dump := fun _ _ _ => None;
     cwd := "/srv/AIForge";
     importlib_root := fun _ => Ret "/usr/lib/python3/site-packages/aiforge/..";
     pkg_resources_root := fun _ => Ret "/usr/lib/python3/site-packages/aiforge/.." |}.

Lemma start_stops_after_a_failed_build_witness :
  value (start_services build_fails source_tree false []) = Ret false.
Proof.
  refine (proj1 (start_stops_after_a_failed_build
                   build_fails source_tree false []
                   (<["dev_compose_file_exists" := true]>
                      (<["compose_file_exists" := true]>
                         (<["docker_compose_available" := true]>
                            (<["docker_running" := true]>
                               (<["docker_available" := true]> initial_checks)))))
                   true eq_refl eq_refl eq_refl eq_refl eq_refl eq_refl eq_refl)).
Defined.

End Starting.

(** ** The detection as a whole *)

Module Probing.

Import Environment.

(** A history grown event by event is the old one followed by the
    events. *)
Lemma logged (h : list event) (events : list event) :
  fold_left log events h = app h events.
Proof.
  revert h. induction events as [|ev events IH]; intros h; cbn [fold_left].
  - rewrite app_nil_r. reflexivity.
  - rewrite IH. unfold log. rewrite <- app_assoc. reflexivity.
Qed.

(** An interaction is the probe of [path], answered or not. *)
Definition probe_of (path : string) (ev : event) : Prop :=
  (exists found, ev = EExists path found) \/ (exists e, ev = EExistsFailed path e).

Section Stages.

Variables (w : World) (self : DockerServiceManager).

Ltac stage_leaf :=
  cbn [exit_zero lists_something] in *;
  first
    [ left; split; [reflexivity|]; first [exact I | reports_done]
    | right; left; split; [reflexivity|]; first [exact I | reports_done]
    | right; right; left; split; [reflexivity|]; eexists; reflexivity
    | right; right; right; left; split; [reflexivity|];
      first [exact I | eexists _, _, _, _; reports_done] ].

Lemma detection_stages (h : list event) :
  wp (check_docker_environment w self) h
     (fun r h' =>
        let o1 := run_result w h docker_version in
        let h1 := log h (ERun docker_version o1) in
        let o2 := run_result w h1 docker_info in
        let h2 := log h1 (ERun docker_info o2) in
        let o3 := run_result w h2 compose_version in
        let h3 := log h2 (ERun compose_version o3) in
        let b4 := path_exists w h3 (compose_file self) in
        let h4 := log h3 (EExists (compose_file self) b4) in
        let b5 := path_exists w h4 (dev_compose_file self) in
        let h5 := log h4 (EExists (dev_compose_file self) b5) in
        let o6 := run_result w h5 list_aiforge_images in
        let h6 := log h5 (ERun list_aiforge_images o6) in
        (h' = h1 /\
         match r with
         | Ret c => reports c false false false false false false
         | Raise _ => True
         end) \/
        (h' = h2 /\
         match r with
         | Ret c => reports c true false false false false false
         | Raise _ => True
         end) \/
        (h' = h3 /\ exists e, r = Raise e) \/
        (h' = h6 /\
         match r with
         | Ret c => exists b3 b4 b5 b6, reports c true b3 true b4 b5 b6
         | Raise _ => True
         end) \/
        (exists e, h' = log h3 (EExistsFailed (compose_file self) e) /\ r = Raise e) \/
        (exists e, h' = log h4 (EExistsFailed (dev_compose_file self) e) /\ r = Raise e)).
Proof.
  cbv zeta. unfold docker_version, docker_info, compose_version.
  unfold check_docker_environment.
  apply wp_bind, wp_print; cbv beta iota.
  apply wp_bind_flow_mid
    with (P := fun c h' =>
                 reports c true false false false false false /\
                 h' = log h (ERun ["docker"; "--version"]
                                  (run_result w h ["docker"; "--version"]))).
  { wp_go; first [stage_leaf | split; [reports_done | reflexivity]]. }
  intros c1 ? [R1 ->].
  apply wp_bind_flow_mid
    with (P := fun c h' =>
                 reports c true false true false false false /\
                 h' = log (log h (ERun ["docker"; "--version"]
                                       (run_result w h ["docker"; "--version"])))
                          (ERun ["docker"; "info"]
                                (run_result w
                                   (log h (ERun ["docker"; "--version"]
                                                (run_result w h ["docker"; "--version"])))
                                   ["docker"; "info"]))).
  { wp_go; first [stage_leaf | split; [reports_done | reflexivity]]. }
  intros c2 ? [R2 ->].
  set (h2 := log (log h _) _).
  apply wp_bind_mid
    with (P := fun c h' =>
                 (exists b3, reports c true b3 true false false false) /\
                 h' = log h2 (ERun ["docker-compose"; "--version"]
                                   (run_result w h2 ["docker-compose"; "--version"]))).
  { wp_go; first [stage_leaf | split; [eexists; reports_done | reflexivity]]. }
  intros c3 ? [[b3 R3] ->].
  set (h3 := log h2 _).
  apply wp_bind, wp_Path_exists.
  destruct (path_error w h3 (compose_file self)) as [e4|];
    [right; right; right; right; left; eauto|].
  set (h4 := log h3 _).
  apply wp_bind_mid
    with (P := fun c h' => (exists b4, reports c true b3 true b4 false false) /\ h' = h4).
  { wp_go; split; first [eexists; reports_done | reflexivity]. }
  intros c4 ? [[b4 R4] ->].
  apply wp_bind, wp_Path_exists.
  destruct (path_error w h4 (dev_compose_file self)) as [e5|];
    [right; right; right; right; right; eauto|].
  set (h5 := log h4 _).
  apply wp_bind_mid
    with (P := fun c h' => (exists b5, reports c true b3 true b4 b5 false) /\ h' = h5).
  { wp_go; split; first [eexists; reports_done | reflexivity]. }
  intros c5 ? [[b5 R5] ->].
  apply wp_bind_mid
    with (P := fun c h' =>
                 (exists b6, reports c true b3 true b4 b5 b6) /\
                 h' = log h5 (ERun list_aiforge_images
                                   (run_result w h5 list_aiforge_images))).
  { wp_go; first [stage_leaf | split; [eexists; reports_done | reflexivity]]. }
  intros c6 ? [[b6 R6] ->].
  wp_go. right; right; right; left. split; [reflexivity|]. eauto.
Qed.

(** X9. The detection only looks: whatever the machine answers, all it
    does is run its probes in their fixed order, [docker --version],
    [docker info], [docker-compose --version], the two file probes and
    the image listing. It ends after the first, the second or the sixth,
    or after the third when that one raises something other than a
    missing executable, or at a file probe that raises instead of
    answering; no other command is run and nothing is written. *)
Theorem detection_only_probes (h : list event) :
  let r := check_docker_environment w self h in
  exists o1 o2 o3 p4 p5 o6 n,
    probe_of (compose_file self) p4 /\
    probe_of (dev_compose_file self) p5 /\
    (n = 1 \/ n = 2 \/ n = 3 \/ n = 6 \/
     (n = 4 /\ exists e, p4 = EExistsFailed (compose_file self) e) \/
     (n = 5 /\ exists e, p5 = EExistsFailed (dev_compose_file self) e))%nat /\
    history r =
    app h (firstn n [ ERun docker_version o1; ERun docker_info o2;
                      ERun compose_version o3; p4; p5;
                      ERun list_aiforge_images o6 ]).
Proof.
  cbv zeta. pose proof (detection_stages h) as H. unfold wp in H. cbv zeta in H.
  pose (o1 := run_result w h docker_version).
  pose (h1 := log h (ERun docker_version o1)).
  pose (o2 := run_result w h1 docker_info).
  pose (h2 := log h1 (ERun docker_info o2)).
  pose (o3 := run_result w h2 compose_version).
  pose (h3 := log h2 (ERun compose_version o3)).
  pose (p4 := EExists (compose_file self) (path_exists w h3 (compose_file self))).
  pose (h4 := log h3 p4).
  pose (p5 := EExists (dev_compose_file self)
                      (path_exists w h4 (dev_compose_file self))).
  pose (h5 := log h4 p5).
  pose (o6 := run_result w h5 list_aiforge_images).
  assert (A4 : probe_of (compose_file self) p4) by (left; eexists; reflexivity).
  assert (A5 : probe_of (dev_compose_file self) p5) by (left; eexists; reflexivity).
  destruct H as [[-> _]|[[-> _]|[[-> _]|[[-> _]|[(e & -> & _)|(e & -> & _)]]]]].
  - exists o1, o2, o3, p4, p5, o6, 1%nat.
    split; [exact A4|]. split; [exact A5|]. split; [auto|]. reflexivity.
  - exists o1, o2, o3, p4, p5, o6, 2%nat.
    split; [exact A4|]. split; [exact A5|]. split; [auto|].
    exact (logged h [_; _]).
  - exists o1, o2, o3, p4, p5, o6, 3%nat.
    split; [exact A4|]. split; [exact A5|]. split; [auto|].
    exact (logged h [_; _; _]).
  - exists o1, o2, o3, p4, p5, o6, 6%nat.
    split; [exact A4|]. split; [exact A5|]. split; [auto|].
    exact (logged h [_; _; _; _; _; _]).
  - exists o1, o2, o3, (EExistsFailed (compose_file self) e), p5, o6, 4%nat.
    split; [right; eauto|]. split; [exact A5|].
    split; [right; right; right; right; left; eauto|].
    exact (logged h [_; _; _; _]).
  - exists o1, o2, o3, p4, (EExistsFailed (dev_compose_file self) e), o6, 5%nat.
    split; [exact A4|]. split; [right; eauto|].
    split; [right; right; right; right; right; eauto|].
    exact (logged h [_; _; _; _; _]).
Qed.

(** X10. In a mapping the detection returns, an entry is true only if
    the checks before the early returns succeeded: the daemon is
    reported running only with Docker reported available, and Docker
    Compose, either compose file or the image is reported present only
    with both. A false entry for one of these four may thus mean that
    the check was never made. *)
Theorem detection_entries_are_ordered (h : list event) (checks : gmap string bool) :
  value (check_docker_environment w self h) = Ret checks ->
  (checks !! "docker_running" = Some true ->
   checks !! "docker_available" = Some true) /\
  (forall key,
     In key ["docker_compose_available"; "compose_file_exists";
             "dev_compose_file_exists"; "aiforge_image_exists"] ->
     checks !! key = Some true ->
     checks !! "docker_available" = Some true /\
     checks !! "docker_running" = Some true).
Proof.
  intros Hd. pose proof (detection_stages h) as H. unfold wp in H. cbv zeta in H.
  rewrite Hd in H.
  destruct H as [[_ R]|[[_ R]|[[_ [e He]]|[[_ (b3 & b4 & b5 & b6 & R)]
                |[(e & _ & He)|(e & _ & He)]]]]];
    try discriminate He;
    destruct R as (K1 & K2 & K3 & K4 & K5 & K6).
  all: split;
    [ intros; congruence
    | intros key Hk Ht; cbn [In] in Hk;
      destruct Hk as [<-|[<-|[<-|[<-|[]]]]]; split; congruence ].
Qed.

End Stages.

Lemma detection_entries_are_ordered_witness :
  Start.found_without_dev_file !! "docker_available" = Some true.
Proof.
  exact (proj1 (detection_entries_are_ordered
                  Start.no_dev_file source_tree [] Start.found_without_dev_file
                  eq_refl) eq_refl).
Defined.

End Probing.

(** ** What the SearXNG step may write *)

Module Settings.

Import Searxng.

Section Writes.

Variable w : World.

(** X11. Whatever the machine answers, the SearXNG step runs no command
    and its interactions follow one fixed order: the import of PyYAML,
    the probe of the settings file, the load of that file, one write.
    It stops after the import when PyYAML is missing, after the probe
    when the file is missing or the probe raises, after the load when
    that fails or nothing is to be changed. So it writes at most once,
    the settings file only, and only after having loaded it; and in the
    document it writes, [search.formats] is the required list. *)
Theorem searxng_write_is_confined (h : list event) :
  let r := _check_and_update_searxng_formats w h in
  exists later,
    history r = app h later /\
    commands_of later = [] /\
    (later = [EImport "yaml" false] \/
     (exists e, later = [EImport "yaml" true; EExistsFailed settings_file e]) \/
     later = [EImport "yaml" true; EExists settings_file false] \/
     (exists loaded,
        later = [EImport "yaml" true; EExists settings_file true;
                 ELoad settings_file loaded]) \/
     (exists config doc written search,
        later = [EImport "yaml" true; EExists settings_file true;
                 ELoad settings_file (Ret config);
                 EDump settings_file doc written] /\
        PyVal.getitem doc "search" = Ret search /\
        PyVal.getitem search "formats" = Ret (PList (map PStr required_formats)))).
Proof.
  cbv zeta. pose proof (Confined.searxng_walk w h) as H. unfold wp in H.
  destruct H as [(e & _ & _ & _ & Hh) | (later & Hh & Htrace & _)].
  - eexists. split; [exact Hh|]. split; [reflexivity|]. right; left. eauto.
  - exists later. split; [exact Hh|].
    destruct Htrace as [->|[->|[[loaded ->]|(config & doc & o & search & -> & Hs & Hf)]]].
    + split; [reflexivity|]. left. reflexivity.
    + split; [reflexivity|]. right; right; left. reflexivity.
    + split; [reflexivity|]. right; right; right; left. eauto.
    + split; [reflexivity|]. right; right; right; right.
      exists config, doc, o, search. auto.
Qed.

(** X12. The update is stable: when the settings file holds a document
    the step writes, a pass over it finds the formats up to date,
    returns [False] and writes nothing. *)
Theorem second_pass_writes_nothing (h : list event) (d search : gmap string pyval) :
  let h1 := log h (EImport "yaml" true) in
  let h2 := log h1 (EExists settings_file true) in
  let doc := with_required_formats d search in
  yaml_installed w = true ->
  path_error w h1 settings_file = None ->
  path_exists w h1 settings_file = true ->
  yaml_load w h2 settings_file = Ret doc ->
  let r := _check_and_update_searxng_formats w h in
  value r = Ret false /\ history r = log h2 (ELoad settings_file (Ret doc)).
Proof.
  intros h1 h2 doc Hyaml Hprobe Hfile Hload r. subst r.
  wp_start (_check_and_update_searxng_formats w) h.
  unfold _check_and_update_searxng_formats.
  apply wp_bind_flow, wp_try, wp_bind, wp_import_yaml. rewrite Hyaml.
  fold h1. wp_steps. rewrite Hprobe, Hfile. fold h2. cbn [negb].
  apply wp_try, wp_bind, wp_yaml_safe_load. rewrite Hload.
  unfold doc, with_required_formats.
  apply wp_bind, wp_lift. cbn [PyVal.contains]. rewrite lookup_insert_eq.
  replace (bool_decide (is_Some (Some (PDict (<["formats" := required_value]> search)))))
    with true by (symmetry; apply bool_decide_eq_true; eauto).
  cbn [negb]. apply wp_bind, wp_ret.
  apply wp_bind, wp_lift. cbn [PyVal.getitem]. rewrite lookup_insert_eq.
  apply wp_bind, wp_lift. cbn [PyVal.get]. rewrite lookup_insert_eq.
  apply wp_bind, wp_lift.
  change (PyVal.set required_value) with (@Ret PyVal.pyset (map PStr required_formats)).
  cbv beta iota.
  apply wp_bind, wp_lift.
  change (PyVal.set (PList (map PStr required_formats)))
    with (@Ret PyVal.pyset (map PStr required_formats)).
  cbv beta iota.
  change (PyVal.set_eq (map PStr required_formats) (map PStr required_formats))
    with true.
  cbn [negb]. wp_go. split; reflexivity.
Qed.

End Writes.

(** A machine whose settings file already holds the required formats. *)
Definition formats_in_place : World :=
  {| run_result := fun _ _ => Environment.completed 0 "";
     popen_result := fun _ _ => Environment.completed 0 "";
     path_exists := fun _ _ => true;
     path_error := fun _ _ => None;
     sleep_result := fun _ _ => None;
     yaml_installed := true;
     yaml_load := fun _ _ => Ret (with_required_formats ∅ ∅);
     yaml_dump := fun _ _ _ => None;
     cwd := "/srv/AIForge";
     importlib_root := fun _ => Ret "/usr/lib/python3/site-packages/aiforge/..";
     pkg_resources_root := fun _ => Ret "/usr/lib/python3/site-packages/aiforge/.." |}.

Lemma second_pass_writes_nothing_witness :
  value (_check_and_update_searxng_formats formats_in_place []) = Ret false.
Proof.
  exact (proj1 (second_pass_writes_nothing formats_in_place [] ∅ ∅
                  eq_refl eq_refl eq_refl eq_refl)).
Defined.

End Settings.

(** ** The status report *)

Module Status.

Import CommandLine.

Section ShowStatus.

Variable w : World.

(** X13. [show_status] asks for the health of the services only after a
    process listing that left with status zero: it then prints the
    listing and runs the three status queries, and nothing else. After a
    listing that failed, whatever the way, no query is made. *)
Theorem status_checks_health_after_listing (h : list event) :
  (forall h argv e, run_result w h argv = Failed e -> isinstance e Exception = true) ->
  let o := run_result w h process_list in
  let h1 := log h (ERun process_list o) in
  let r := show_status w h in
  (exit_zero o = true ->
     value r = Ret tt /\
     exists later,
       history r = app h1 later /\
       commands_of later = [ Health.status_query "aiforge-engine";
                             Health.status_query "aiforge-searxng";
                             Health.status_query "aiforge-nginx" ]) /\
  (exit_zero o = false -> history r = h1).
Proof.
  intros Hrun. cbv zeta. unfold process_list.
  wp_start (show_status w) h. unfold show_status.
  apply wp_bind, wp_print; cbv beta iota.
  apply wp_bind, wp_print; cbv beta iota.
  apply wp_try, wp_bind, wp_subprocess_run.
  destruct (run_result w h ["docker-compose"; "ps"]) as [p|e] eqn:E;
    cbn [exit_zero andb].
  - destruct (returncode p =? 0) eqn:Z; cbn [negb].
    + apply wp_bind, wp_print; cbv beta iota.
      apply (wp_mono _ _ _ _ (Health.health_queries w _ Hrun)).
      intros v h' (-> & o1 & o2 & o3 & ->).
      split; [|discriminate]. intros _. split; [reflexivity|].
      eexists. split; reflexivity.
    + wp_go. split; [discriminate | reflexivity].
  - wp_go; (split; [discriminate | reflexivity]).
Qed.

End ShowStatus.

Lemma status_checks_health_after_listing_witness :
  value (show_status Environment.all_up []) = Ret tt.
Proof.
  refine (proj1 (proj1 (status_checks_health_after_listing Environment.all_up [] _)
                   eq_refl)).
  intros h argv e H. discriminate H.
Defined.

End Status.

(** ** From the command line to the detection *)

Module Launch.

Import Environment CommandLine.

Section NoDocker.

Variable w : World.

Lemma main_history (action : string) (dev : bool) (h : list event)
    (manager : DockerServiceManager) :
  In action choices ->
  value (__init__ w h) = Ret manager ->
  history (main w action dev h) =
  history (dispatch w manager action dev (history (__init__ w h))).
Proof.
  intros Hin Hinit. unfold main.
  rewrite (valid_action _ Hin). cbn [negb].
  rewrite bind_run, Hinit. cbn [value history].
  rewrite bind_run. unfold try_except.
  destruct (value (dispatch w manager action dev _)) as [b|e] eqn:Ea.
  - rewrite Ea. reflexivity.
  - unfold orelse, except.
    destruct (isinstance e KeyboardInterrupt); [reflexivity|].
    destruct (isinstance e Exception); [reflexivity|].
    rewrite Ea. reflexivity.
Qed.

Lemma detection_raises (self : DockerServiceManager) (h : list event) (e : exn) :
  run_result w h docker_version = Failed e ->
  isinstance e FileNotFoundError = false ->
  wp (check_docker_environment w self) h
     (fun r h' => r = Raise e /\ h' = log h (ERun docker_version (Failed e))).
Proof.
  unfold docker_version. intros E He. unfold check_docker_environment.
  apply wp_bind, wp_print; cbv beta iota.
  apply wp_bind_flow. wp_go. split; reflexivity.
Qed.

(** X14. On a machine where [docker --version] does not succeed (it
    leaves with a non-zero status, or cannot be started, or is
    interrupted), the [start] action ends with status 1 and that probe
    is the only thing it ran after the manager was set up: nothing is
    built and no container is touched. *)
Theorem start_without_docker_exits_one (dev : bool) (h : list event)
    (manager : DockerServiceManager) :
  value (__init__ w h) = Ret manager ->
  let h0 := history (__init__ w h) in
  let o1 := run_result w h0 docker_version in
  exit_zero o1 = false ->
  exit_status (main w "start" dev h) = 1 /\
  history (main w "start" dev h) = log h0 (ERun docker_version o1).
Proof.
  intros Hinit h0 o1 Z1.
  assert (Hin : In "start" choices) by (cbn; auto).
  rewrite (main_exit_status w "start" dev h manager Hin Hinit).
  rewrite (main_history "start" dev h manager Hin Hinit).
  fold h0. unfold dispatch. cbn [String.eqb Ascii.eqb Bool.eqb].
  destruct (escapes FileNotFoundError o1) eqn:X1.
  - destruct o1 as [p1|e1] eqn:E1; cbn [escapes] in X1; [discriminate|].
    apply negb_true_iff in X1.
    wp_start (start_services w manager dev) h0. unfold start_services.
    apply wp_bind, wp_print; cbv beta iota.
    apply wp_bind, wp_print; cbv beta iota.
    apply wp_bind, (wp_mono _ _ _ _ (detection_raises manager h0 e1 E1 X1)).
    intros r h' [-> ->]. split; reflexivity.
  - pose proof (detection_without_runtime w manager h0 o1 eq_refl Z1 X1)
      as [(checks & Hv & K1 & _) Hh].
    destruct (Starting.refused w manager dev h0 checks Hv (or_introl K1)) as [Hr Hrh].
    rewrite Hr, Hrh, Hh. split; reflexivity.
Qed.

End NoDocker.

(** A machine without Docker. *)
Definition docker_missing : World :=
  {| run_result := fun _ _ =>
       Failed (mk_exn FileNotFoundError "No such file or directory: 'docker'");
     popen_result := fun _ _ => completed 0 "";
     path_exists := fun _ _ => true;
     path_error := fun _ _ => None;
     sleep_result := fun _ _ => None;
     yaml_installed := true;
     yaml_load := fun _ _ => Ret (PDict ∅);
     yaml_dump := fun _ _ _ => None;
     cwd := "/srv/AIForge";
     importlib_root := fun _ => Ret "/usr/lib/python3/site-packages/aiforge/..";
     pkg_resources_root := fun _ => Ret "/usr/lib/python3/site-packages/aiforge/.." |}.

Lemma start_without_docker_exits_one_witness :
  exit_status (main docker_missing "start" true []) = 1.
Proof.
  exact (proj1 (start_without_docker_exits_one
                  docker_missing true [] source_tree eq_refl eq_refl)).
Defined.

End Launch.

(** ** What follows a successful start *)

Module AfterUp.

Import Environment.

Section Sequence.

Variables (w : World) (self : DockerServiceManager).


End Sequence.


End AfterUp.

(** ** The order of the removals *)

Module Order.

Import PyStrFacts ImageRemoval Removal.

Section Removals.

Variable w : World.

Lemma removal_prefix (h : list event) (p : CompletedProcess) :
  run_result w h list_all_images = Completed p ->
  wp (_remove_aiforge_built_images_only w) h
     (fun _ h' =>
        exists done rest later,
          flat_map picked (split LF (strip (stdout p))) = app done rest /\
          h' = app h later /\
          commands_of later = list_all_images :: map rmi done /\
          ((forall argv e, ~ In (ERun argv (Failed e)) later) -> rest = [])).
Proof.
  intros E. unfold _remove_aiforge_built_images_only.
  apply wp_try, wp_bind, wp_subprocess_run_unchecked. rewrite E.
  destruct (truthy (strip (stdout p))) eqn:T; cbn [negb].
  2:{ wp_go. exists [], [], [ERun list_all_images (Completed p)].
      split; [destruct (strip (stdout p)); [reflexivity | discriminate T]|].
      split; [reflexivity|]. split; [reflexivity | reflexivity]. }
  apply wp_bind.
  apply (wp_of_run _ _ _ _ _ _ (marking_loop (split LF (strip (stdout p))) [] _)).
  cbn [app].
  set (ids := flat_map picked (split LF (strip (stdout p)))).
  apply wp_bind.
  apply wp_for_in_prefix
    with (I := fun done _ h' =>
                 exists later,
                   h' = app h later /\
                   commands_of later = list_all_images :: map rmi done).
  - eexists. split; reflexivity.
  - intros done image_id rest [] h' Hids (later & -> & Hc).
    apply wp_bind, wp_subprocess_run_unchecked. fold (rmi image_id).
    assert (Hnext : forall o,
              commands_of (app later [ERun (rmi image_id) o]) =
              list_all_images :: map rmi (app done [image_id]))
      by (intros o; rewrite commands_of_app, Hc, map_app; reflexivity).
    assert (Hstop : forall e,
              exists done' rest' later',
                ids = app done' rest' /\
                log (app h later) (ERun (rmi image_id) (Failed e)) = app h later' /\
                commands_of later' = list_all_images :: map rmi done' /\
                ((forall argv e0, ~ In (ERun argv (Failed e0)) later') -> rest' = [])).
    { intros e. exists (app done [image_id]), rest,
        (app later [ERun (rmi image_id) (Failed e)]).
      split; [rewrite Hids, <- app_assoc; reflexivity|].
      split; [unfold log; rewrite <- app_assoc; reflexivity|].
      split; [apply Hnext|].
      intros Hnone. exfalso. apply (Hnone (rmi image_id) e).
      apply in_or_app. right. left. reflexivity. }
    destruct (run_result w _ (rmi image_id)) as [q|e].
    + wp_go. eexists. split; [unfold log; rewrite <- app_assoc; reflexivity|].
      apply Hnext.
    + unfold except. destruct (isinstance e Exception); [wp_go|]; apply Hstop.
  - intros [] h' (later & -> & Hc).
    destruct ids eqn:Hids; wp_go;
      (eexists _, [], later; rewrite app_nil_r;
       split; [reflexivity|]; split; [reflexivity|]; split; [exact Hc | reflexivity]).
Qed.


End Removals.


End Order.

(** ** Where the compose files are taken from *)

Module Setup.

Section Init.

Variable w : World.

(** An interaction is one of the two lookups of the package directory. *)
Definition package_lookup (ev : event) : Prop :=
  exists api answer, ev = ELookup api answer.

(** A path is [filename] in a directory that a lookup answered. *)
Definition resolved (lookups : list event) (filename path : string) : Prop :=
  exists api root,
    In (ELookup api (Ret root)) lookups /\ path = path_join root filename.

Ltac looked_up :=
  eexists;
  split; [unfold log; rewrite <- ?app_assoc; reflexivity|];
  split;
    [ intros ev Hin; cbn [In app] in Hin;
      repeat (destruct Hin as [<-|Hin]; [eexists _, _; reflexivity|]);
      contradiction
    | intros manager Hm;
      first [ discriminate Hm
            | injection Hm as <-; cbn [compose_file dev_compose_file];
              split; eexists _, _; (split; [|reflexivity]);
              cbn [In app]; eauto 8 ] ].

Ltac lookup_case :=
  match goal with
  | |- match importlib_root ?w ?h with _ => _ end =>
      destruct (importlib_root w h) as [?root|?e]
  | |- match pkg_resources_root ?w ?h with _ => _ end =>
      destruct (pkg_resources_root w h) as [?root|?e]
  end.

(** The branch of the constructor that takes the files of the package. *)
Lemma package_files (h : list event) :
  wp (c ← _get_package_resource w "docker-compose.yml";
      d ← _get_package_resource w "docker-compose.dev.yml";
      ret {| compose_file := c; dev_compose_file := d |}) h
     (fun v h' =>
        exists lookups,
          h' = app h lookups /\
          (forall ev, In ev lookups -> package_lookup ev) /\
          (forall manager, v = Ret manager ->
             resolved lookups "docker-compose.yml" (compose_file manager) /\
             resolved lookups "docker-compose.dev.yml" (dev_compose_file manager))).
Proof.
  unfold _get_package_resource, package_lookup, resolved.
  repeat (first [wp_step | lookup_case | wp_case_calm | wp_case]; cbv beta iota).
  all: looked_up.
Qed.


End Init.


End Setup.
